(** * LLMChat: conversation management, history trimming and request assembly

    A shallow embedding of the core of the chat client
    ([src/config/app_config.py], [src/utils/message_handler.py],
    [src/utils/chat_manager.py], [src/utils/chat_io.py],
    [src/utils/api_client.py] and [handle_user_input] of [src/main.py])
    together with the properties its specification states about it.

    Conventions of the embedding.
    - A Python [str] is a [string] that holds its UTF-8 encoding; its
      characters are its code points.  [len], [str.strip],
      [str.isalnum] and [str.capitalize] work on code points and
      consult the character database of Unicode 14.0.0, the one of
      CPython 3.11.
    - A message is the dictionary [{"role": r, "content": c}] with both
      fields strings and no other key; a conversation that holds
      anything else lies outside the development, and the operations
      that would produce one ([import_chat], [init_session_state]) give
      [None] for it.
    - A Python [dict] is an association list in insertion order without
      duplicate keys; a Python [list] that is shared between
      [st.session_state.messages] and [st.session_state.chats] lives in
      a heap of list objects and is referred to by its location.
    - [time()] readings are exact rationals: the subtraction of two
      nearby clock readings is exact in binary64.
    - The texts of exceptions are those of CPython 3.11 and of
      [requests] from version 2.27 on, where the error of
      [response.json()] is a [RequestException]; texts that the
      operating system, the JSON decoder or the network stack word are
      carried by the input they come with. *)

From Stdlib Require Import Ascii String QArith Lqa.
From stdpp Require Import base list strings sorting pretty.
Close Scope Q_scope.
Open Scope string_scope.
Open Scope list_scope.
Open Scope nat_scope.

(** ** Characters and strings as Python sees them *)

(** The character database of the Python runtime (Unicode 14.0.0, the
    version of CPython 3.11), as far as [str.isspace], [str.isalnum] and
    [str.capitalize] consult it. *)
Module Unicode.

(** The code points [c] with [chr(c).isspace()], as inclusive ranges. *)
Definition isspace_ranges : list (N * N) :=
  [(9, 13); (28, 32); (133, 133); (160, 160); (5760, 5760);
   (8192, 8202); (8232, 8233); (8239, 8239); (8287, 8287); (12288, 12288)]%N.

(** The code points [c] with [chr(c).isalnum()]: letters, decimals,
    digits and numeric characters. *)
Definition isalnum_ranges : list (N * N) :=
  [(48, 57); (65, 90); (97, 122); (170, 170); (178, 179);
   (181, 181); (185, 186); (188, 190); (192, 214); (216, 246);
   (248, 705); (710, 721); (736, 740); (748, 748); (750, 750);
   (880, 884); (886, 887); (890, 893); (895, 895); (902, 902);
   (904, 906); (908, 908); (910, 929); (931, 1013); (1015, 1153);
   (1162, 1327); (1329, 1366); (1369, 1369); (1376, 1416); (1488, 1514);
   (1519, 1522); (1568, 1610); (1632, 1641); (1646, 1647); (1649, 1747);
   (1749, 1749); (1765, 1766); (1774, 1788); (1791, 1791); (1808, 1808);
   (1810, 1839); (1869, 1957); (1969, 1969); (1984, 2026); (2036, 2037);
   (2042, 2042); (2048, 2069); (2074, 2074); (2084, 2084); (2088, 2088);
   (2112, 2136); (2144, 2154); (2160, 2183); (2185, 2190); (2208, 2249);
   (2308, 2361); (2365, 2365); (2384, 2384); (2392, 2401); (2406, 2415);
   (2417, 2432); (2437, 2444); (2447, 2448); (2451, 2472); (2474, 2480);
   (2482, 2482); (2486, 2489); (2493, 2493); (2510, 2510); (2524, 2525);
   (2527, 2529); (2534, 2545); (2548, 2553); (2556, 2556); (2565, 2570);
   (2575, 2576); (2579, 2600); (2602, 2608); (2610, 2611); (2613, 2614);
   (2616, 2617); (2649, 2652); (2654, 2654); (2662, 2671); (2674, 2676);
   (2693, 2701); (2703, 2705); (2707, 2728); (2730, 2736); (2738, 2739);
   (2741, 2745); (2749, 2749); (2768, 2768); (2784, 2785); (2790, 2799);
   (2809, 2809); (2821, 2828); (2831, 2832); (2835, 2856); (2858, 2864);
   (2866, 2867); (2869, 2873); (2877, 2877); (2908, 2909); (2911, 2913);
   (2918, 2927); (2929, 2935); (2947, 2947); (2949, 2954); (2958, 2960);
   (2962, 2965); (2969, 2970); (2972, 2972); (2974, 2975); (2979, 2980);
   (2984, 2986); (2990, 3001); (3024, 3024); (3046, 3058); (3077, 3084);
   (3086, 3088); (3090, 3112); (3114, 3129); (3133, 3133); (3160, 3162);
   (3165, 3165); (3168, 3169); (3174, 3183); (3192, 3198); (3200, 3200);
   (3205, 3212); (3214, 3216); (3218, 3240); (3242, 3251); (3253, 3257);
   (3261, 3261); (3293, 3294); (3296, 3297); (3302, 3311); (3313, 3314);
   (3332, 3340); (3342, 3344); (3346, 3386); (3389, 3389); (3406, 3406);
   (3412, 3414); (3416, 3425); (3430, 3448); (3450, 3455); (3461, 3478);
   (3482, 3505); (3507, 3515); (3517, 3517); (3520, 3526); (3558, 3567);
   (3585, 3632); (3634, 3635); (3648, 3654); (3664, 3673); (3713, 3714);
   (3716, 3716); (3718, 3722); (3724, 3747); (3749, 3749); (3751, 3760);
   (3762, 3763); (3773, 3773); (3776, 3780); (3782, 3782); (3792, 3801);
   (3804, 3807); (3840, 3840); (3872, 3891); (3904, 3911); (3913, 3948);
   (3976, 3980); (4096, 4138); (4159, 4169); (4176, 4181); (4186, 4189);
   (4193, 4193); (4197, 4198); (4206, 4208); (4213, 4225); (4238, 4238);
   (4240, 4249); (4256, 4293); (4295, 4295); (4301, 4301); (4304, 4346);
   (4348, 4680); (4682, 4685); (4688, 4694); (4696, 4696); (4698, 4701);
   (4704, 4744); (4746, 4749); (4752, 4784); (4786, 4789); (4792, 4798);
   (4800, 4800); (4802, 4805); (4808, 4822); (4824, 4880); (4882, 4885);
   (4888, 4954); (4969, 4988); (4992, 5007); (5024, 5109); (5112, 5117);
   (5121, 5740); (5743, 5759); (5761, 5786); (5792, 5866); (5870, 5880);
   (5888, 5905); (5919, 5937); (5952, 5969); (5984, 5996); (5998, 6000);
   (6016, 6067); (6103, 6103); (6108, 6108); (6112, 6121); (6128, 6137);
   (6160, 6169); (6176, 6264); (6272, 6276); (6279, 6312); (6314, 6314);
   (6320, 6389); (6400, 6430); (6470, 6509); (6512, 6516); (6528, 6571);
   (6576, 6601); (6608, 6618); (6656, 6678); (6688, 6740); (6784, 6793);
   (6800, 6809); (6823, 6823); (6917, 6963); (6981, 6988); (6992, 7001);
   (7043, 7072); (7086, 7141); (7168, 7203); (7232, 7241); (7245, 7293);
   (7296, 7304); (7312, 7354); (7357, 7359); (7401, 7404); (7406, 7411);
   (7413, 7414); (7418, 7418); (7424, 7615); (7680, 7957); (7960, 7965);
   (7968, 8005); (8008, 8013); (8016, 8023); (8025, 8025); (8027, 8027);
   (8029, 8029); (8031, 8061); (8064, 8116); (8118, 8124); (8126, 8126);
   (8130, 8132); (8134, 8140); (8144, 8147); (8150, 8155); (8160, 8172);
   (8178, 8180); (8182, 8188); (8304, 8305); (8308, 8313); (8319, 8329);
   (8336, 8348); (8450, 8450); (8455, 8455); (8458, 8467); (8469, 8469);
   (8473, 8477); (8484, 8484); (8486, 8486); (8488, 8488); (8490, 8493);
   (8495, 8505); (8508, 8511); (8517, 8521); (8526, 8526); (8528, 8585);
   (9312, 9371); (9450, 9471); (10102, 10131); (11264, 11492); (11499, 11502);
   (11506, 11507); (11517, 11517); (11520, 11557); (11559, 11559); (11565, 11565);
   (11568, 11623); (11631, 11631); (11648, 11670); (11680, 11686); (11688, 11694);
   (11696, 11702); (11704, 11710); (11712, 11718); (11720, 11726); (11728, 11734);
   (11736, 11742); (11823, 11823); (12293, 12295); (12321, 12329); (12337, 12341);
   (12344, 12348); (12353, 12438); (12445, 12447); (12449, 12538); (12540, 12543);
   (12549, 12591); (12593, 12686); (12690, 12693); (12704, 12735); (12784, 12799);
   (12832, 12841); (12872, 12879); (12881, 12895); (12928, 12937); (12977, 12991);
   (13312, 19903); (19968, 42124); (42192, 42237); (42240, 42508); (42512, 42539);
   (42560, 42606); (42623, 42653); (42656, 42735); (42775, 42783); (42786, 42888);
   (42891, 42954); (42960, 42961); (42963, 42963); (42965, 42969); (42994, 43009);
   (43011, 43013); (43015, 43018); (43020, 43042); (43056, 43061); (43072, 43123);
   (43138, 43187); (43216, 43225); (43250, 43255); (43259, 43259); (43261, 43262);
   (43264, 43301); (43312, 43334); (43360, 43388); (43396, 43442); (43471, 43481);
   (43488, 43492); (43494, 43518); (43520, 43560); (43584, 43586); (43588, 43595);
   (43600, 43609); (43616, 43638); (43642, 43642); (43646, 43695); (43697, 43697);
   (43701, 43702); (43705, 43709); (43712, 43712); (43714, 43714); (43739, 43741);
   (43744, 43754); (43762, 43764); (43777, 43782); (43785, 43790); (43793, 43798);
   (43808, 43814); (43816, 43822); (43824, 43866); (43868, 43881); (43888, 44002);
   (44016, 44025); (44032, 55203); (55216, 55238); (55243, 55291); (63744, 64109);
   (64112, 64217); (64256, 64262); (64275, 64279); (64285, 64285); (64287, 64296);
   (64298, 64310); (64312, 64316); (64318, 64318); (64320, 64321); (64323, 64324);
   (64326, 64433); (64467, 64829); (64848, 64911); (64914, 64967); (65008, 65019);
   (65136, 65140); (65142, 65276); (65296, 65305); (65313, 65338); (65345, 65370);
   (65382, 65470); (65474, 65479); (65482, 65487); (65490, 65495); (65498, 65500);
   (65536, 65547); (65549, 65574); (65576, 65594); (65596, 65597); (65599, 65613);
   (65616, 65629); (65664, 65786); (65799, 65843); (65856, 65912); (65930, 65931);
   (66176, 66204); (66208, 66256); (66273, 66299); (66304, 66339); (66349, 66378);
   (66384, 66421); (66432, 66461); (66464, 66499); (66504, 66511); (66513, 66517);
   (66560, 66717); (66720, 66729); (66736, 66771); (66776, 66811); (66816, 66855);
   (66864, 66915); (66928, 66938); (66940, 66954); (66956, 66962); (66964, 66965);
   (66967, 66977); (66979, 66993); (66995, 67001); (67003, 67004); (67072, 67382);
   (67392, 67413); (67424, 67431); (67456, 67461); (67463, 67504); (67506, 67514);
   (67584, 67589); (67592, 67592); (67594, 67637); (67639, 67640); (67644, 67644);
   (67647, 67669); (67672, 67702); (67705, 67742); (67751, 67759); (67808, 67826);
   (67828, 67829); (67835, 67867); (67872, 67897); (67968, 68023); (68028, 68047);
   (68050, 68096); (68112, 68115); (68117, 68119); (68121, 68149); (68160, 68168);
   (68192, 68222); (68224, 68255); (68288, 68295); (68297, 68324); (68331, 68335);
   (68352, 68405); (68416, 68437); (68440, 68466); (68472, 68497); (68521, 68527);
   (68608, 68680); (68736, 68786); (68800, 68850); (68858, 68899); (68912, 68921);
   (69216, 69246); (69248, 69289); (69296, 69297); (69376, 69415); (69424, 69445);
   (69457, 69460); (69488, 69505); (69552, 69579); (69600, 69622); (69635, 69687);
   (69714, 69743); (69745, 69746); (69749, 69749); (69763, 69807); (69840, 69864);
   (69872, 69881); (69891, 69926); (69942, 69951); (69956, 69956); (69959, 69959);
   (69968, 70002); (70006, 70006); (70019, 70066); (70081, 70084); (70096, 70106);
   (70108, 70108); (70113, 70132); (70144, 70161); (70163, 70187); (70272, 70278);
   (70280, 70280); (70282, 70285); (70287, 70301); (70303, 70312); (70320, 70366);
   (70384, 70393); (70405, 70412); (70415, 70416); (70419, 70440); (70442, 70448);
   (70450, 70451); (70453, 70457); (70461, 70461); (70480, 70480); (70493, 70497);
   (70656, 70708); (70727, 70730); (70736, 70745); (70751, 70753); (70784, 70831);
   (70852, 70853); (70855, 70855); (70864, 70873); (71040, 71086); (71128, 71131);
   (71168, 71215); (71236, 71236); (71248, 71257); (71296, 71338); (71352, 71352);
   (71360, 71369); (71424, 71450); (71472, 71483); (71488, 71494); (71680, 71723);
   (71840, 71922); (71935, 71942); (71945, 71945); (71948, 71955); (71957, 71958);
   (71960, 71983); (71999, 71999); (72001, 72001); (72016, 72025); (72096, 72103);
   (72106, 72144); (72161, 72161); (72163, 72163); (72192, 72192); (72203, 72242);
   (72250, 72250); (72272, 72272); (72284, 72329); (72349, 72349); (72368, 72440);
   (72704, 72712); (72714, 72750); (72768, 72768); (72784, 72812); (72818, 72847);
   (72960, 72966); (72968, 72969); (72971, 73008); (73030, 73030); (73040, 73049);
   (73056, 73061); (73063, 73064); (73066, 73097); (73112, 73112); (73120, 73129);
   (73440, 73458); (73648, 73648); (73664, 73684); (73728, 74649); (74752, 74862);
   (74880, 75075); (77712, 77808); (77824, 78894); (82944, 83526); (92160, 92728);
   (92736, 92766); (92768, 92777); (92784, 92862); (92864, 92873); (92880, 92909);
   (92928, 92975); (92992, 92995); (93008, 93017); (93019, 93025); (93027, 93047);
   (93053, 93071); (93760, 93846); (93952, 94026); (94032, 94032); (94099, 94111);
   (94176, 94177); (94179, 94179); (94208, 100343); (100352, 101589); (101632, 101640);
   (110576, 110579); (110581, 110587); (110589, 110590); (110592, 110882); (110928, 110930);
   (110948, 110951); (110960, 111355); (113664, 113770); (113776, 113788); (113792, 113800);
   (113808, 113817); (119520, 119539); (119648, 119672); (119808, 119892); (119894, 119964);
   (119966, 119967); (119970, 119970); (119973, 119974); (119977, 119980); (119982, 119993);
   (119995, 119995); (119997, 120003); (120005, 120069); (120071, 120074); (120077, 120084);
   (120086, 120092); (120094, 120121); (120123, 120126); (120128, 120132); (120134, 120134);
   (120138, 120144); (120146, 120485); (120488, 120512); (120514, 120538); (120540, 120570);
   (120572, 120596); (120598, 120628); (120630, 120654); (120656, 120686); (120688, 120712);
   (120714, 120744); (120746, 120770); (120772, 120779); (120782, 120831); (122624, 122654);
   (123136, 123180); (123191, 123197); (123200, 123209); (123214, 123214); (123536, 123565);
   (123584, 123627); (123632, 123641); (124896, 124902); (124904, 124907); (124909, 124910);
   (124912, 124926); (124928, 125124); (125127, 125135); (125184, 125251); (125259, 125259);
   (125264, 125273); (126065, 126123); (126125, 126127); (126129, 126132); (126209, 126253);
   (126255, 126269); (126464, 126467); (126469, 126495); (126497, 126498); (126500, 126500);
   (126503, 126503); (126505, 126514); (126516, 126519); (126521, 126521); (126523, 126523);
   (126530, 126530); (126535, 126535); (126537, 126537); (126539, 126539); (126541, 126543);
   (126545, 126546); (126548, 126548); (126551, 126551); (126553, 126553); (126555, 126555);
   (126557, 126557); (126559, 126559); (126561, 126562); (126564, 126564); (126567, 126570);
   (126572, 126578); (126580, 126583); (126585, 126588); (126590, 126590); (126592, 126601);
   (126603, 126619); (126625, 126627); (126629, 126633); (126635, 126651); (127232, 127244);
   (130032, 130041); (131072, 173791); (173824, 177976); (177984, 178205); (178208, 183969);
   (183984, 191456); (194560, 195101); (196608, 201546)]%N.

(** The cased code points: lower case, upper case or title case. *)
Definition cased_ranges : list (N * N) :=
  [(65, 90); (97, 122); (170, 170); (181, 181); (186, 186);
   (192, 214); (216, 246); (248, 442); (444, 447); (452, 659);
   (661, 696); (704, 705); (736, 740); (837, 837); (880, 883);
   (886, 887); (890, 893); (895, 895); (902, 902); (904, 906);
   (908, 908); (910, 929); (931, 1013); (1015, 1153); (1162, 1327);
   (1329, 1366); (1376, 1416); (4256, 4293); (4295, 4295); (4301, 4301);
   (4304, 4346); (4349, 4351); (5024, 5109); (5112, 5117); (7296, 7304);
   (7312, 7354); (7357, 7359); (7424, 7615); (7680, 7957); (7960, 7965);
   (7968, 8005); (8008, 8013); (8016, 8023); (8025, 8025); (8027, 8027);
   (8029, 8029); (8031, 8061); (8064, 8116); (8118, 8124); (8126, 8126);
   (8130, 8132); (8134, 8140); (8144, 8147); (8150, 8155); (8160, 8172);
   (8178, 8180); (8182, 8188); (8305, 8305); (8319, 8319); (8336, 8348);
   (8450, 8450); (8455, 8455); (8458, 8467); (8469, 8469); (8473, 8477);
   (8484, 8484); (8486, 8486); (8488, 8488); (8490, 8493); (8495, 8500);
   (8505, 8505); (8508, 8511); (8517, 8521); (8526, 8526); (8544, 8575);
   (8579, 8580); (9398, 9449); (11264, 11492); (11499, 11502); (11506, 11507);
   (11520, 11557); (11559, 11559); (11565, 11565); (42560, 42605); (42624, 42653);
   (42786, 42887); (42891, 42894); (42896, 42954); (42960, 42961); (42963, 42963);
   (42965, 42969); (42997, 42998); (43000, 43002); (43824, 43866); (43868, 43880);
   (43888, 43967); (64256, 64262); (64275, 64279); (65313, 65338); (65345, 65370);
   (66560, 66639); (66736, 66771); (66776, 66811); (66928, 66938); (66940, 66954);
   (66956, 66962); (66964, 66965); (66967, 66977); (66979, 66993); (66995, 67001);
   (67003, 67004); (67456, 67456); (67459, 67461); (67463, 67504); (67506, 67514);
   (68736, 68786); (68800, 68850); (71840, 71903); (93760, 93823); (119808, 119892);
   (119894, 119964); (119966, 119967); (119970, 119970); (119973, 119974); (119977, 119980);
   (119982, 119993); (119995, 119995); (119997, 120003); (120005, 120069); (120071, 120074);
   (120077, 120084); (120086, 120092); (120094, 120121); (120123, 120126); (120128, 120132);
   (120134, 120134); (120138, 120144); (120146, 120485); (120488, 120512); (120514, 120538);
   (120540, 120570); (120572, 120596); (120598, 120628); (120630, 120654); (120656, 120686);
   (120688, 120712); (120714, 120744); (120746, 120770); (120772, 120779); (122624, 122633);
   (122635, 122654); (125184, 125251); (127280, 127305); (127312, 127337); (127344, 127369)]%N.

(** The case-ignorable code points. *)
Definition case_ignorable_ranges : list (N * N) :=
  [(39, 39); (46, 46); (58, 58); (94, 94); (96, 96);
   (168, 168); (173, 173); (175, 175); (180, 180); (183, 184);
   (688, 879); (884, 885); (890, 890); (900, 901); (903, 903);
   (1155, 1161); (1369, 1369); (1375, 1375); (1425, 1469); (1471, 1471);
   (1473, 1474); (1476, 1477); (1479, 1479); (1524, 1524); (1536, 1541);
   (1552, 1562); (1564, 1564); (1600, 1600); (1611, 1631); (1648, 1648);
   (1750, 1757); (1759, 1768); (1770, 1773); (1807, 1807); (1809, 1809);
   (1840, 1866); (1958, 1968); (2027, 2037); (2042, 2042); (2045, 2045);
   (2070, 2093); (2137, 2139); (2184, 2184); (2192, 2193); (2200, 2207);
   (2249, 2306); (2362, 2362); (2364, 2364); (2369, 2376); (2381, 2381);
   (2385, 2391); (2402, 2403); (2417, 2417); (2433, 2433); (2492, 2492);
   (2497, 2500); (2509, 2509); (2530, 2531); (2558, 2558); (2561, 2562);
   (2620, 2620); (2625, 2626); (2631, 2632); (2635, 2637); (2641, 2641);
   (2672, 2673); (2677, 2677); (2689, 2690); (2748, 2748); (2753, 2757);
   (2759, 2760); (2765, 2765); (2786, 2787); (2810, 2815); (2817, 2817);
   (2876, 2876); (2879, 2879); (2881, 2884); (2893, 2893); (2901, 2902);
   (2914, 2915); (2946, 2946); (3008, 3008); (3021, 3021); (3072, 3072);
   (3076, 3076); (3132, 3132); (3134, 3136); (3142, 3144); (3146, 3149);
   (3157, 3158); (3170, 3171); (3201, 3201); (3260, 3260); (3263, 3263);
   (3270, 3270); (3276, 3277); (3298, 3299); (3328, 3329); (3387, 3388);
   (3393, 3396); (3405, 3405); (3426, 3427); (3457, 3457); (3530, 3530);
   (3538, 3540); (3542, 3542); (3633, 3633); (3636, 3642); (3654, 3662);
   (3761, 3761); (3764, 3772); (3782, 3782); (3784, 3789); (3864, 3865);
   (3893, 3893); (3895, 3895); (3897, 3897); (3953, 3966); (3968, 3972);
   (3974, 3975); (3981, 3991); (3993, 4028); (4038, 4038); (4141, 4144);
   (4146, 4151); (4153, 4154); (4157, 4158); (4184, 4185); (4190, 4192);
   (4209, 4212); (4226, 4226); (4229, 4230); (4237, 4237); (4253, 4253);
   (4348, 4348); (4957, 4959); (5906, 5908); (5938, 5939); (5970, 5971);
   (6002, 6003); (6068, 6069); (6071, 6077); (6086, 6086); (6089, 6099);
   (6103, 6103); (6109, 6109); (6155, 6159); (6211, 6211); (6277, 6278);
   (6313, 6313); (6432, 6434); (6439, 6440); (6450, 6450); (6457, 6459);
   (6679, 6680); (6683, 6683); (6742, 6742); (6744, 6750); (6752, 6752);
   (6754, 6754); (6757, 6764); (6771, 6780); (6783, 6783); (6823, 6823);
   (6832, 6862); (6912, 6915); (6964, 6964); (6966, 6970); (6972, 6972);
   (6978, 6978); (7019, 7027); (7040, 7041); (7074, 7077); (7080, 7081);
   (7083, 7085); (7142, 7142); (7144, 7145); (7149, 7149); (7151, 7153);
   (7212, 7219); (7222, 7223); (7288, 7293); (7376, 7378); (7380, 7392);
   (7394, 7400); (7405, 7405); (7412, 7412); (7416, 7417); (7468, 7530);
   (7544, 7544); (7579, 7679); (8125, 8125); (8127, 8129); (8141, 8143);
   (8157, 8159); (8173, 8175); (8189, 8190); (8203, 8207); (8216, 8217);
   (8228, 8228); (8231, 8231); (8234, 8238); (8288, 8292); (8294, 8303);
   (8305, 8305); (8319, 8319); (8336, 8348); (8400, 8432); (11388, 11389);
   (11503, 11505); (11631, 11631); (11647, 11647); (11744, 11775); (11823, 11823);
   (12293, 12293); (12330, 12333); (12337, 12341); (12347, 12347); (12441, 12446);
   (12540, 12542); (40981, 40981); (42232, 42237); (42508, 42508); (42607, 42610);
   (42612, 42621); (42623, 42623); (42652, 42655); (42736, 42737); (42752, 42785);
   (42864, 42864); (42888, 42890); (42994, 42996); (43000, 43001); (43010, 43010);
   (43014, 43014); (43019, 43019); (43045, 43046); (43052, 43052); (43204, 43205);
   (43232, 43249); (43263, 43263); (43302, 43309); (43335, 43345); (43392, 43394);
   (43443, 43443); (43446, 43449); (43452, 43453); (43471, 43471); (43493, 43494);
   (43561, 43566); (43569, 43570); (43573, 43574); (43587, 43587); (43596, 43596);
   (43632, 43632); (43644, 43644); (43696, 43696); (43698, 43700); (43703, 43704);
   (43710, 43711); (43713, 43713); (43741, 43741); (43756, 43757); (43763, 43764);
   (43766, 43766); (43867, 43871); (43881, 43883); (44005, 44005); (44008, 44008);
   (44013, 44013); (64286, 64286); (64434, 64450); (65024, 65039); (65043, 65043);
   (65056, 65071); (65106, 65106); (65109, 65109); (65279, 65279); (65287, 65287);
   (65294, 65294); (65306, 65306); (65342, 65342); (65344, 65344); (65392, 65392);
   (65438, 65439); (65507, 65507); (65529, 65531); (66045, 66045); (66272, 66272);
   (66422, 66426); (67456, 67461); (67463, 67504); (67506, 67514); (68097, 68099);
   (68101, 68102); (68108, 68111); (68152, 68154); (68159, 68159); (68325, 68326);
   (68900, 68903); (69291, 69292); (69446, 69456); (69506, 69509); (69633, 69633);
   (69688, 69702); (69744, 69744); (69747, 69748); (69759, 69761); (69811, 69814);
   (69817, 69818); (69821, 69821); (69826, 69826); (69837, 69837); (69888, 69890);
   (69927, 69931); (69933, 69940); (70003, 70003); (70016, 70017); (70070, 70078);
   (70089, 70092); (70095, 70095); (70191, 70193); (70196, 70196); (70198, 70199);
   (70206, 70206); (70367, 70367); (70371, 70378); (70400, 70401); (70459, 70460);
   (70464, 70464); (70502, 70508); (70512, 70516); (70712, 70719); (70722, 70724);
   (70726, 70726); (70750, 70750); (70835, 70840); (70842, 70842); (70847, 70848);
   (70850, 70851); (71090, 71093); (71100, 71101); (71103, 71104); (71132, 71133);
   (71219, 71226); (71229, 71229); (71231, 71232); (71339, 71339); (71341, 71341);
   (71344, 71349); (71351, 71351); (71453, 71455); (71458, 71461); (71463, 71467);
   (71727, 71735); (71737, 71738); (71995, 71996); (71998, 71998); (72003, 72003);
   (72148, 72151); (72154, 72155); (72160, 72160); (72193, 72202); (72243, 72248);
   (72251, 72254); (72263, 72263); (72273, 72278); (72281, 72283); (72330, 72342);
   (72344, 72345); (72752, 72758); (72760, 72765); (72767, 72767); (72850, 72871);
   (72874, 72880); (72882, 72883); (72885, 72886); (73009, 73014); (73018, 73018);
   (73020, 73021); (73023, 73029); (73031, 73031); (73104, 73105); (73109, 73109);
   (73111, 73111); (73459, 73460); (78896, 78904); (92912, 92916); (92976, 92982);
   (92992, 92995); (94031, 94031); (94095, 94111); (94176, 94177); (94179, 94180);
   (110576, 110579); (110581, 110587); (110589, 110590); (113821, 113822); (113824, 113827);
   (118528, 118573); (118576, 118598); (119143, 119145); (119155, 119170); (119173, 119179);
   (119210, 119213); (119362, 119364); (121344, 121398); (121403, 121452); (121461, 121461);
   (121476, 121476); (121499, 121503); (121505, 121519); (122880, 122886); (122888, 122904);
   (122907, 122913); (122915, 122916); (122918, 122922); (123184, 123197); (123566, 123566);
   (123628, 123631); (125136, 125142); (125252, 125259); (127995, 127999); (917505, 917505);
   (917536, 917631); (917760, 917999)]%N.

(** Lower-case mapping of one code point to one: an entry
    [(lo, hi, step, target)] sends [lo + k * step <= hi] to
    [target + k * step]. *)
Definition lower_ranges : list (N * N * N * N) :=
  [(65, 90, 1, 97); (192, 214, 1, 224); (216, 222, 1, 248);
   (256, 302, 2, 257); (306, 310, 2, 307); (313, 327, 2, 314);
   (330, 374, 2, 331); (376, 376, 1, 255); (377, 381, 2, 378);
   (385, 385, 1, 595); (386, 388, 2, 387); (390, 390, 1, 596);
   (391, 391, 1, 392); (393, 394, 1, 598); (395, 395, 1, 396);
   (398, 398, 1, 477); (399, 399, 1, 601); (400, 400, 1, 603);
   (401, 401, 1, 402); (403, 403, 1, 608); (404, 404, 1, 611);
   (406, 406, 1, 617); (407, 407, 1, 616); (408, 408, 1, 409);
   (412, 412, 1, 623); (413, 413, 1, 626); (415, 415, 1, 629);
   (416, 420, 2, 417); (422, 422, 1, 640); (423, 423, 1, 424);
   (425, 425, 1, 643); (428, 428, 1, 429); (430, 430, 1, 648);
   (431, 431, 1, 432); (433, 434, 1, 650); (435, 437, 2, 436);
   (439, 439, 1, 658); (440, 440, 1, 441); (444, 444, 1, 445);
   (452, 452, 1, 454); (453, 453, 1, 454); (455, 455, 1, 457);
   (456, 456, 1, 457); (458, 458, 1, 460); (459, 475, 2, 460);
   (478, 494, 2, 479); (497, 497, 1, 499); (498, 500, 2, 499);
   (502, 502, 1, 405); (503, 503, 1, 447); (504, 542, 2, 505);
   (544, 544, 1, 414); (546, 562, 2, 547); (570, 570, 1, 11365);
   (571, 571, 1, 572); (573, 573, 1, 410); (574, 574, 1, 11366);
   (577, 577, 1, 578); (579, 579, 1, 384); (580, 580, 1, 649);
   (581, 581, 1, 652); (582, 590, 2, 583); (880, 882, 2, 881);
   (886, 886, 1, 887); (895, 895, 1, 1011); (902, 902, 1, 940);
   (904, 906, 1, 941); (908, 908, 1, 972); (910, 911, 1, 973);
   (913, 929, 1, 945); (931, 939, 1, 963); (975, 975, 1, 983);
   (984, 1006, 2, 985); (1012, 1012, 1, 952); (1015, 1015, 1, 1016);
   (1017, 1017, 1, 1010); (1018, 1018, 1, 1019); (1021, 1023, 1, 891);
   (1024, 1039, 1, 1104); (1040, 1071, 1, 1072); (1120, 1152, 2, 1121);
   (1162, 1214, 2, 1163); (1216, 1216, 1, 1231); (1217, 1229, 2, 1218);
   (1232, 1326, 2, 1233); (1329, 1366, 1, 1377); (4256, 4293, 1, 11520);
   (4295, 4295, 1, 11559); (4301, 4301, 1, 11565); (5024, 5103, 1, 43888);
   (5104, 5109, 1, 5112); (7312, 7354, 1, 4304); (7357, 7359, 1, 4349);
   (7680, 7828, 2, 7681); (7838, 7838, 1, 223); (7840, 7934, 2, 7841);
   (7944, 7951, 1, 7936); (7960, 7965, 1, 7952); (7976, 7983, 1, 7968);
   (7992, 7999, 1, 7984); (8008, 8013, 1, 8000); (8025, 8031, 2, 8017);
   (8040, 8047, 1, 8032); (8072, 8079, 1, 8064); (8088, 8095, 1, 8080);
   (8104, 8111, 1, 8096); (8120, 8121, 1, 8112); (8122, 8123, 1, 8048);
   (8124, 8124, 1, 8115); (8136, 8139, 1, 8050); (8140, 8140, 1, 8131);
   (8152, 8153, 1, 8144); (8154, 8155, 1, 8054); (8168, 8169, 1, 8160);
   (8170, 8171, 1, 8058); (8172, 8172, 1, 8165); (8184, 8185, 1, 8056);
   (8186, 8187, 1, 8060); (8188, 8188, 1, 8179); (8486, 8486, 1, 969);
   (8490, 8490, 1, 107); (8491, 8491, 1, 229); (8498, 8498, 1, 8526);
   (8544, 8559, 1, 8560); (8579, 8579, 1, 8580); (9398, 9423, 1, 9424);
   (11264, 11311, 1, 11312); (11360, 11360, 1, 11361); (11362, 11362, 1, 619);
   (11363, 11363, 1, 7549); (11364, 11364, 1, 637); (11367, 11371, 2, 11368);
   (11373, 11373, 1, 593); (11374, 11374, 1, 625); (11375, 11375, 1, 592);
   (11376, 11376, 1, 594); (11378, 11378, 1, 11379); (11381, 11381, 1, 11382);
   (11390, 11391, 1, 575); (11392, 11490, 2, 11393); (11499, 11501, 2, 11500);
   (11506, 11506, 1, 11507); (42560, 42604, 2, 42561); (42624, 42650, 2, 42625);
   (42786, 42798, 2, 42787); (42802, 42862, 2, 42803); (42873, 42875, 2, 42874);
   (42877, 42877, 1, 7545); (42878, 42886, 2, 42879); (42891, 42891, 1, 42892);
   (42893, 42893, 1, 613); (42896, 42898, 2, 42897); (42902, 42920, 2, 42903);
   (42922, 42922, 1, 614); (42923, 42923, 1, 604); (42924, 42924, 1, 609);
   (42925, 42925, 1, 620); (42926, 42926, 1, 618); (42928, 42928, 1, 670);
   (42929, 42929, 1, 647); (42930, 42930, 1, 669); (42931, 42931, 1, 43859);
   (42932, 42946, 2, 42933); (42948, 42948, 1, 42900); (42949, 42949, 1, 642);
   (42950, 42950, 1, 7566); (42951, 42953, 2, 42952); (42960, 42960, 1, 42961);
   (42966, 42968, 2, 42967); (42997, 42997, 1, 42998); (65313, 65338, 1, 65345);
   (66560, 66599, 1, 66600); (66736, 66771, 1, 66776); (66928, 66938, 1, 66967);
   (66940, 66954, 1, 66979); (66956, 66962, 1, 66995); (66964, 66965, 1, 67003);
   (68736, 68786, 1, 68800); (71840, 71871, 1, 71872); (93760, 93791, 1, 93792);
   (125184, 125217, 1, 125218)]%N.

(** Lower-case mappings to more than one code point. *)
Definition lower_special : list (N * list N) :=
  [(304, [105; 775])]%N.

(** Title-case mapping of one code point to one, in the same form. *)
Definition title_ranges : list (N * N * N * N) :=
  [(97, 122, 1, 65); (181, 181, 1, 924); (224, 246, 1, 192);
   (248, 254, 1, 216); (255, 255, 1, 376); (257, 303, 2, 256);
   (305, 305, 1, 73); (307, 311, 2, 306); (314, 328, 2, 313);
   (331, 375, 2, 330); (378, 382, 2, 377); (383, 383, 1, 83);
   (384, 384, 1, 579); (387, 389, 2, 386); (392, 392, 1, 391);
   (396, 396, 1, 395); (402, 402, 1, 401); (405, 405, 1, 502);
   (409, 409, 1, 408); (410, 410, 1, 573); (414, 414, 1, 544);
   (417, 421, 2, 416); (424, 424, 1, 423); (429, 429, 1, 428);
   (432, 432, 1, 431); (436, 438, 2, 435); (441, 441, 1, 440);
   (445, 445, 1, 444); (447, 447, 1, 503); (452, 452, 1, 453);
   (454, 454, 1, 453); (455, 455, 1, 456); (457, 457, 1, 456);
   (458, 458, 1, 459); (460, 476, 2, 459); (477, 477, 1, 398);
   (479, 495, 2, 478); (497, 497, 1, 498); (499, 501, 2, 498);
   (505, 543, 2, 504); (547, 563, 2, 546); (572, 572, 1, 571);
   (575, 576, 1, 11390); (578, 578, 1, 577); (583, 591, 2, 582);
   (592, 592, 1, 11375); (593, 593, 1, 11373); (594, 594, 1, 11376);
   (595, 595, 1, 385); (596, 596, 1, 390); (598, 599, 1, 393);
   (601, 601, 1, 399); (603, 603, 1, 400); (604, 604, 1, 42923);
   (608, 608, 1, 403); (609, 609, 1, 42924); (611, 611, 1, 404);
   (613, 613, 1, 42893); (614, 614, 1, 42922); (616, 616, 1, 407);
   (617, 617, 1, 406); (618, 618, 1, 42926); (619, 619, 1, 11362);
   (620, 620, 1, 42925); (623, 623, 1, 412); (625, 625, 1, 11374);
   (626, 626, 1, 413); (629, 629, 1, 415); (637, 637, 1, 11364);
   (640, 640, 1, 422); (642, 642, 1, 42949); (643, 643, 1, 425);
   (647, 647, 1, 42929); (648, 648, 1, 430); (649, 649, 1, 580);
   (650, 651, 1, 433); (652, 652, 1, 581); (658, 658, 1, 439);
   (669, 669, 1, 42930); (670, 670, 1, 42928); (837, 837, 1, 921);
   (881, 883, 2, 880); (887, 887, 1, 886); (891, 893, 1, 1021);
   (940, 940, 1, 902); (941, 943, 1, 904); (945, 961, 1, 913);
   (962, 962, 1, 931); (963, 971, 1, 931); (972, 972, 1, 908);
   (973, 974, 1, 910); (976, 976, 1, 914); (977, 977, 1, 920);
   (981, 981, 1, 934); (982, 982, 1, 928); (983, 983, 1, 975);
   (985, 1007, 2, 984); (1008, 1008, 1, 922); (1009, 1009, 1, 929);
   (1010, 1010, 1, 1017); (1011, 1011, 1, 895); (1013, 1013, 1, 917);
   (1016, 1016, 1, 1015); (1019, 1019, 1, 1018); (1072, 1103, 1, 1040);
   (1104, 1119, 1, 1024); (1121, 1153, 2, 1120); (1163, 1215, 2, 1162);
   (1218, 1230, 2, 1217); (1231, 1231, 1, 1216); (1233, 1327, 2, 1232);
   (1377, 1414, 1, 1329); (5112, 5117, 1, 5104); (7296, 7296, 1, 1042);
   (7297, 7297, 1, 1044); (7298, 7298, 1, 1054); (7299, 7300, 1, 1057);
   (7301, 7301, 1, 1058); (7302, 7302, 1, 1066); (7303, 7303, 1, 1122);
   (7304, 7304, 1, 42570); (7545, 7545, 1, 42877); (7549, 7549, 1, 11363);
   (7566, 7566, 1, 42950); (7681, 7829, 2, 7680); (7835, 7835, 1, 7776);
   (7841, 7935, 2, 7840); (7936, 7943, 1, 7944); (7952, 7957, 1, 7960);
   (7968, 7975, 1, 7976); (7984, 7991, 1, 7992); (8000, 8005, 1, 8008);
   (8017, 8023, 2, 8025); (8032, 8039, 1, 8040); (8048, 8049, 1, 8122);
   (8050, 8053, 1, 8136); (8054, 8055, 1, 8154); (8056, 8057, 1, 8184);
   (8058, 8059, 1, 8170); (8060, 8061, 1, 8186); (8064, 8071, 1, 8072);
   (8080, 8087, 1, 8088); (8096, 8103, 1, 8104); (8112, 8113, 1, 8120);
   (8115, 8115, 1, 8124); (8126, 8126, 1, 921); (8131, 8131, 1, 8140);
   (8144, 8145, 1, 8152); (8160, 8161, 1, 8168); (8165, 8165, 1, 8172);
   (8179, 8179, 1, 8188); (8526, 8526, 1, 8498); (8560, 8575, 1, 8544);
   (8580, 8580, 1, 8579); (9424, 9449, 1, 9398); (11312, 11359, 1, 11264);
   (11361, 11361, 1, 11360); (11365, 11365, 1, 570); (11366, 11366, 1, 574);
   (11368, 11372, 2, 11367); (11379, 11379, 1, 11378); (11382, 11382, 1, 11381);
   (11393, 11491, 2, 11392); (11500, 11502, 2, 11499); (11507, 11507, 1, 11506);
   (11520, 11557, 1, 4256); (11559, 11559, 1, 4295); (11565, 11565, 1, 4301);
   (42561, 42605, 2, 42560); (42625, 42651, 2, 42624); (42787, 42799, 2, 42786);
   (42803, 42863, 2, 42802); (42874, 42876, 2, 42873); (42879, 42887, 2, 42878);
   (42892, 42892, 1, 42891); (42897, 42899, 2, 42896); (42900, 42900, 1, 42948);
   (42903, 42921, 2, 42902); (42933, 42947, 2, 42932); (42952, 42954, 2, 42951);
   (42961, 42961, 1, 42960); (42967, 42969, 2, 42966); (42998, 42998, 1, 42997);
   (43859, 43859, 1, 42931); (43888, 43967, 1, 5024); (65345, 65370, 1, 65313);
   (66600, 66639, 1, 66560); (66776, 66811, 1, 66736); (66967, 66977, 1, 66928);
   (66979, 66993, 1, 66940); (66995, 67001, 1, 66956); (67003, 67004, 1, 66964);
   (68800, 68850, 1, 68736); (71872, 71903, 1, 71840); (93792, 93823, 1, 93760);
   (125218, 125251, 1, 125184)]%N.

(** Title-case mappings to more than one code point. *)
Definition title_special : list (N * list N) :=
  [(223, [83; 115]); (329, [700; 78]); (496, [74; 780]);
   (912, [921; 776; 769]); (944, [933; 776; 769]); (1415, [1333; 1410]);
   (7830, [72; 817]); (7831, [84; 776]); (7832, [87; 778]);
   (7833, [89; 778]); (7834, [65; 702]); (8016, [933; 787]);
   (8018, [933; 787; 768]); (8020, [933; 787; 769]); (8022, [933; 787; 834]);
   (8114, [8122; 837]); (8116, [902; 837]); (8118, [913; 834]);
   (8119, [913; 834; 837]); (8130, [8138; 837]); (8132, [905; 837]);
   (8134, [919; 834]); (8135, [919; 834; 837]); (8146, [921; 776; 768]);
   (8147, [921; 776; 769]); (8150, [921; 834]); (8151, [921; 776; 834]);
   (8162, [933; 776; 768]); (8163, [933; 776; 769]); (8164, [929; 787]);
   (8166, [933; 834]); (8167, [933; 776; 834]); (8178, [8186; 837]);
   (8180, [911; 837]); (8182, [937; 834]); (8183, [937; 834; 837]);
   (64256, [70; 102]); (64257, [70; 105]); (64258, [70; 108]);
   (64259, [70; 102; 105]); (64260, [70; 102; 108]); (64261, [83; 116]);
   (64262, [83; 116]); (64275, [1348; 1398]); (64276, [1348; 1381]);
   (64277, [1348; 1387]); (64278, [1358; 1398]); (64279, [1348; 1389])]%N.

Definition in_ranges (table : list (N * N)) (n : N) : bool :=
  existsb (λ r, (r.1 <=? n)%N && (n <=? r.2)%N) table.

(** The image of [n] under a mapping table, when it has one. *)
Fixpoint lookup_range (table : list (N * N * N * N)) (n : N) : option N :=
  match table with
  | [] => None
  | (lo, hi, step, target) :: rest =>
      if ((lo <=? n) && (n <=? hi) && ((n - lo) mod step =? 0))%N
      then Some (target + (n - lo))%N
      else lookup_range rest n
  end.

Fixpoint lookup_special (table : list (N * list N)) (n : N) : option (list N) :=
  match table with
  | [] => None
  | (c, image) :: rest => if (c =? n)%N then Some image else lookup_special rest n
  end.

Definition map_case (special : list (N * list N)) (table : list (N * N * N * N))
    (n : N) : list N :=
  match lookup_special special n with
  | Some image => image
  | None =>
      match lookup_range table n with
      | Some m => [m]
      | None => [n]
      end
  end.

(** The full lower-case and title-case mappings of one code point. *)
Definition to_lower (n : N) : list N := map_case lower_special lower_ranges n.
Definition to_title (n : N) : list N := map_case title_special title_ranges n.

End Unicode.

(** A Python [str] is held as its UTF-8 encoding, one [ascii] per byte.
    A character is a code point, that is, a lead byte together with the
    continuation bytes that follow it. *)
Module PyStr.

Definition byte (b : ascii) : N := N_of_ascii b.

(** The continuation bytes, [10xxxxxx]. *)
Definition is_continuation (b : ascii) : bool :=
  (128 <=? byte b)%N && (byte b <=? 191)%N.

Definition starts_with_continuation (s : string) : bool :=
  match s with
  | String b _ => is_continuation b
  | EmptyString => false
  end.

(** [list(s)]: the characters of [s], each a string of one character.
    A character begins at every byte that is not a continuation byte. *)
Fixpoint chars (s : string) : list string :=
  match s with
  | EmptyString => []
  | String b r =>
      match chars r with
      | c :: cs =>
          if starts_with_continuation c then String b c :: cs
          else String b EmptyString :: c :: cs
      | [] => [String b EmptyString]
      end
  end.

(** ["".join(cs)] *)
Definition concat (cs : list string) : string := String.concat "" cs.

(** The payload of a continuation byte. *)
Definition continuation (b : ascii) : option N :=
  if is_continuation b then Some (byte b - 128)%N else None.

(** [ord(c)] for a string of one character; [None] for bytes that are
    not the UTF-8 encoding of one code point. *)
Definition ord (c : string) : option N :=
  match c with
  | String a EmptyString =>
      if (byte a <? 128)%N then Some (byte a) else None
  | String a (String b EmptyString) =>
      if ((194 <=? byte a) && (byte a <=? 223))%N then
        x ← continuation b; Some ((byte a - 192) * 64 + x)%N
      else None
  | String a (String b (String c EmptyString)) =>
      if ((224 <=? byte a) && (byte a <=? 239))%N then
        x ← continuation b; y ← continuation c;
        let n := ((byte a - 224) * 4096 + x * 64 + y)%N in
        if (2048 <=? n)%N then Some n else None
      else None
  | String a (String b (String c (String d EmptyString))) =>
      if ((240 <=? byte a) && (byte a <=? 244))%N then
        x ← continuation b; y ← continuation c; z ← continuation d;
        let n := ((byte a - 240) * 262144 + x * 4096 + y * 64 + z)%N in
        if ((65536 <=? n) && (n <=? 1114111))%N then Some n else None
      else None
  | _ => None
  end.

Definition bytes_string (bs : list N) : string :=
  string_of_list_ascii (ascii_of_N <$> bs).

(** [chr(n)] *)
Definition chr (n : N) : string :=
  if (n <? 128)%N then bytes_string [n]
  else if (n <? 2048)%N then bytes_string [192 + n / 64; 128 + n mod 64]%N
  else if (n <? 65536)%N then
    bytes_string [224 + n / 4096; 128 + (n / 64) mod 64; 128 + n mod 64]%N
  else
    bytes_string [240 + n / 262144; 128 + (n / 4096) mod 64;
                  128 + (n / 64) mod 64; 128 + n mod 64]%N.

(** A property of code points as a property of characters. *)
Definition has_property (table : list (N * N)) (c : string) : bool :=
  match ord c with
  | Some n => Unicode.in_ranges table n
  | None => false
  end.

(** [c.isspace()] *)
Definition isspace (c : string) : bool := has_property Unicode.isspace_ranges c.

(** [c.isalnum()] *)
Definition isalnum (c : string) : bool := has_property Unicode.isalnum_ranges c.

Definition is_cased (c : string) : bool := has_property Unicode.cased_ranges c.

Definition is_case_ignorable (c : string) : bool :=
  has_property Unicode.case_ignorable_ranges c.

(** [len(s)] *)
Definition len (s : string) : nat := length (chars s).

(** ["".join(c for c in s if p(c))] *)
Definition filter_chars (p : string → bool) (s : string) : string :=
  concat (filter (λ c, p c = true) (chars s)).

(** [c in s] for a string [c] of one character. *)
Definition char_in (c : string) (s : string) : bool :=
  existsb (String.eqb c) (chars s).

(** The list without its leading elements that satisfy [p]. *)
Fixpoint drop_while {A} (p : A → bool) (l : list A) : list A :=
  match l with
  | [] => []
  | x :: r => if p x then drop_while p r else l
  end.

(** [s.lstrip()] and [s.rstrip()] *)
Definition lstrip (s : string) : string := concat (drop_while isspace (chars s)).

Definition rstrip (s : string) : string :=
  concat (reverse (drop_while isspace (reverse (chars s)))).

(** [s.strip()] *)
Definition strip (s : string) : string := rstrip (lstrip s).

(** The title-case and the lower-case form of one character. *)
Definition title_char (c : string) : string :=
  match ord c with
  | Some n => concat (chr <$> Unicode.to_title n)
  | None => c
  end.

Definition lower_char (c : string) : string :=
  match ord c with
  | Some n => concat (chr <$> Unicode.to_lower n)
  | None => c
  end.

(** The capital sigma is in final position when a cased character
    precedes it and none follows, case-ignorable characters skipped;
    [before] holds the preceding characters, the nearest first. *)
Definition final_sigma (before after : list string) : bool :=
  match drop_while is_case_ignorable before with
  | c :: _ => is_cased c
  | [] => false
  end &&
  match drop_while is_case_ignorable after with
  | c :: _ => negb (is_cased c)
  | [] => true
  end.

Definition capital_sigma : string := chr 931.

(** The lower-case form of the character [c] between [before] and [after]. *)
Definition lower_at (before : list string) (c : string) (after : list string) : string :=
  if String.eqb c capital_sigma then
    if final_sigma before after then chr 962 else chr 963
  else lower_char c.

Fixpoint lower_from (before : list string) (cs : list string) : list string :=
  match cs with
  | [] => []
  | c :: after => lower_at before c after :: lower_from (c :: before) after
  end.

(** [s.capitalize()]: the first character in title case, the rest in
    lower case. *)
Definition capitalize (s : string) : string :=
  match chars s with
  | [] => EmptyString
  | c :: rest => title_char c +:+ concat (lower_from [c] rest)
  end.

(** [s.replace(a, b)] for ASCII characters [a] and [b], which are one
    byte each and part of no other character's encoding. *)
Fixpoint map_chars (f : ascii → ascii) (s : string) : string :=
  match s with
  | EmptyString => EmptyString
  | String c r => String (f c) (map_chars f r)
  end.

(** Truth value of a string: [bool(s)]. *)
Definition truthy (s : string) : bool :=
  match s with EmptyString => false | _ => true end.

(** [sep.join(parts)] *)
Definition join (sep : string) (parts : list string) : string :=
  String.concat sep parts.

End PyStr.

(** ** Python list slicing *)

Module PyList.

(** [l[-n:]] for [n >= 0].  Python reads [-0] as [0], so [l[-0:]] is
    the whole list. *)
Definition slice_from_neg {A} (n : nat) (l : list A) : list A :=
  if (n =? 0)%nat then l else drop (length l - n) l.

(** [l[:n]] for [n >= 0]. *)
Definition slice_to {A} (n : nat) (l : list A) : list A := take n l.

End PyList.

(** ** Configuration ([AppConfig]) *)

Inductive Lang := en | ru.

Module AppConfig.

Definition DEFAULT_SYSTEM_MESSAGE (lang : Lang) : string :=
  match lang with
  | en => "You are a helpful AI assistant."
  | ru => "Я - полезный ИИ-ассистент. Я говорю по-русски и стараюсь помогать людям."
  end.

Definition API_KEY_ENV_VAR : string := "API_KEY".
Definition CHATS_FILE : string := "saved_chats.json".
Definition MAX_HISTORY_LENGTH : nat := 20.
Definition MAX_CHATS : nat := 50.

End AppConfig.

(** ** Messages *)

Record Message := mkMessage { role : string; content : string }.

#[global] Instance Message_eq_dec : EqDecision Message.
Proof. solve_decision. Defined.

Definition is_system (msg : Message) : Prop := role msg = "system".
Definition non_system (msg : Message) : Prop := role msg ≠ "system".

#[global] Instance is_system_dec msg : Decision (is_system msg).
Proof. unfold is_system. apply _. Defined.
#[global] Instance non_system_dec msg : Decision (non_system msg).
Proof. unfold non_system. apply _. Defined.

(** ** History trimmer ([message_handler.trim_message_history]) *)

Definition trim_message_history (messages : list Message) : list Message :=
  let system_message := filter is_system messages in
  let other_messages := filter non_system messages in
  system_message ++ PyList.slice_from_neg AppConfig.MAX_HISTORY_LENGTH other_messages.

(** What the specification calls the last [n] elements of a sequence. *)
Definition last_n {A} (n : nat) (l : list A) : list A := drop (length l - n) l.

(** ** Exceptions and fallible computations *)

Inductive PyExn :=
| ValueError (msg : string)
| KeyError (key_repr : string)
| TypeError (msg : string)
| AttributeError (msg : string)
| IndexError (msg : string)
| OSError (msg : string)
| JSONDecodeError (msg : string)
| RequestsTimeout (msg : string)
| RequestsConnectionError (msg : string)
| RequestsHTTPError (msg : string)
| RequestsJSONDecodeError (msg : string).

(** [str(e)]; for a [KeyError] it is the [repr] of the key. *)
Definition exn_str (e : PyExn) : string :=
  match e with
  | ValueError m | TypeError m | AttributeError m | IndexError m
  | OSError m | JSONDecodeError m | RequestsTimeout m
  | RequestsConnectionError m | RequestsHTTPError m
  | RequestsJSONDecodeError m => m
  | KeyError r => r
  end.

(** [repr(k)] of a string of printable characters without quotes or
    backslashes, as the keys ["choices"], ["text"] and ["Default"] are. *)
Definition repr_str (k : string) : string := "'" +:+ k +:+ "'".

(** [isinstance(e, requests.Timeout)] *)
Definition is_requests_timeout (e : PyExn) : bool :=
  match e with RequestsTimeout _ => true | _ => false end.

(** [isinstance(e, requests.RequestException)] *)
Definition is_request_exception (e : PyExn) : bool :=
  match e with
  | RequestsTimeout _ | RequestsConnectionError _
  | RequestsHTTPError _ | RequestsJSONDecodeError _ => true
  | _ => false
  end.

Inductive result (A : Type) :=
| Ok (a : A)
| Raise (e : PyExn).
Arguments Ok {A} a.
Arguments Raise {A} e.

#[global] Instance result_bind : MBind result := λ A B k r,
  match r with
  | Ok a => k a
  | Raise e => Raise e
  end.

(** ** JSON values, as [json.load] returns them *)

#[warnings="-register-all"]
Inductive json :=
| JNull
| JBool (b : bool)
| JInt (z : Z)
| JFloat (q : Q)
| JStr (s : string)
| JArr (items : list json)
| JObj (fields : list (string * json)).

(** ** Python dictionaries: association lists in insertion order *)

Module PyDict.
Section Ops.
Context {K V : Type} `{EqDecision K}.

(** [d.keys()] *)
Definition keys (d : list (K * V)) : list K := d.*1.

(** [d.get(k)] *)
Fixpoint get (d : list (K * V)) (k : K) : option V :=
  match d with
  | [] => None
  | (k', v) :: r => if decide (k' = k) then Some v else get r k
  end.

(** [k in d] *)
Definition contains (d : list (K * V)) (k : K) : bool := bool_decide (is_Some (get d k)).

(** [d[k] = v]: an existing key keeps its position, a new key goes last. *)
Fixpoint set (d : list (K * V)) (k : K) (v : V) : list (K * V) :=
  match d with
  | [] => [(k, v)]
  | (k', v') :: r => if decide (k' = k) then (k, v) :: r else (k', v') :: set r k v
  end.

(** [del d[k]], which raises [KeyError] ([None]) when [k] is absent. *)
Fixpoint del (d : list (K * V)) (k : K) : option (list (K * V)) :=
  match d with
  | [] => None
  | (k', v') :: r =>
      if decide (k' = k) then Some r
      else r' ← del r k; Some ((k', v') :: r')
  end.

End Ops.
End PyDict.

(** Truth value of a JSON value: [bool(j)]. *)
Definition json_truthy (j : json) : bool :=
  match j with
  | JNull => false
  | JBool b => b
  | JInt z => negb (z =? 0)%Z
  | JFloat q => negb (Qeq_bool q 0)
  | JStr s => PyStr.truthy s
  | JArr items => match items with [] => false | _ => true end
  | JObj fields => match fields with [] => false | _ => true end
  end.

Fixpoint is_prefix (p s : string) : bool :=
  match p, s with
  | EmptyString, _ => true
  | String _ _, EmptyString => false
  | String a p', String b s' => Ascii.eqb a b && is_prefix p' s'
  end.

(** [needle in s] on strings: substring test. *)
Fixpoint is_substring (needle s : string) : bool :=
  is_prefix needle s ||
  match s with
  | EmptyString => false
  | String _ s' => is_substring needle s'
  end.

Definition is_json_str (k : string) (j : json) : bool :=
  match j with JStr s => String.eqb s k | _ => false end.

(** [type(j).__name__] *)
Definition type_name (j : json) : string :=
  match j with
  | JNull => "NoneType"
  | JBool _ => "bool"
  | JInt _ => "int"
  | JFloat _ => "float"
  | JStr _ => "str"
  | JArr _ => "list"
  | JObj _ => "dict"
  end.

(** [k in j] for a string [k]: key of a dict, element of a list,
    substring of a string; anything else is not iterable. *)
Definition json_contains (k : string) (j : json) : result bool :=
  match j with
  | JObj fields => Ok (PyDict.contains fields k)
  | JArr items => Ok (existsb (is_json_str k) items)
  | JStr s => Ok (is_substring k s)
  | _ => Raise (TypeError ("argument of type '" +:+ type_name j +:+ "' is not iterable"))
  end.

Definition not_subscriptable (j : json) : PyExn :=
  TypeError ("'" +:+ type_name j +:+ "' object is not subscriptable").

(** [j[k]] for a string [k]. *)
Definition json_item (j : json) (k : string) : result json :=
  match j with
  | JObj fields =>
      match PyDict.get fields k with
      | Some v => Ok v
      | None => Raise (KeyError (repr_str k))
      end
  | JArr _ => Raise (TypeError "list indices must be integers or slices, not str")
  | JStr _ => Raise (TypeError "string indices must be integers, not 'str'")
  | _ => Raise (not_subscriptable j)
  end.

(** [j[0]]; the first element of a string is its first character. *)
Definition json_first (j : json) : result json :=
  match j with
  | JArr items =>
      match items with
      | x :: _ => Ok x
      | [] => Raise (IndexError "list index out of range")
      end
  | JStr s =>
      match PyStr.chars s with
      | c :: _ => Ok (JStr c)
      | [] => Raise (IndexError "string index out of range")
      end
  | JObj _ => Raise (KeyError "0")
  | _ => Raise (not_subscriptable j)
  end.

(** [j.strip()] *)
Definition json_strip (j : json) : result string :=
  match j with
  | JStr s => Ok (PyStr.strip s)
  | _ => Raise (AttributeError ("'" +:+ type_name j +:+ "' object has no attribute 'strip'"))
  end.

(** ** Persistence store: loading ([chat_manager.load_saved_chats]) *)

(** What the read of [AppConfig.CHATS_FILE] meets. *)
Inductive FileState :=
| Missing
| Unreadable (err : string)
| NotJson (err : string)
| Document (j : json).

(** [sorted(keys)] on strings: [String.le] compares byte by byte and
    puts a proper prefix first, which on UTF-8 is the order of the code
    points that Python compares. *)
Definition sorted (keys : list string) : list string := merge_sort String.le keys.

(** [for key in oldest: del chats[key]] *)
Fixpoint del_all {V} (chats : list (string * V)) (oldest : list string)
  : result (list (string * V)) :=
  match oldest with
  | [] => Ok chats
  | key :: rest =>
      match PyDict.del chats key with
      | Some chats' => del_all chats' rest
      | None => Raise (KeyError (repr_str key))
      end
  end.

(** The body of the [try] block; [None] is falling out of the [if]. *)
Definition load_saved_chats_try (file : FileState)
  : result (option (list (string * json))) :=
  match file with
  | Missing => Ok None
  | Unreadable err => Raise (OSError err)
  | NotJson err => Raise (JSONDecodeError err)
  | Document (JObj chats) =>
      if (AppConfig.MAX_CHATS <? length chats)%nat then
        let oldest :=
          PyList.slice_to (length chats - AppConfig.MAX_CHATS) (sorted (PyDict.keys chats)) in
        chats' ← del_all chats oldest; Ok (Some chats')
      else Ok (Some chats)
  | Document _ => Raise (ValueError "Invalid chat file format")
  end.

Definition fallback_chats : list (string * json) := [("Default", JArr [])].

(** The loaded mapping and the notices raised through [st.error]. *)
Definition load_saved_chats (file : FileState)
  : list (string * json) * list string :=
  match load_saved_chats_try file with
  | Ok (Some chats) => (chats, [])
  | Ok None => (fallback_chats, [])
  | Raise e => (fallback_chats, ["Error loading chats: " +:+ exn_str e])
  end.

(** ** Session state

    [st.session_state] together with the world the program acts on: the
    heap of Python list objects, the chats file, the requests posted so
    far and the notices raised through [st.error]. *)

Record ModelParams := mkParams {
  temperature : Q;
  max_tokens : Z;
  top_p : Q;
  top_k : Z;
  repetition_penalty : Q
}.

(** The JSON body and headers of one [requests.post]. *)
Record Request := mkRequest {
  req_url : string;
  req_authorization : string;
  req_model : string;
  req_prompt : string;
  req_params : ModelParams
}.

(** [heap] holds the list objects; [chats] maps a chat name (or the key
    [None]) to the location of its list; [messages] is the location
    [st.session_state.messages] refers to, which is set from the first
    run on; [last_request_time] is absent until the limiter first
    allows a call.  [disk] is the chats file, [sent] the requests posted
    so far, [notices] what [st.error] has shown. *)
Record State := mkState {
  heap : list (list Message);
  language : Lang;
  current_chat : option string;
  chats : list (option string * nat);
  messages : nat;
  is_chat_input_disabled : bool;
  last_request_time : option Q;
  model_params : ModelParams;
  disk : FileState;
  sent : list Request;
  notices : list string
}.

Definition set_heap (h : list (list Message)) (s : State) : State :=
  mkState h (language s) (current_chat s) (chats s) (messages s)
    (is_chat_input_disabled s) (last_request_time s) (model_params s)
    (disk s) (sent s) (notices s).

Definition set_current_chat (k : option string) (s : State) : State :=
  mkState (heap s) (language s) k (chats s) (messages s)
    (is_chat_input_disabled s) (last_request_time s) (model_params s)
    (disk s) (sent s) (notices s).

Definition set_chats (d : list (option string * nat)) (s : State) : State :=
  mkState (heap s) (language s) (current_chat s) d (messages s)
    (is_chat_input_disabled s) (last_request_time s) (model_params s)
    (disk s) (sent s) (notices s).

Definition set_messages (l : nat) (s : State) : State :=
  mkState (heap s) (language s) (current_chat s) (chats s) l
    (is_chat_input_disabled s) (last_request_time s) (model_params s)
    (disk s) (sent s) (notices s).

Definition set_disabled (b : bool) (s : State) : State :=
  mkState (heap s) (language s) (current_chat s) (chats s) (messages s)
    b (last_request_time s) (model_params s)
    (disk s) (sent s) (notices s).

Definition set_last_request_time (t : Q) (s : State) : State :=
  mkState (heap s) (language s) (current_chat s) (chats s) (messages s)
    (is_chat_input_disabled s) (Some t) (model_params s)
    (disk s) (sent s) (notices s).

Definition set_disk (f : FileState) (s : State) : State :=
  mkState (heap s) (language s) (current_chat s) (chats s) (messages s)
    (is_chat_input_disabled s) (last_request_time s) (model_params s)
    f (sent s) (notices s).

(** [requests.post(...)] leaves the process. *)
Definition add_sent (r : Request) (s : State) : State :=
  mkState (heap s) (language s) (current_chat s) (chats s) (messages s)
    (is_chat_input_disabled s) (last_request_time s) (model_params s)
    (disk s) (sent s ++ [r]) (notices s).

(** [st.error(msg)] *)
Definition st_error (msg : string) (s : State) : State :=
  mkState (heap s) (language s) (current_chat s) (chats s) (messages s)
    (is_chat_input_disabled s) (last_request_time s) (model_params s)
    (disk s) (sent s) (notices s ++ [msg]).

(** The list object at a location. *)
Definition heap_get (h : list (list Message)) (l : nat) : list Message :=
  default [] (h !! l).

(** A new list object. *)
Definition heap_alloc (h : list (list Message)) (v : list Message)
  : list (list Message) * nat :=
  (h ++ [v], length h).

(** [obj.append(x)] on the list object at [l]. *)
Definition heap_append (h : list (list Message)) (l : nat) (x : Message)
  : list (list Message) :=
  alter (λ v, v ++ [x]) l h.

(** The contents of [st.session_state.messages]. *)
Definition session_messages (s : State) : list Message :=
  heap_get (heap s) (messages s).

(** The contents of [st.session_state.chats[k]], when [k] is a key. *)
Definition chat_messages (s : State) (k : option string) : option (list Message) :=
  heap_get (heap s) <$> PyDict.get (chats s) k.

(** How a controller operation hands control back: it returns, it asks
    for a rerun of the script ([st.rerun()]), or an exception escapes. *)
Inductive Control :=
| Returned
| Rerun
| Raised (e : PyExn).

(** The body of a response: a JSON document, or text that is none,
    with the message of the JSON decoder. *)
Inductive Body :=
| NotJsonBody (err : string)
| JsonBody (j : json).

(** What [requests.post] meets: no answer within the timeout or another
    failure of the request, each with the text of the exception that
    [requests] raises for it, or a response with its status code, its
    reason phrase, its URL and its body. *)
Inductive HttpReply :=
| NoReply (detail : string)
| ConnectionFailed (detail : string)
| Response (status : nat) (reason url : string) (body : Body).

(** What one call reads from outside the session: the settings
    [AppConfig] took from the environment (the URL and the model name
    are taken as set), the API key, the clock ([time()] and the
    formatted local time), whether the chats file can be written (an
    error text when it cannot), and the endpoint's answer. *)
Record Env := mkEnv {
  API_URL : string;
  DEFAULT_MODEL : string;
  API_KEY : option string;
  now : Q;
  timestamp : string;
  write_error : option string;
  server : HttpReply
}.

(** ** Persistence store: saving ([chat_manager.save_chats]) *)

Definition json_of_message (msg : Message) : json :=
  JObj [("role", JStr (role msg)); ("content", JStr (content msg))].

(** [json.dump] writes the key [None] as [null]. *)
Definition json_key (k : option string) : string :=
  match k with Some s => s | None => "null" end.

Definition dump_chats (h : list (list Message)) (d : list (option string * nat)) : json :=
  JObj (map (λ kv, (json_key kv.1, JArr (json_of_message <$> heap_get h kv.2))) d).

Definition save_chats (env : Env) (s : State) : State :=
  match write_error env with
  | None => set_disk (Document (dump_chats (heap s) (chats s))) s
  | Some err => st_error ("Error saving chats: " +:+ err) s
  end.

(** ** Session controller ([chat_manager]) *)

Definition default_system_message (s : State) : Message :=
  mkMessage "system" (AppConfig.DEFAULT_SYSTEM_MESSAGE (language s)).

Definition generate_chat_name (env : Env) (s : State) : string :=
  let chat_count := length (chats s) in
  "Chat " +:+ pretty (chat_count + 1)%nat +:+ " (" +:+ timestamp env +:+ ")".

(** Truth value of an optional string: [None] and the empty string are false. *)
Definition opt_truthy (o : option string) : bool :=
  match o with Some s => PyStr.truthy s | None => false end.

(** Lines 48 to 51 of [create_new_chat]: the name the chat is filed under. *)
Definition resolve_chat_name (env : Env) (s : State) (chat_name : option string)
  : option string :=
  match chat_name with
  | Some name =>
      if PyStr.truthy name then
        let name' :=
          PyStr.strip (PyStr.filter_chars
            (λ c, PyStr.isalnum c || PyStr.char_in c " -_()") name) in
        if negb (PyStr.truthy name') then Some (generate_chat_name env s)
        else Some name'
      else Some name
  | None => None
  end.

Definition create_new_chat (env : Env) (chat_name : option string) (s : State)
  : State * Control :=
  let chat_name := resolve_chat_name env s chat_name in
  if negb (PyDict.contains (chats s) chat_name) then
    let '(h, l) := heap_alloc (heap s) [default_system_message s] in
    let s := set_chats (PyDict.set (chats s) chat_name l) (set_heap h s) in
    let s := set_current_chat chat_name s in
    let s := set_messages l s in
    (save_chats env s, Rerun)
  else (s, Returned).

Definition switch_chat (chat_name : option string) (s : State) : State * Control :=
  match PyDict.get (chats s) chat_name with
  | Some l => (set_messages l (set_current_chat chat_name s), Rerun)
  | None => (s, Returned)
  end.

Definition delete_chat (env : Env) (chat_name : option string) (s : State)
  : State * Control :=
  if PyDict.contains (chats s) chat_name && negb (bool_decide (chat_name = Some "Default")) then
    match PyDict.del (chats s) chat_name with
    | None => (s, Raised (KeyError (repr_str (json_key chat_name))))
    | Some d =>
        let s := set_chats d s in
        if bool_decide (current_chat s = chat_name) then
          let s := set_current_chat (Some "Default") s in
          match PyDict.get (chats s) (Some "Default") with
          | Some l => (save_chats env (set_messages l s), Rerun)
          | None => (s, Raised (KeyError (repr_str "Default")))
          end
        else (save_chats env s, Rerun)
    end
  else (s, Returned).

Definition clear_current_chat (env : Env) (s : State) : State * Control :=
  match session_messages s with
  | [] => (s, Returned)
  | _ :: _ =>
      let system_messages := filter is_system (session_messages s) in
      let fresh :=
        match system_messages with
        | [] => [default_system_message s]
        | _ :: _ => system_messages
        end in
      let '(h, l) := heap_alloc (heap s) fresh in
      let s := set_messages l (set_heap h s) in
      let s := set_chats (PyDict.set (chats s) (current_chat s) (messages s)) s in
      (save_chats env s, Rerun)
  end.

(** ** Import ([chat_io.import_chat]) *)

(** An uploaded file: its name and what [json.load] makes of it. *)
Record Upload := mkUpload {
  upload_name : string;
  upload_data : result json
}.

(** ["role" in msg and "content" in msg] *)
Definition has_role_and_content (msg : json) : result bool :=
  has_role ← json_contains "role" msg;
  if has_role : bool then json_contains "content" msg else Ok false.

(** [all(... for msg in chat_data)], which stops at the first false. *)
Fixpoint all_have_role_and_content (chat_data : list json) : result bool :=
  match chat_data with
  | [] => Ok true
  | msg :: rest =>
      ok ← has_role_and_content msg;
      if ok : bool then all_have_role_and_content rest else Ok false
  end.

(** The [try] block up to the validation. *)
Definition import_chat_try (uploaded_file : Upload) : result (string * list json) :=
  chat_data ← upload_data uploaded_file;
  let chat_name := "Import: " +:+ upload_name uploaded_file in
  match chat_data with
  | JArr items =>
      ok ← all_have_role_and_content items;
      if ok : bool then Ok (chat_name, items)
      else Raise (ValueError "Invalid chat format")
  | _ => Raise (ValueError "Invalid chat format")
  end.

(** The message a JSON value is: the object [{"role": r, "content": c}]
    with [r] and [c] strings. *)
Definition as_message (j : json) : option Message :=
  match j with
  | JObj [(k1, JStr r); (k2, JStr c)] =>
      if decide (k1 = "role" ∧ k2 = "content") then Some (mkMessage r c) else None
  | _ => None
  end.

(** [None] stands for an upload that passes the validation although one
    of its elements is not the record of a message, which the code
    stores as it is. *)
Definition import_chat (env : Env) (uploaded_file : Upload) (s : State)
  : option (State * Control) :=
  match import_chat_try uploaded_file with
  | Raise e => Some (st_error ("Import error: " +:+ exn_str e) s, Returned)
  | Ok (chat_name, items) =>
      chat_data ← mapM as_message items;
      let '(h, l) := heap_alloc (heap s) chat_data in
      let s := set_chats (PyDict.set (chats s) (Some chat_name) l) (set_heap h s) in
      let s := set_current_chat (Some chat_name) s in
      let s := set_messages l s in
      Some (save_chats env s, Returned)
  end.

(** ** Completion client ([message_handler.get_model_response],
       [api_client.ApiClient.get_response]) *)

Definition newline : string := String (ascii_of_nat 10) EmptyString.

Definition prompt_line (msg : Message) : string :=
  PyStr.capitalize (role msg) +:+ ": " +:+ content msg.

(** Prompt assembly; the two clients hold the same text. *)
Definition build_prompt (messages : list Message) : string :=
  let prompt := PyStr.join newline (prompt_line <$> filter non_system messages) in
  match last messages with
  | Some msg =>
      if decide (role msg = "user")
      then prompt +:+ newline +:+ "User: " +:+ content msg
      else prompt
  | None => prompt
  end.

(** A response object of [requests]. *)
Record HttpResponse := mkResponse {
  status_code : nat;
  reason : string;
  url : string;
  body : Body
}.

(** [requests.post(...)] *)
Definition http_post (env : Env) : result HttpResponse :=
  match server env with
  | NoReply detail => Raise (RequestsTimeout detail)
  | ConnectionFailed detail => Raise (RequestsConnectionError detail)
  | Response status reason url body => Ok (mkResponse status reason url body)
  end.

(** The statuses for which [raise_for_status] raises. *)
Definition is_error_status (status : nat) : bool :=
  (400 <=? status) && (status <? 600).

(** The message of the [HTTPError] of [requests]. *)
Definition http_error_msg (response : HttpResponse) : string :=
  pretty (status_code response)
  +:+ (if status_code response <? 500 then " Client Error: " else " Server Error: ")
  +:+ reason response +:+ " for url: " +:+ url response.

(** [response.raise_for_status()]: client and server errors raise. *)
Definition raise_for_status (response : HttpResponse) : result unit :=
  if is_error_status (status_code response)
  then Raise (RequestsHTTPError (http_error_msg response))
  else Ok tt.

(** [response.json()] *)
Definition response_json (response : HttpResponse) : result json :=
  match body response with
  | JsonBody j => Ok j
  | NotJsonBody err => Raise (RequestsJSONDecodeError err)
  end.

Definition call_endpoint (env : Env) : result json :=
  response ← http_post env;
  _ ← raise_for_status response;
  response_json response.

Definition get_model_response (env : Env) (messages : list Message) (s : State)
  : State * option json :=
  if negb (opt_truthy (API_KEY env)) then
    (st_error ("API key not found. Set the '" +:+ AppConfig.API_KEY_ENV_VAR
               +:+ "' environment variable.") s, None)
  else
    let prompt := build_prompt messages in
    let data :=
      mkRequest (API_URL env) ("Bearer " +:+ default "" (API_KEY env))
        (DEFAULT_MODEL env) prompt (model_params s) in
    let s := add_sent data s in
    match call_endpoint env with
    | Ok j => (s, Some j)
    | Raise e =>
        if is_requests_timeout e then
          (st_error "Request timeout. Server not responding." s, None)
        else if is_request_exception e then
          (st_error ("Network error: " +:+ exn_str e) s, None)
        else (st_error ("Critical error: " +:+ exn_str e) s, None)
    end.

(** What [ApiClient.get_response] raises. *)
Inductive ClientError :=
| TimeoutError (msg : string)
| ConnectionError (msg : string)
| Exception (msg : string).

Module ApiClient.

(** The requests posted and the value returned or the error raised;
    [defaults] are the [DEFAULT_*] model parameters of [AppConfig]. *)
Definition get_response (env : Env) (defaults : ModelParams)
    (api_key : string) (messages : list Message)
  : list Request * (json + ClientError) :=
  let prompt := build_prompt messages in
  let data :=
    mkRequest (API_URL env) ("Bearer " +:+ api_key) (DEFAULT_MODEL env) prompt defaults in
  match call_endpoint env with
  | Ok j => ([data], inl j)
  | Raise e =>
      if is_requests_timeout e then
        ([data], inr (TimeoutError "Request timeout. Server not responding."))
      else if is_request_exception e then
        ([data], inr (ConnectionError ("Network error: " +:+ exn_str e)))
      else ([data], inr (Exception ("Critical error: " +:+ exn_str e)))
  end.

End ApiClient.

(** ** Rate limiter and validation ([message_handler]) *)

(** [x < y] on clock readings. *)
Definition Qltb (x y : Q) : bool := negb (Qle_bool y x).

Definition rate_limit_check (env : Env) (s : State) : State * bool :=
  let current_time := now env in
  match last_request_time s with
  | None => (set_last_request_time current_time s, true)
  | Some last =>
      if Qltb (current_time - last)%Q 1%Q then (s, false)
      else (set_last_request_time current_time s, true)
  end.

Definition validate_message (content : string) : bool :=
  if negb (PyStr.truthy content) || (PyStr.len (PyStr.strip content) =? 0) then false
  else if 4096 <? PyStr.len content then false
  else true.

(** ** Sending a message ([main.handle_user_input]) *)

(** [st.session_state.messages.append(msg)] *)
Definition append_message (msg : Message) (s : State) : State :=
  set_heap (heap_append (heap s) (messages s) msg) s.

(** [chats[current_chat] = trim_message_history(messages)] *)
Definition store_trimmed (s : State) : State :=
  let '(h, l) := heap_alloc (heap s) (trim_message_history (session_messages s)) in
  set_chats (PyDict.set (chats s) (current_chat s) l) (set_heap h s).

(** Lines 246 and 247: the completion text, [None] when the response is
    passed over. *)
Definition completion_text (response : option json) : result (option string) :=
  match response with
  | None => Ok None
  | Some r =>
      if negb (json_truthy r) then Ok None else
      has_choices ← json_contains "choices" r;
      if negb has_choices then Ok None else
      choices ← json_item r "choices";
      if negb (json_truthy choices) then Ok None else
      first ← json_first choices;
      text ← json_item first "text";
      assistant_response ← json_strip text;
      Ok (Some assistant_response)
  end.

Definition handle_user_input (env : Env) (user_input : string) (s : State)
  : State * Control :=
  if negb (validate_message user_input) then (s, Returned) else
  let '(s, allowed) := rate_limit_check env s in
  if negb allowed then (s, Returned) else
  let s := append_message (mkMessage "user" user_input) s in
  let s := set_disabled true s in
  let s := save_chats env (store_trimmed s) in
  let '(s, response) := get_model_response env (session_messages s) s in
  match completion_text response with
  | Raise e => (s, Raised e)
  | Ok None => (set_disabled false s, Rerun)
  | Ok (Some assistant_response) =>
      if PyStr.truthy assistant_response then
        let s := append_message (mkMessage "assistant" assistant_response) s in
        let s := save_chats env (store_trimmed s) in
        (set_disabled false s, Rerun)
      else (set_disabled false s, Rerun)
  end.

(** ** Controller operations as one step function *)

Inductive Op :=
| CreateChat (chat_name : option string)
| SwitchChat (chat_name : option string)
| DeleteChat (chat_name : option string)
| ClearChat
| SendMessage (text : string)
| ImportChat (uploaded_file : Upload).

Definition run (env : Env) (op : Op) (s : State) : option (State * Control) :=
  match op with
  | CreateChat chat_name => Some (create_new_chat env chat_name s)
  | SwitchChat chat_name => Some (switch_chat chat_name s)
  | DeleteChat chat_name => Some (delete_chat env chat_name s)
  | ClearChat => Some (clear_current_chat env s)
  | SendMessage text => Some (handle_user_input env text s)
  | ImportChat uploaded_file => import_chat env uploaded_file s
  end.

(** ** Session set-up ([main.init_session_state]) *)

Definition default_params : ModelParams :=
  mkParams (1 # 10) 2048 (9 # 10) 40 (11 # 10).

(** A loaded conversation as a list of messages, when it is one. *)
Definition as_messages (j : json) : option (list Message) :=
  match j with
  | JArr items => mapM as_message items
  | _ => None
  end.

(** The loaded conversations as list objects in the heap. *)
Fixpoint alloc_chats (h : list (list Message)) (loaded : list (string * json))
  : option (list (list Message) * list (option string * nat)) :=
  match loaded with
  | [] => Some (h, [])
  | (k, j) :: rest =>
      msgs ← as_messages j;
      let '(h1, l) := heap_alloc h msgs in
      r ← alloc_chats h1 rest;
      Some (r.1, (Some k, l) :: r.2)
  end.

(** The first run of a session: the store is loaded, and a new list
    that holds the English default system message becomes both
    [messages] and the conversation of the current chat, ["Default"].
    [None] stands for a chats file with a conversation that is not a
    list of role and content strings. *)
Definition init_session_state (file : FileState) : option State :=
  let '(loaded, errors) := load_saved_chats file in
  r ← alloc_chats [] loaded;
  let '(h, l) :=
    heap_alloc r.1 [mkMessage "system" (AppConfig.DEFAULT_SYSTEM_MESSAGE en)] in
  Some (mkState h en (Some "Default") (PyDict.set r.2 (Some "Default") l) l
          false None default_params file [] errors).

(** The session of a first run without a chats file. *)
Definition initial_state : State :=
  mkState [[]; [mkMessage "system" (AppConfig.DEFAULT_SYSTEM_MESSAGE en)]]
    en (Some "Default") [(Some "Default", 1)] 1 false None default_params
    Missing [] [].

(** ** The specification's wording, for comparison with the code *)

(** The line feed. *)
Definition LF : string :=
  String (Ascii.Ascii false true false true false false false false) EmptyString.

(** Prompt assembly as the specification words it: one line
    [Role: content] per message that is not a system message, the role
    capitalized, and one more [User: content] line when the last
    message is a user message. *)
Definition prompt_lines (messages : list Message) : list string :=
  ((λ msg, PyStr.capitalize (role msg) +:+ ": " +:+ content msg)
     <$> filter (λ msg, role msg ≠ "system") messages) ++
  match last messages with
  | Some msg => if decide (role msg = "user") then ["User: " +:+ content msg] else []
  | None => []
  end.

(** The [n] largest of a list of keys, as the specification words the
    keys that survive loading. *)
Definition largest_keys (n : nat) (keys : list string) : list string :=
  last_n n (merge_sort String.le keys).

(** A persisted mapping with one entry more than [MAX_CHATS]. *)
Definition crowded_store : list (string * json) :=
  (λ i, ("chat " +:+ pretty i, JArr [])) <$> seq 0 51.

(** A text of [n] Cyrillic letters, two bytes each. *)
Definition cyrillic_text (n : nat) : string := PyStr.concat (replicate n "я").

(** A response body that exposes [choices[0].text]. *)
Definition completion_body (text : string) : json :=
  JObj [("choices", JArr [JObj [("text", JStr text)]])].

Definition sample_url : string := "http://localhost:8000/v1/completions".

(** An environment with the API key set and a writable chats file, in
    which the clock reads [t] and the endpoint answers with [reply]. *)
Definition sample_env (t : Q) (reply : HttpReply) : Env :=
  mkEnv sample_url "local-model" (Some "secret") t "01.01.2025 10:00" None reply.

(** The answer of a gateway that waited in vain: status 504 and an
    empty body. *)
Definition gateway_timeout : HttpReply :=
  Response 504 "Gateway Timeout" sample_url
    (NotJsonBody "Expecting value: line 1 column 1 (char 0)").

(** No answer within the timeout. *)
Definition no_reply : HttpReply :=
  NoReply "HTTPConnectionPool(host='localhost', port=8000): Read timed out. (read timeout=15)".

(** A call of [handle_user_input] is suppressed when it hands back the
    state it was given: nothing appended, nothing saved, nothing posted. *)
Definition suppressed (env : Env) (text : string) (s : State) : Prop :=
  handle_user_input env text s = (s, Returned).

(** Lines 234 to 240 of [handle_user_input], once validation and the
    limiter have let the call through: the user message is appended, the
    input is disabled, the trimmed history is stored and saved. *)
Definition user_phase (env : Env) (text : string) (s : State) : State :=
  save_chats env
    (store_trimmed
       (set_disabled true
          (append_message (mkMessage "user" text)
             (set_last_request_time (now env) s)))).

(** The completion-call failures: no answer in time, no connection, a
    client or server error status, a body that is not JSON. *)
Inductive failed_call : HttpReply → Prop :=
| failed_timeout detail : failed_call (NoReply detail)
| failed_network detail : failed_call (ConnectionFailed detail)
| failed_status status reason url body :
    400 ≤ status < 600 → failed_call (Response status reason url body)
| failed_not_json status reason url err :
    failed_call (Response status reason url (NotJsonBody err)).

(** A body that line 246 of [handle_user_input] passes over: a false
    value ([null], [false], [0], an empty string, list or object), a
    value that has no ["choices"], or an object whose ["choices"] is a
    false value. *)
Inductive passed_over : json → Prop :=
| passed_false body :
    json_truthy body = false → passed_over body
| passed_without_choices body :
    json_contains "choices" body = Ok false → passed_over body
| passed_empty_choices fields choices :
    PyDict.get fields "choices" = Some choices →
    json_truthy choices = false →
    passed_over (JObj fields).

(** An answer without an error status whose body is passed over. *)
Inductive no_completion : HttpReply → Prop :=
| no_completion_body status reason url body :
    ¬ (400 ≤ status < 600) →
    passed_over body →
    no_completion (Response status reason url (JsonBody body)).

(** An answer whose [choices[0].text] is empty or white space only. *)
Inductive blank_completion : HttpReply → Prop :=
| blank_text status reason url fields first rest text :
    ¬ (400 ≤ status < 600) →
    PyDict.get fields "choices" = Some (JArr (first :: rest)) →
    json_item first "text" = Ok (JStr text) →
    PyStr.strip text = "" →
    blank_completion (Response status reason url (JsonBody (JObj fields))).

(** A conversation that begins with a system message. *)
Definition leads_with_system (l : list Message) : Prop :=
  match l with
  | msg :: _ => is_system msg
  | [] => False
  end.

(** Every stored conversation, and the session's own message list,
    begins with a system message. *)
Definition system_led (h : list (list Message)) (d : list (option string * nat)) (m : nat)
  : Prop :=
  Forall (λ kv, leads_with_system (heap_get h kv.2)) d
  ∧ leads_with_system (heap_get h m).

Definition conversations_system_led (s : State) : Prop :=
  system_led (heap s) (chats s) (messages s).

(** Whether an operation is an import. *)
Definition is_import (op : Op) : bool :=
  match op with ImportChat _ => true | _ => false end.


(** A sequence of controller operations, each with the environment it
    runs in.  The session outlives a call whatever way it ends. *)
Fixpoint run_all (steps : list (Env * Op)) (s : State) : option State :=
  match steps with
  | [] => Some s
  | (env, op) :: rest =>
      match run env op s with
      | Some (s', _) => run_all rest s'
      | None => None
      end
  end.






(** No stored conversation is without a system message. *)
Definition no_conversation_without_system (s : State) : Prop :=
  Forall (λ kv, filter is_system (heap_get (heap s) kv.2) ≠ []) (chats s).

(** The characters [create_new_chat] keeps in a name. *)
Definition sanitize (name : string) : string :=
  PyStr.strip (PyStr.filter_chars
    (λ c, PyStr.isalnum c || PyStr.char_in c " -_()") name).

(** ** Export ([chat_io.export_chat]) *)

(** [s.replace(a, b)] for one-character strings [a] and [b]. *)
Definition replace_char (a b : ascii) (s : string) : string :=
  PyStr.map_chars (λ c, if Ascii.eqb c a then b else c) s.

(** Line 12 of [export_chat]: spaces, slashes and backslashes become
    underscores. *)
Definition safe_name (chat_name : string) : string :=
  replace_char "\" "_" (replace_char "/" "_" (replace_char " " "_" chat_name)).

(** The file an export writes. *)
Record ExportFile := mkExportFile {
  export_filename : string;
  export_document : json
}.

(** [export_error] is the error text when the export file cannot be
    written.  The result is the state (only [st.error] can change it)
    and the file written, whose name is what the function returns;
    [None] is the function's [None]. *)
Definition export_chat (export_error : option string) (chat_name : option string)
    (s : State) : State * option ExportFile :=
  if opt_truthy chat_name && PyDict.contains (chats s) chat_name then
    match PyDict.get (chats s) chat_name with
    | None =>
        (st_error ("Error exporting chat: " +:+ repr_str (json_key chat_name)) s, None)
    | Some l =>
        let chat_data := heap_get (heap s) l in
        let filename := safe_name (default "" chat_name) +:+ "_export.json" in
        match export_error with
        | None => (s, Some (mkExportFile filename (JArr (json_of_message <$> chat_data))))
        | Some err => (st_error ("Error exporting chat: " +:+ err) s, None)
        end
    end
  else (s, None).

(** The upload a user makes of an exported file. *)
Definition upload_of_export (f : ExportFile) : Upload :=
  mkUpload (export_filename f) (Ok (export_document f)).

(** ** The chat input of [main.main], lines 315 to 321 *)






(** ** Words for the properties of the remaining code *)

(** The clock readings at which the limiter allows a call, when it is
    asked once per environment of the list. *)
Fixpoint allowed_readings (calls : list Env) (s : State) : list Q :=
  match calls with
  | [] => []
  | env :: rest =>
      let '(s', allowed) := rate_limit_check env s in
      if allowed then now env :: allowed_readings rest s'
      else allowed_readings rest s'
  end.

(** Consecutive readings are at least one second apart, the first one
    counted from [last] when there is one. *)
Fixpoint spaced (last : option Q) (readings : list Q) : Prop :=
  match readings with
  | [] => True
  | t :: rest =>
      match last with
      | Some t0 => (1 <= t - t0)%Q
      | None => True
      end ∧ spaced (Some t) rest
  end.





(** The discipline of the session's references: the chat names are
    distinct, no two chats share a list object, every reference points
    into the heap, ["Default"] is a chat, and the current chat's list is
    either the very list [messages] refers to or a list of its own that
    holds the trimmed form of it, in which case no chat refers to the
    session's list. *)
Definition session_wf (s : State) : Prop :=
  NoDup (PyDict.keys (chats s))
  ∧ NoDup (snd <$> chats s)
  ∧ Forall (λ kv, kv.2 < length (heap s)) (chats s)
  ∧ messages s < length (heap s)
  ∧ Some "Default" ∈ PyDict.keys (chats s)
  ∧ ∃ l, PyDict.get (chats s) (current_chat s) = Some l
         ∧ (l = messages s
            ∨ (¬ (messages s ∈ snd <$> chats s)
               ∧ heap_get (heap s) l = trim_message_history (session_messages s))).

(** The parts of [session_wf] that do not look into the lists. *)
Definition refs_wf (h : list (list Message)) (d : list (option string * nat))
    (cur : option string) (m : nat) : Prop :=
  NoDup (PyDict.keys d)
  ∧ NoDup (snd <$> d)
  ∧ Forall (λ kv, kv.2 < length h) d
  ∧ m < length h
  ∧ Some "Default" ∈ PyDict.keys d
  ∧ ∃ l, PyDict.get d cur = Some l ∧ (l = m ∨ ¬ (m ∈ snd <$> d)).

(** An answer whose [choices[0].text] holds something besides white
    space; the second argument is the stripped text. *)
Inductive good_completion : HttpReply → string → Prop :=
| good_text status reason url fields first rest text :
    ¬ (400 ≤ status < 600) →
    PyDict.get fields "choices" = Some (JArr (first :: rest)) →
    json_item first "text" = Ok (JStr text) →
    PyStr.strip text ≠ "" →
    good_completion (Response status reason url (JsonBody (JObj fields))) (PyStr.strip text).

(** The request [get_model_response] posts for a list of messages. *)
Definition request_for (env : Env) (s : State) (msgs : list Message) : Request :=
  mkRequest (API_URL env) ("Bearer " +:+ default "" (API_KEY env))
    (DEFAULT_MODEL env) (build_prompt msgs) (model_params s).

(** An environment without the API key. *)
Definition keyless_env (t : Q) (reply : HttpReply) : Env :=
  mkEnv sample_url "local-model" None t "01.01.2025 10:00" None reply.

(** The notice of [get_model_response] for a missing API key. *)
Definition api_key_notice : string :=
  "API key not found. Set the '" +:+ AppConfig.API_KEY_ENV_VAR +:+ "' environment variable.".




(** A session with two chats, the second one current, whose list has
    been sent to once. *)
Definition busy_state : State :=
  (handle_user_input
     (sample_env 0 (Response 200 "OK" sample_url (JsonBody (completion_body "hello")))) "hi"
     (create_new_chat (sample_env 0 no_reply) (Some "Work") initial_state).1).1.

(** * Properties *)

(** ** History trimmer *)

Section Trim.

Implicit Types (m : list Message) (msg : Message).

Lemma filter_all {A} (P : A → Prop) `{∀ x, Decision (P x)} (l : list A) :
  Forall P l → filter P l = l.
Proof.
  induction 1 as [|x l Hx _ IH]; [done|].
  rewrite filter_cons_True by done. by rewrite IH.
Qed.

Lemma filter_none {A} (P : A → Prop) `{∀ x, Decision (P x)} (l : list A) :
  Forall (λ x, ¬ P x) l → filter P l = [].
Proof.
  induction 1 as [|x l Hx _ IH]; [done|].
  by rewrite filter_cons_False.
Qed.

Lemma Forall_filter_self {A} (P : A → Prop) `{∀ x, Decision (P x)} (l : list A) :
  Forall P (filter P l).
Proof. apply Forall_forall. intros x Hx. by apply list_elem_of_filter in Hx as [? _]. Qed.

Lemma Forall_drop_filter {A} (P : A → Prop) `{∀ x, Decision (P x)} (l : list A) n :
  Forall P (drop n (filter P l)).
Proof. apply Forall_drop, Forall_filter_self. Qed.

(** With a positive bound the Python slice is the suffix of that length. *)
Lemma slice_from_neg_last_n {A} (n : nat) (l : list A) :
  n ≠ 0 → PyList.slice_from_neg n l = last_n n l.
Proof.
  intros Hn. unfold PyList.slice_from_neg, last_n.
  destruct (Nat.eqb_spec n 0); [done|reflexivity].
Qed.

Lemma length_last_n {A} (n : nat) (l : list A) :
  length (last_n n l) = min n (length l).
Proof. unfold last_n. rewrite length_drop. lia. Qed.

Lemma last_n_idem {A} (n : nat) (l : list A) :
  last_n n (last_n n l) = last_n n l.
Proof.
  unfold last_n at 1. rewrite length_last_n.
  replace (n `min` length l - n) with 0 by lia. reflexivity.
Qed.

Lemma trim_unfold m :
  trim_message_history m =
  filter is_system m ++ last_n AppConfig.MAX_HISTORY_LENGTH (filter non_system m).
Proof.
  unfold trim_message_history. cbv zeta.
  by rewrite slice_from_neg_last_n.
Qed.

Lemma trim_system_part m :
  filter is_system (trim_message_history m) = filter is_system m.
Proof.
  rewrite trim_unfold, filter_app.
  rewrite (filter_all is_system (filter is_system m)) by apply Forall_filter_self.
  rewrite (filter_none is_system (last_n _ _)); [by rewrite app_nil_r|].
  unfold last_n.
  eapply Forall_impl; [apply (Forall_drop_filter non_system)|].
  intros msg Hn Hs. by apply Hn.
Qed.

Lemma trim_other_part m :
  filter non_system (trim_message_history m) =
  last_n AppConfig.MAX_HISTORY_LENGTH (filter non_system m).
Proof.
  rewrite trim_unfold, filter_app.
  rewrite (filter_none non_system (filter is_system m)).
  - simpl. apply filter_all. apply Forall_drop_filter.
  - eapply Forall_impl; [apply (Forall_filter_self is_system)|].
    intros msg Hs Hn. by apply Hn.
Qed.

(** C2.  Trimming a message list yields all its system messages, in
    their order, followed by its last [MAX_HISTORY_LENGTH] non-system
    messages, in their order; so at most [MAX_HISTORY_LENGTH] non-system
    messages remain and every system message is still there. *)
Theorem trim_message_history_spec m :
  trim_message_history m =
    filter is_system m ++ last_n AppConfig.MAX_HISTORY_LENGTH (filter non_system m)
  ∧ filter is_system (trim_message_history m) = filter is_system m
  ∧ filter non_system (trim_message_history m) =
      last_n AppConfig.MAX_HISTORY_LENGTH (filter non_system m)
  ∧ length (filter non_system (trim_message_history m)) ≤ AppConfig.MAX_HISTORY_LENGTH
  ∧ Forall (λ msg, msg ∈ trim_message_history m) (filter is_system m).
Proof.
  split_and!.
  - apply trim_unfold.
  - apply trim_system_part.
  - apply trim_other_part.
  - rewrite trim_other_part, length_last_n. lia.
  - apply Forall_forall. intros msg Hin. rewrite trim_unfold.
    apply elem_of_app. by left.
Qed.

(** C10.  Trimming is idempotent. *)
Theorem trim_message_history_idempotent m :
  trim_message_history (trim_message_history m) = trim_message_history m.
Proof.
  rewrite (trim_unfold (trim_message_history m)).
  rewrite trim_system_part, trim_other_part, last_n_idem.
  symmetry. apply trim_unfold.
Qed.

(** The bound matters: with a bound of zero the slice [l[-0:]] keeps
    everything. *)
Remark slice_from_neg_zero {A} (l : list A) : PyList.slice_from_neg 0 l = l.
Proof. reflexivity. Qed.

End Trim.

(** ** Prompt assembly *)

Section Prompt.

Implicit Types (messages : list Message) (msg : Message).

Lemma string_app_assoc (a b c : string) : (a +:+ b) +:+ c = a +:+ (b +:+ c).
Proof.
  induction a as [|x a IH]; [reflexivity|].
  change (String x ((a +:+ b) +:+ c) = String x (a +:+ (b +:+ c))).
  by rewrite IH.
Qed.

(** Joining one more part after a non-empty list of parts. *)
Lemma join_snoc sep (parts : list string) (x : string) :
  parts ≠ [] →
  PyStr.join sep (parts ++ [x]) = PyStr.join sep parts +:+ sep +:+ x.
Proof.
  unfold PyStr.join.
  induction parts as [|p parts IH]; [done|]. intros _.
  destruct parts as [|q parts].
  - simpl. reflexivity.
  - change (String.concat sep ((p :: q :: parts) ++ [x]))
      with (p +:+ sep +:+ String.concat sep ((q :: parts) ++ [x])).
    rewrite IH by done.
    change (String.concat sep (p :: q :: parts))
      with (p +:+ sep +:+ String.concat sep (q :: parts)).
    by rewrite !string_app_assoc.
Qed.

Lemma capitalize_user : PyStr.capitalize "user" = "User".
Proof. vm_compute. reflexivity. Qed.

Lemma capitalize_assistant : PyStr.capitalize "assistant" = "Assistant".
Proof. vm_compute. reflexivity. Qed.

(** Capitalization lowers what follows the first character, in every
    script. *)
Remark capitalize_examples :
  PyStr.capitalize "aSSISTANT" = "Assistant"
  ∧ PyStr.capitalize "помощник" = "Помощник"
  ∧ PyStr.capitalize "ПОМОЩНИК" = "Помощник".
Proof. vm_compute. by split_and!. Qed.

Lemma prompt_line_user msg :
  role msg = "user" → prompt_line msg = "User: " +:+ content msg.
Proof. intros Hr. unfold prompt_line. by rewrite Hr, capitalize_user. Qed.

Lemma prompt_line_assistant msg :
  role msg = "assistant" → prompt_line msg = "Assistant: " +:+ content msg.
Proof. intros Hr. unfold prompt_line. by rewrite Hr, capitalize_assistant. Qed.

(** A list that ends with a user message has that message as its last
    non-system message. *)
Lemma filter_non_system_last messages msg :
  last messages = Some msg → role msg = "user" →
  ∃ before, filter non_system messages = before ++ [msg].
Proof.
  intros [l' ->]%last_Some Hr.
  exists (filter non_system l').
  rewrite filter_app, filter_cons_True, filter_nil; [done|].
  unfold non_system. by rewrite Hr.
Qed.

(** The lines of the specification are the lines of the code. *)
Lemma prompt_lines_code messages :
  prompt_lines messages =
    (prompt_line <$> filter non_system messages) ++
    match last messages with
    | Some msg => if decide (role msg = "user") then ["User: " +:+ content msg] else []
    | None => []
    end.
Proof. reflexivity. Qed.

Lemma build_prompt_lines messages :
  build_prompt messages = String.concat LF (prompt_lines messages).
Proof.
  rewrite prompt_lines_code. unfold build_prompt.
  change (PyStr.join newline) with (String.concat LF).
  change newline with LF.
  destruct (last messages) as [msg|] eqn:Hlast; [|by rewrite app_nil_r].
  destruct (decide (role msg = "user")) as [Hr|]; [|by rewrite app_nil_r].
  destruct (filter_non_system_last _ _ Hlast Hr) as [before Hb].
  rewrite (join_snoc LF); [done|].
  rewrite Hb, fmap_app. by destruct (prompt_line <$> before).
Qed.

(** The request the handler posts, when it posts one. *)
Lemma get_model_response_posts env messages s :
  sent (get_model_response env messages s).1 =
    if opt_truthy (API_KEY env) then
      sent s ++ [mkRequest (API_URL env) ("Bearer " +:+ default "" (API_KEY env))
                   (DEFAULT_MODEL env) (build_prompt messages) (model_params s)]
    else sent s.
Proof.
  unfold get_model_response.
  destruct (opt_truthy (API_KEY env)); [|reflexivity]. simpl.
  destruct (call_endpoint env) as [j|e]; [reflexivity|].
  destruct (is_requests_timeout e); [reflexivity|].
  destruct (is_request_exception e); reflexivity.
Qed.

(** C3.  The prompt is the sequence of one line [Role: content] per
    message that is not a system message, in order, with the role
    capitalized, the lines separated by line feeds; when the last
    message is a user message, one more line [User: content] with its
    content follows, so that the prompt ends with that line twice.  A
    system message, a question and an answer give the two lines
    [User: question] and [Assistant: answer].  The handler posts exactly
    one request with this prompt when the API key is set and none
    otherwise, and the second client posts exactly one with it. *)
Theorem prompt_assembly messages :
  build_prompt messages = String.concat LF (prompt_lines messages)
  ∧ match last messages with
    | Some msg =>
        if decide (role msg = "user") then
          ∃ before,
            (λ msg, PyStr.capitalize (role msg) +:+ ": " +:+ content msg)
              <$> filter (λ msg, role msg ≠ "system") messages
            = before ++ ["User: " +:+ content msg]
            ∧ prompt_lines messages =
                before ++ ["User: " +:+ content msg; "User: " +:+ content msg]
        else
          prompt_lines messages =
            (λ msg, PyStr.capitalize (role msg) +:+ ": " +:+ content msg)
              <$> filter (λ msg, role msg ≠ "system") messages
    | None => build_prompt messages = ""
    end
  ∧ (∀ sys question answer,
       build_prompt [mkMessage "system" sys; mkMessage "user" question;
                     mkMessage "assistant" answer]
       = "User: " +:+ question +:+ LF +:+ "Assistant: " +:+ answer
       ∧ build_prompt [mkMessage "system" sys; mkMessage "user" question]
         = "User: " +:+ question +:+ LF +:+ "User: " +:+ question)
  ∧ (∀ env s,
       sent (get_model_response env messages s).1 =
         if opt_truthy (API_KEY env) then
           sent s ++ [mkRequest (API_URL env) ("Bearer " +:+ default "" (API_KEY env))
                        (DEFAULT_MODEL env) (String.concat LF (prompt_lines messages))
                        (model_params s)]
         else sent s)
  ∧ (∀ env defaults api_key,
       (ApiClient.get_response env defaults api_key messages).1 =
         [mkRequest (API_URL env) ("Bearer " +:+ api_key) (DEFAULT_MODEL env)
            (String.concat LF (prompt_lines messages)) defaults]).
Proof.
  split_and!.
  - apply build_prompt_lines.
  - destruct (last messages) as [msg|] eqn:Hlast.
    + destruct (decide (role msg = "user")) as [Hr|Hr].
      * destruct (filter_non_system_last _ _ Hlast Hr) as [before Hb].
        exists (prompt_line <$> before).
        rewrite prompt_lines_code, Hlast, decide_True by done.
        change (filter (λ msg0, role msg0 ≠ "system") messages)
          with (filter non_system messages).
        rewrite Hb, !fmap_app, <- app_assoc. simpl.
        fold (prompt_line msg). by rewrite (prompt_line_user msg Hr).
      * rewrite prompt_lines_code, Hlast, decide_False by done.
        by rewrite app_nil_r.
    + apply last_None in Hlast as ->. reflexivity.
  - intros sys question answer.
    rewrite !build_prompt_lines, !prompt_lines_code. split.
    + change (String.concat LF [prompt_line (mkMessage "user" question);
                                prompt_line (mkMessage "assistant" answer)]
              = "User: " +:+ question +:+ LF +:+ "Assistant: " +:+ answer).
      rewrite (prompt_line_user (mkMessage "user" question)) by done.
      rewrite (prompt_line_assistant (mkMessage "assistant" answer)) by done.
      change (("User: " +:+ question) +:+ LF +:+ ("Assistant: " +:+ answer)
              = "User: " +:+ question +:+ LF +:+ "Assistant: " +:+ answer).
      by rewrite !string_app_assoc.
    + change (String.concat LF [prompt_line (mkMessage "user" question);
                                "User: " +:+ question]
              = "User: " +:+ question +:+ LF +:+ "User: " +:+ question).
      rewrite (prompt_line_user (mkMessage "user" question)) by done.
      change (("User: " +:+ question) +:+ LF +:+ ("User: " +:+ question)
              = "User: " +:+ question +:+ LF +:+ "User: " +:+ question).
      by rewrite !string_app_assoc.
  - intros env s. rewrite get_model_response_posts.
    by rewrite build_prompt_lines.
  - intros env defaults api_key. unfold ApiClient.get_response.
    rewrite build_prompt_lines.
    destruct (call_endpoint env) as [j|e]; [reflexivity|].
    destruct (is_requests_timeout e); [reflexivity|].
    destruct (is_request_exception e); reflexivity.
Qed.

End Prompt.

(** ** Loading the store *)

Section Load.

Context {V : Type}.
Implicit Types (d chats : list (string * V)) (k key : string).

Lemma del_present d k :
  NoDup (PyDict.keys d) → k ∈ PyDict.keys d →
  PyDict.del d k = Some (filter (λ kv, kv.1 ≠ k) d).
Proof.
  unfold PyDict.keys.
  induction d as [|[k' v] d IH]; intros Hnd Hin; [by apply elem_of_nil in Hin|].
  apply NoDup_cons in Hnd as [Hk' Hnd]. simpl in *.
  destruct (decide (k' = k)) as [->|Hne].
  - rewrite filter_cons_False by (simpl; tauto).
    f_equal. symmetry. apply filter_all, Forall_forall.
    intros [k2 v2] Hin2; simpl; intros ->. apply Hk'.
    apply list_elem_of_fmap. by exists (k, v2).
  - apply elem_of_cons in Hin as [->|Hin]; [done|].
    rewrite IH by done. simpl.
    by rewrite filter_cons_True by (simpl; congruence).
Qed.

Lemma keys_filter (P : string → Prop) `{∀ k, Decision (P k)} d :
  PyDict.keys (filter (λ kv, P kv.1) d) = filter P (PyDict.keys d).
Proof.
  unfold PyDict.keys. induction d as [|[k v] d IH]; [done|].
  rewrite fmap_cons, !filter_cons. simpl.
  destruct (decide (P k)); [rewrite fmap_cons; simpl; f_equal|]; exact IH.
Qed.

(** The deletion loop removes exactly the listed keys and never raises. *)
Lemma del_all_filter oldest : ∀ d,
  NoDup (PyDict.keys d) → NoDup oldest → oldest ⊆ PyDict.keys d →
  del_all d oldest = Ok (filter (λ kv, kv.1 ∉ oldest) d).
Proof.
  induction oldest as [|key rest IH]; intros d Hnd Hnd' Hsub.
  - simpl. f_equal. symmetry. apply filter_all, Forall_forall.
    intros kv _. apply not_elem_of_nil.
  - apply NoDup_cons in Hnd' as [Hkey Hrest]. simpl.
    rewrite del_present; [|done|apply Hsub; left].
    pose proof (keys_filter (λ k, k ≠ key) d) as Hkeys. simpl in Hkeys.
    rewrite IH.
    + f_equal. rewrite list_filter_filter.
      apply list_filter_iff. intros [k v]. simpl.
      rewrite not_elem_of_cons. tauto.
    + rewrite Hkeys. by apply NoDup_filter.
    + done.
    + intros k Hk. rewrite Hkeys.
      apply list_elem_of_filter. split; [by intros ->|].
      apply Hsub. by right.
Qed.

End Load.

Section LoadClaims.

Implicit Types (chats kept : list (string * json)).

Lemma sorted_perm (ks : list string) : sorted ks ≡ₚ ks.
Proof. apply merge_sort_Permutation. Qed.

Lemma sorted_strongly (ks : list string) : StronglySorted String.le (sorted ks).
Proof. apply StronglySorted_merge_sort; apply _. Qed.

(** The keys that survive the deletion of the first [n] sorted keys are
    the remaining sorted keys. *)
Lemma keys_after_eviction (ks : list string) (n : nat) :
  NoDup ks →
  filter (λ k, k ∉ take n (sorted ks)) ks ≡ₚ drop n (sorted ks).
Proof.
  intros Hnd.
  assert (NoDup (take n (sorted ks) ++ drop n (sorted ks))) as Hsplit.
  { rewrite take_drop. by rewrite sorted_perm. }
  apply NoDup_app in Hsplit as (_ & Hdisj & _).
  trans (filter (λ k, k ∉ take n (sorted ks)) (sorted ks)).
  { apply filter_Permutation. symmetry. apply sorted_perm. }
  set (P := λ k, k ∉ take n (sorted ks)).
  replace (filter P (sorted ks))
    with (filter P (take n (sorted ks) ++ drop n (sorted ks)))
    by (by rewrite take_drop).
  rewrite filter_app.
  rewrite (filter_none P) by (apply Forall_forall; unfold P; tauto).
  rewrite (filter_all P); [done|].
  apply Forall_forall. intros k Hk Hk'. by apply (Hdisj k).
Qed.

(** C1.  When the persisted mapping has more than [MAX_CHATS] entries,
    loading returns exactly [MAX_CHATS] of its entries, without a
    notice; their keys are the [MAX_CHATS] largest keys of the mapping
    in lexicographic order, every evicted key being smaller than every
    retained one. *)
Theorem load_saved_chats_evicts_smallest chats :
  NoDup (PyDict.keys chats) →
  AppConfig.MAX_CHATS < length chats →
  ∃ kept,
    load_saved_chats (Document (JObj chats)) = (kept, [])
    ∧ length kept = AppConfig.MAX_CHATS
    ∧ sublist kept chats
    ∧ PyDict.keys kept ≡ₚ largest_keys AppConfig.MAX_CHATS (PyDict.keys chats)
    ∧ (∀ k k', k ∈ PyDict.keys kept → k' ∈ PyDict.keys chats →
               k' ∉ PyDict.keys kept → String.le k' k ∧ k' ≠ k).
Proof.
  intros Hnd Hlen.
  set (ks := PyDict.keys chats).
  set (n := length chats - AppConfig.MAX_CHATS).
  set (oldest := take n (sorted ks)).
  assert (length (sorted ks) = length chats) as Hlsrt.
  { rewrite (Permutation_length (sorted_perm ks)). apply length_fmap. }
  assert (NoDup (sorted ks)) as Hnds by (by rewrite sorted_perm).
  assert (del_all chats oldest = Ok (filter (λ kv, kv.1 ∉ oldest) chats)) as Hdel.
  { apply del_all_filter; [done|..].
    - eapply sublist_NoDup; [done|apply sublist_take].
    - intros k Hk. apply subseteq_take in Hk. by rewrite sorted_perm in Hk. }
  pose proof (keys_filter (λ k, k ∉ oldest) chats) as Hkeys. simpl in Hkeys.
  pose proof (keys_after_eviction ks n Hnd) as Hperm. fold oldest in Hperm.
  exists (filter (λ kv, kv.1 ∉ oldest) chats). split_and!.
  - unfold load_saved_chats, load_saved_chats_try.
    destruct (Nat.ltb_spec AppConfig.MAX_CHATS (length chats)) as [_|]; [|lia].
    unfold PyList.slice_to. fold ks n oldest. by rewrite Hdel.
  - rewrite <- (length_fmap fst). fold (PyDict.keys (filter (λ kv, kv.1 ∉ oldest) chats)).
    rewrite Hkeys. fold ks. rewrite Hperm, length_drop, Hlsrt. unfold n. lia.
  - apply sublist_filter.
  - rewrite Hkeys. fold ks. rewrite Hperm. unfold largest_keys, last_n.
    fold (sorted ks). by rewrite Hlsrt.
  - intros k k' Hk Hk' Hnk'. rewrite Hkeys in Hk, Hnk'. fold ks in Hk, Hk', Hnk'.
    rewrite Hperm in Hk, Hnk'.
    assert (k' ∈ take n (sorted ks)) as Hold.
    { rewrite <- (sorted_perm ks), <- (take_drop n (sorted ks)) in Hk'.
      apply elem_of_app in Hk' as [|]; [done|]. by destruct Hnk'. }
    split; [|by intros ->].
    eapply (StronglySorted_app_1_elem_of String.le (take n (sorted ks)) (drop n (sorted ks)));
      [|done..].
    rewrite take_drop. apply sorted_strongly.
Qed.

Lemma load_saved_chats_evicts_smallest_witness :
  NoDup (PyDict.keys crowded_store)
  ∧ AppConfig.MAX_CHATS < length crowded_store
  ∧ ∃ kept,
      load_saved_chats (Document (JObj crowded_store)) = (kept, [])
      ∧ length kept = AppConfig.MAX_CHATS
      ∧ sublist kept crowded_store
      ∧ PyDict.keys kept ≡ₚ largest_keys AppConfig.MAX_CHATS (PyDict.keys crowded_store)
      ∧ (∀ k k', k ∈ PyDict.keys kept → k' ∈ PyDict.keys crowded_store →
                 k' ∉ PyDict.keys kept → String.le k' k ∧ k' ≠ k).
Proof.
  assert (NoDup (PyDict.keys crowded_store)) as Hnd.
  { apply (bool_decide_unpack _). vm_compute. exact I. }
  assert (AppConfig.MAX_CHATS < length crowded_store) as Hlen.
  { vm_compute. lia. }
  split_and!; [exact Hnd|exact Hlen|].
  exact (load_saved_chats_evicts_smallest crowded_store Hnd Hlen).
Defined.

(** The key that goes is the smallest one, ["chat 0"]. *)
Example load_crowded_store_evicts_chat_0 :
  PyDict.keys (load_saved_chats (Document (JObj crowded_store))).1
  = PyDict.keys (drop 1 crowded_store).
Proof. vm_compute. reflexivity. Qed.

(** C9.  Loading never raises: a missing file gives the fallback
    [{"Default": []}] silently, and an unreadable file, unparsable JSON
    and a document that is not a JSON object give the fallback together
    with one notice that carries the error. *)
Theorem load_saved_chats_falls_back (file : FileState) :
  fallback_chats = [("Default", JArr [])]
  ∧ match file with
    | Missing => load_saved_chats file = (fallback_chats, [])
    | Unreadable err | NotJson err =>
        load_saved_chats file = (fallback_chats, ["Error loading chats: " +:+ err])
    | Document (JObj chats) =>
        match load_saved_chats_try file with
        | Ok _ => True
        | Raise e =>
            load_saved_chats file = (fallback_chats, ["Error loading chats: " +:+ exn_str e])
        end
    | Document _ =>
        load_saved_chats file =
          (fallback_chats, ["Error loading chats: Invalid chat file format"])
    end.
Proof.
  split; [reflexivity|].
  destruct file as [|err|err|j]; try reflexivity.
  destruct j; try reflexivity.
  unfold load_saved_chats.
  by destruct (load_saved_chats_try _) as [[?|]|e].
Qed.

End LoadClaims.

(** ** Validation and rate limiting *)

Section Limiter.

Implicit Types (env : Env) (s : State) (text : string).

Lemma Qltb_lt (x y : Q) : Qltb x y = true ↔ (x < y)%Q.
Proof.
  unfold Qltb. rewrite negb_true_iff, <- not_true_iff_false, Qle_bool_iff.
  split; [apply Qnot_le_lt|apply Qlt_not_le].
Qed.

Lemma Qltb_ge (x y : Q) : Qltb x y = false ↔ (y <= x)%Q.
Proof. unfold Qltb. by rewrite negb_false_iff, Qle_bool_iff. Qed.

Lemma validate_message_false text :
  text = "" ∨ PyStr.strip text = "" ∨ 4096 < PyStr.len text →
  validate_message text = false.
Proof.
  unfold validate_message. intros [->|[Hs|Hl]]; [done|..].
  - rewrite Hs. simpl. by rewrite orb_true_r.
  - destruct (_ || _); [done|].
    by destruct (Nat.ltb_spec 4096 (PyStr.len text)); [|lia].
Qed.

(** C8.  A text that is empty, blank after stripping (white space being
    that of Unicode) or longer than 4096 characters (code points) makes
    [handle_user_input] return at once: the state it
    hands back is the state it was given, so no message was added, the
    chats file was not written and no request was posted. *)
Theorem handle_user_input_invalid_noop env text s :
  text = "" ∨ PyStr.strip text = "" ∨ 4096 < PyStr.len text →
  handle_user_input env text s = (s, Returned)
  ∧ length (session_messages (handle_user_input env text s).1)
      = length (session_messages s)
  ∧ chat_messages (handle_user_input env text s).1 (current_chat s)
      = chat_messages s (current_chat s)
  ∧ disk (handle_user_input env text s).1 = disk s
  ∧ sent (handle_user_input env text s).1 = sent s
  ∧ notices (handle_user_input env text s).1 = notices s.
Proof.
  intros Hbad. unfold handle_user_input.
  by rewrite (validate_message_false _ Hbad).
Qed.

Lemma handle_user_input_invalid_noop_witness :
  handle_user_input (sample_env 0 no_reply) "   " initial_state
  = (initial_state, Returned).
Proof.
  apply (handle_user_input_invalid_noop (sample_env 0 no_reply) "   " initial_state).
  right. left. reflexivity.
Defined.

(** The limit of 4096 counts characters, not bytes, and white space is
    that of Unicode: a no-break space and an ideographic space make a
    blank text. *)
Remark validate_message_counts_characters :
  validate_message (cyrillic_text 4096) = true
  ∧ validate_message (cyrillic_text 4097) = false
  ∧ validate_message (PyStr.chr 160 +:+ PyStr.chr 12288) = false.
Proof. vm_compute. by split_and!. Qed.

Lemma rate_limit_check_first env s :
  last_request_time s = None →
  rate_limit_check env s = (set_last_request_time (now env) s, true).
Proof. unfold rate_limit_check. by intros ->. Qed.

Lemma rate_limit_check_allowed env s t :
  last_request_time s = Some t → (1 <= now env - t)%Q →
  rate_limit_check env s = (set_last_request_time (now env) s, true).
Proof.
  unfold rate_limit_check. intros -> Hge.
  apply Qltb_ge in Hge. by rewrite Hge.
Qed.

Lemma rate_limit_check_refused env s t :
  last_request_time s = Some t → (now env - t < 1)%Q →
  rate_limit_check env s = (s, false).
Proof.
  unfold rate_limit_check. intros -> Hlt.
  apply Qltb_lt in Hlt. by rewrite Hlt.
Qed.

End Limiter.

(** ** What each step of sending a message leaves alone *)

Section Frames.

Implicit Types (env : Env) (s : State) (text : string) (msg : Message).

Lemma get_model_response_frame env msgs s :
  let s' := (get_model_response env msgs s).1 in
  heap s' = heap s ∧ chats s' = chats s ∧ current_chat s' = current_chat s
  ∧ messages s' = messages s
  ∧ is_chat_input_disabled s' = is_chat_input_disabled s
  ∧ last_request_time s' = last_request_time s
  ∧ disk s' = disk s ∧ language s' = language s.
Proof.
  unfold get_model_response.
  destruct (negb (opt_truthy (API_KEY env))); [done|].
  destruct (call_endpoint env) as [j|e]; [done|].
  destruct (is_requests_timeout e); [done|].
  by destruct (is_request_exception e).
Qed.

Lemma save_chats_frame env s :
  let s' := save_chats env s in
  heap s' = heap s ∧ chats s' = chats s ∧ current_chat s' = current_chat s
  ∧ messages s' = messages s
  ∧ is_chat_input_disabled s' = is_chat_input_disabled s
  ∧ last_request_time s' = last_request_time s
  ∧ sent s' = sent s ∧ language s' = language s.
Proof. unfold save_chats. by destruct (write_error env). Qed.

Lemma save_chats_disk env s :
  write_error env = None →
  disk (save_chats env s) = Document (dump_chats (heap s) (chats s)).
Proof. unfold save_chats. by intros ->. Qed.

Lemma heap_get_alloc_old h v l :
  l < length h → heap_get (heap_alloc h v).1 l = heap_get h l.
Proof. intros Hl. unfold heap_get, heap_alloc. simpl. by rewrite lookup_app_l. Qed.

Lemma heap_get_alloc_new h v :
  heap_get (heap_alloc h v).1 (heap_alloc h v).2 = v.
Proof.
  unfold heap_get, heap_alloc. simpl.
  by rewrite lookup_app_r, Nat.sub_diag.
Qed.

Lemma heap_get_append_same h l msg :
  l < length h → heap_get (heap_append h l msg) l = heap_get h l ++ [msg].
Proof.
  intros Hl. unfold heap_get, heap_append.
  destruct (lookup_lt_is_Some_2 h l Hl) as [v Hv].
  by rewrite list_lookup_alter_eq, Hv.
Qed.

Lemma heap_get_append_other h l l' msg :
  l ≠ l' → heap_get (heap_append h l msg) l' = heap_get h l'.
Proof.
  intros Hne. unfold heap_get, heap_append.
  by rewrite list_lookup_alter_ne.
Qed.

Lemma length_heap_append h l msg : length (heap_append h l msg) = length h.
Proof. unfold heap_append. apply length_alter. Qed.

End Frames.

(** ** Rate limiter *)

Section LimiterClaims.

Implicit Types (env : Env) (s : State) (text : string).

(** A call that passes validation and the limiter leaves its clock
    reading in [last_request_time], whatever the endpoint answers. *)
Lemma handle_user_input_records_time env text s :
  validate_message text = true →
  (rate_limit_check env s).2 = true →
  last_request_time (handle_user_input env text s).1 = Some (now env).
Proof.
  intros Hvalid Hallowed. unfold handle_user_input. rewrite Hvalid. simpl.
  assert (rate_limit_check env s = (set_last_request_time (now env) s, true)) as ->.
  { revert Hallowed. unfold rate_limit_check.
    destruct (last_request_time s) as [t|]; [|done].
    by destruct (Qltb _ _). }
  simpl.
  match goal with
  | |- context [get_model_response env ?m ?s0] =>
      pose proof (get_model_response_frame env m s0) as Hframe;
      pose proof (save_chats_frame env (store_trimmed
        (set_disabled true (append_message (mkMessage "user" text)
          (set_last_request_time (now env) s))))) as Hsave;
      destruct (get_model_response env m s0) as [s5 response] eqn:Hresp
  end.
  simpl in Hframe, Hsave.
  destruct Hframe as (_ & _ & _ & _ & _ & Htime & _).
  destruct Hsave as (_ & _ & _ & _ & _ & Htime' & _).
  assert (last_request_time s5 = Some (now env)) as Hs5.
  { rewrite Htime, Htime'. reflexivity. }
  destruct (completion_text response) as [[assistant_response|]|e]; simpl; try done.
  destruct (PyStr.truthy assistant_response); simpl; [|done].
  match goal with
  | |- last_request_time (save_chats env ?s0) = _ =>
      pose proof (save_chats_frame env s0) as Hsave2
  end.
  simpl in Hsave2. destruct Hsave2 as (_ & _ & _ & _ & _ & -> & _).
  exact Hs5.
Qed.

(** A call less than a second after the recorded reading is suppressed. *)
Lemma handle_user_input_refused env text s t :
  last_request_time s = Some t → (now env - t < 1)%Q →
  suppressed env text s.
Proof.
  intros Hlast Hlt. unfold suppressed, handle_user_input.
  destruct (validate_message text); [|done]. simpl.
  by rewrite (rate_limit_check_refused env s t).
Qed.

(** C7, as amended.  The limiter allows the first call of a session;
    afterwards it allows a call exactly when at least one second has
    passed since the last call it allowed, and it records the clock
    reading exactly when it allows.  A [handle_user_input] call made
    less than one second after a call that passed validation and the
    limiter is suppressed: the state is handed back as it was. *)
Theorem rate_limit_check_spec env s :
  match last_request_time s with
  | None => rate_limit_check env s = (set_last_request_time (now env) s, true)
  | Some t =>
      ((rate_limit_check env s).2 = true ↔ (1 <= now env - t)%Q)
      ∧ ((rate_limit_check env s).2 = false ↔ (now env - t < 1)%Q)
  end
  ∧ (rate_limit_check env s).1 =
      (if (rate_limit_check env s).2 then set_last_request_time (now env) s else s)
  ∧ (∀ text env' text',
       validate_message text = true →
       (rate_limit_check env s).2 = true →
       (now env' - now env < 1)%Q →
       suppressed env' text' (handle_user_input env text s).1).
Proof.
  split_and!.
  - destruct (last_request_time s) as [t|] eqn:Hlast;
      [|by apply rate_limit_check_first].
    destruct (Qlt_le_dec (now env - t) 1) as [Hlt|Hge].
    + rewrite (rate_limit_check_refused env s t Hlast Hlt). simpl.
      split; split; try done. intros Hge. by apply Qlt_not_le in Hlt.
    + rewrite (rate_limit_check_allowed env s t Hlast Hge). simpl.
      split; split; try done. intros Hlt. by apply Qlt_not_le in Hlt.
  - unfold rate_limit_check.
    destruct (last_request_time s) as [t|]; [|done].
    by destruct (Qltb _ _).
  - intros text env' text' Hvalid Hallowed Hlt.
    eapply handle_user_input_refused; [|exact Hlt].
    by apply handle_user_input_records_time.
Qed.

Lemma rate_limit_check_spec_witness :
  suppressed (sample_env (1 # 2) (Response 200 "OK" sample_url (JsonBody (completion_body "late"))))
    "again"
    (handle_user_input
       (sample_env 0 (Response 200 "OK" sample_url (JsonBody (completion_body "hello")))) "hi"
       initial_state).1.
Proof.
  destruct (rate_limit_check_spec
              (sample_env 0 (Response 200 "OK" sample_url (JsonBody (completion_body "hello"))))
              initial_state) as (_ & _ & Hsecond).
  apply Hsecond; vm_compute; reflexivity.
Defined.

(** The claim as first stated fails: the interval runs from the last
    call the limiter allowed, not from the last call made.  Of three
    calls at 0 s, 0.6 s and 1.2 s the second is suppressed, and the
    third, 0.6 s after the second, posts a request and appends its
    message. *)
Lemma send_within_second_of_suppressed_send_goes_through :
  let reply := Response 200 "OK" sample_url (JsonBody (completion_body "ok")) in
  let s1 := (handle_user_input (sample_env 0 reply) "one" initial_state).1 in
  let s2 := (handle_user_input (sample_env (6 # 10) reply) "two" s1).1 in
  let s3 := (handle_user_input (sample_env (12 # 10) reply) "three" s2).1 in
  ((12 # 10) - (6 # 10) < 1)%Q
  ∧ s2 = s1
  ∧ ¬ suppressed (sample_env (12 # 10) reply) "three" s2
  ∧ length (sent s3) = S (length (sent s2))
  ∧ session_messages s3 =
      session_messages s2 ++ [mkMessage "user" "three"; mkMessage "assistant" "ok"].
Proof.
  vm_compute. split_and!; try reflexivity. intros H. discriminate H.
Qed.

End LimiterClaims.

(** ** Failed completion calls *)

Section Failures.

Implicit Types (env : Env) (s : State) (text : string) (msg : Message).

Lemma get_set_same {K V} `{EqDecision K} (d : list (K * V)) k v :
  PyDict.get (PyDict.set d k v) k = Some v.
Proof.
  induction d as [|[k' v'] d IH]; simpl.
  - by rewrite decide_True.
  - destruct (decide (k' = k)); simpl; [by rewrite decide_True|].
    by rewrite decide_False.
Qed.

Lemma handle_user_input_accepted env text s :
  validate_message text = true →
  (rate_limit_check env s).2 = true →
  handle_user_input env text s =
    let s4 := user_phase env text s in
    let '(s5, response) := get_model_response env (session_messages s4) s4 in
    match completion_text response with
    | Raise e => (s5, Raised e)
    | Ok None => (set_disabled false s5, Rerun)
    | Ok (Some assistant_response) =>
        if PyStr.truthy assistant_response then
          (set_disabled false
             (save_chats env
                (store_trimmed
                   (append_message (mkMessage "assistant" assistant_response) s5))),
           Rerun)
        else (set_disabled false s5, Rerun)
    end.
Proof.
  intros Hvalid Hallowed. unfold handle_user_input. rewrite Hvalid. simpl.
  assert (rate_limit_check env s = (set_last_request_time (now env) s, true)) as ->.
  { revert Hallowed. unfold rate_limit_check.
    destruct (last_request_time s) as [t|]; [|done].
    by destruct (Qltb _ _). }
  reflexivity.
Qed.

(** The state after the user message has been appended and stored. *)
Lemma user_phase_spec env text s :
  messages s < length (heap s) →
  let s4 := user_phase env text s in
  session_messages s4 = session_messages s ++ [mkMessage "user" text]
  ∧ chat_messages s4 (current_chat s) =
      Some (trim_message_history (session_messages s ++ [mkMessage "user" text]))
  ∧ messages s4 = messages s
  ∧ current_chat s4 = current_chat s
  ∧ (write_error env = None → disk s4 = Document (dump_chats (heap s4) (chats s4))).
Proof.
  intros Hlive s4.
  set (user := mkMessage "user" text).
  set (h1 := heap_append (heap s) (messages s) user).
  set (old := session_messages s).
  assert (heap_get h1 (messages s) = old ++ [user]) as Hh1
    by (by apply heap_get_append_same).
  assert (messages s < length h1) as Hlive1
    by (unfold h1; by rewrite length_heap_append).
  assert (heap s4 = (heap_alloc h1 (trim_message_history (heap_get h1 (messages s)))).1)
    as Hheap by (unfold s4, user_phase, save_chats; by destruct (write_error env)).
  assert (chats s4 = PyDict.set (chats s) (current_chat s) (length h1))
    as Hchats by (unfold s4, user_phase, save_chats; by destruct (write_error env)).
  assert (messages s4 = messages s)
    as Hmsgs by (unfold s4, user_phase, save_chats; by destruct (write_error env)).
  assert (current_chat s4 = current_chat s)
    as Hcur by (unfold s4, user_phase, save_chats; by destruct (write_error env)).
  split_and!; [..|done|done|].
  - unfold session_messages at 1. rewrite Hheap, Hmsgs.
    by rewrite heap_get_alloc_old.
  - unfold chat_messages. rewrite Hheap, Hchats, get_set_same. simpl. f_equal.
    rewrite <- Hh1.
    apply (heap_get_alloc_new h1 (trim_message_history (heap_get h1 (messages s)))).
  - intros Hw. rewrite Hheap, Hchats.
    unfold s4, user_phase. by rewrite save_chats_disk.
Qed.

Lemma is_error_status_spec status :
  is_error_status status = true ↔ 400 ≤ status < 600.
Proof.
  unfold is_error_status. rewrite andb_true_iff, Nat.leb_le, Nat.ltb_lt. done.
Qed.

Lemma is_error_status_false status :
  ¬ (400 ≤ status < 600) → is_error_status status = false.
Proof.
  intros Hst. apply not_true_is_false. by rewrite is_error_status_spec.
Qed.

Lemma call_endpoint_failed env :
  failed_call (server env) → ∃ e, call_endpoint env = Raise e.
Proof.
  unfold call_endpoint, http_post.
  inversion 1 as [detail Hs|detail Hs|status reason url body Hst Hs
                 |status reason url err Hs]; simpl.
  - by eexists.
  - by eexists.
  - unfold raise_for_status. simpl.
    apply is_error_status_spec in Hst. rewrite Hst. by eexists.
  - destruct (raise_for_status _); by eexists.
Qed.

(** An answer without an error status and with a JSON body is what the
    call returns. *)
Lemma call_endpoint_answer env status reason url body :
  server env = Response status reason url (JsonBody body) →
  ¬ (400 ≤ status < 600) →
  call_endpoint env = Ok body.
Proof.
  intros Hs Hst. unfold call_endpoint, http_post. rewrite Hs. simpl.
  unfold raise_for_status. simpl. by rewrite is_error_status_false.
Qed.




Lemma completion_text_blank fields first rest text :
  PyDict.get fields "choices" = Some (JArr (first :: rest)) →
  json_item first "text" = Ok (JStr text) →
  completion_text (Some (JObj fields)) = Ok (Some (PyStr.strip text)).
Proof.
  intros Hchoices Htext. unfold completion_text.
  assert (json_truthy (JObj fields) = true) as ->.
  { destruct fields; [done|reflexivity]. }
  simpl. unfold PyDict.contains. rewrite Hchoices.
  rewrite bool_decide_eq_true_2 by eauto. simpl.
  by rewrite Htext.
Qed.



(** Every answer is a failed call, holds no completion, holds a blank
    one or a good one, or has a body on which the lookup of lines 246
    and 247 raises. *)
Lemma reply_cases (reply : HttpReply) :
  failed_call reply ∨ no_completion reply ∨ blank_completion reply
  ∨ (∃ text, good_completion reply text)
  ∨ (∃ status reason url body e,
       reply = Response status reason url (JsonBody body)
       ∧ ¬ (400 ≤ status < 600)
       ∧ completion_text (Some body) = Raise e).
Proof.
  destruct reply as [detail|detail|status reason url [err|body]];
    [left; apply failed_timeout|left; apply failed_network
    |left; apply failed_not_json|].
  destruct (decide (400 ≤ status < 600)) as [Hst|Hst];
    [left; by apply failed_status|right].
  destruct (json_truthy body) eqn:Htruthy;
    [|left; constructor; [done|]; by apply passed_false].
  destruct (json_contains "choices" body) as [[|]|e] eqn:Hin; cycle 1.
  { left. constructor; [done|]. by apply passed_without_choices. }
  { do 3 right. exists status, reason, url, body, e. split_and!; [done..|].
    unfold completion_text. rewrite Htruthy. simpl. by rewrite Hin. }
  assert (∀ e, json_item body "choices" = Raise e →
               completion_text (Some body) = Raise e) as Hraise_item.
  { intros e He. unfold completion_text. rewrite Htruthy. simpl.
    rewrite Hin. simpl. by rewrite He. }
  destruct body as [|b|z|q|str|items|fields];
    try (do 3 right; eexists status, reason, url, _, _;
         split_and!; [done..|]; by apply Hraise_item).
  simpl in Hin. injection Hin as Hin.
  unfold PyDict.contains in Hin. apply bool_decide_eq_true in Hin as [choices Hget].
  assert (completion_text (Some (JObj fields)) =
            if negb (json_truthy choices) then Ok None else
            first ← json_first choices;
            text ← json_item first "text";
            assistant_response ← json_strip text;
            Ok (Some assistant_response)) as Hunfold.
  { unfold completion_text. rewrite Htruthy. simpl.
    unfold PyDict.contains. rewrite Hget.
    by rewrite bool_decide_eq_true_2 by eauto. }
  destruct (json_truthy choices) eqn:Hchoices; cbn [negb] in Hunfold;
    [|left; constructor; [done|]; by eapply passed_empty_choices].
  assert (∀ e, json_first choices = Raise e ∨
               (∃ first, json_first choices = Ok first
                         ∧ json_item first "text" = Raise e) →
               ∃ status' reason' url' body' e',
                 Response status reason url (JsonBody (JObj fields))
                 = Response status' reason' url' (JsonBody body')
                 ∧ ¬ (400 ≤ status' < 600)
                 ∧ completion_text (Some body') = Raise e') as Hraises.
  { intros e He. exists status, reason, url, (JObj fields), e.
    split_and!; [done..|]. rewrite Hunfold.
    destruct He as [->|(first & -> & He)]; [done|]. simpl. by rewrite He. }
  destruct choices as [|b|z|q|str|items|fields'];
    try (do 3 right; eapply Hraises; left; reflexivity).
  - do 3 right. simpl in Hunfold.
    destruct (PyStr.chars str) as [|c cs] eqn:Hchars.
    + eapply Hraises. left. simpl. by rewrite Hchars.
    + eapply Hraises. right. exists (JStr c). simpl. by rewrite Hchars.
  - destruct items as [|first rest]; [done|].
    destruct (json_item first "text") as [text|e] eqn:Htext; cycle 1.
    { do 3 right. eapply Hraises. right. by exists first. }
    destruct text as [|b|z|q|text|items|fields'];
      try (do 3 right; eexists status, reason, url, (JObj fields), _;
           split_and!; [done..|]; rewrite Hunfold; simpl; rewrite Htext; reflexivity).
    destruct (decide (PyStr.strip text = "")) as [Hblank|Hgood].
    + right. left. by econstructor.
    + do 2 right. left. eexists. by econstructor.
Qed.

Lemma last_n_snoc {A} (n : nat) (l : list A) (x : A) :
  n ≠ 0 → last_n n (l ++ [x]) = last_n (n - 1) l ++ [x].
Proof.
  intros Hn. unfold last_n. rewrite length_app. simpl.
  rewrite drop_app_le by lia. f_equal. f_equal. lia.
Qed.

(** A non-system message appended last is still last after trimming. *)
Lemma last_trim_snoc (l : list Message) msg :
  non_system msg → last (trim_message_history (l ++ [msg])) = Some msg.
Proof.
  intros Hns. rewrite trim_unfold, (filter_app non_system).
  rewrite (filter_cons_True non_system), filter_nil by done.
  rewrite last_n_snoc by done.
  by rewrite app_assoc, last_snoc.
Qed.



(** Bodies that are passed over: [null], [{}], an error report and an
    empty list of choices. *)
Remark passed_over_bodies :
  passed_over JNull
  ∧ passed_over (JObj [])
  ∧ passed_over (JObj [("error", JStr "overloaded")])
  ∧ passed_over (JObj [("choices", JArr [])]).
Proof.
  split_and!; [by apply passed_false|by apply passed_false
              |by apply passed_without_choices|].
  by apply (passed_empty_choices _ (JArr [])).
Qed.


(** A body that is JSON but lacks [choices[0].text] is no failure for
    the client: it returns the body, and the lookup in
    [handle_user_input] raises, past the caller, with the input still
    disabled; no assistant message is appended in that case either. *)
Remark unexpected_shape_raises_in_caller :
  let env := sample_env 0 (Response 200 "OK" sample_url (JsonBody (JObj [("choices", JArr [JObj []])]))) in
  let r := handle_user_input env "hello" initial_state in
  r.2 = Raised (KeyError "'text'")
  ∧ is_chat_input_disabled r.1 = true
  ∧ session_messages r.1 = session_messages initial_state ++ [mkMessage "user" "hello"].
Proof. vm_compute. by split_and!. Qed.

End Failures.

(** ** The leading system message *)

Section SystemLed.

Implicit Types (env : Env) (s : State) (msg : Message) (l : list Message)
  (h : list (list Message)) (d : list (option string * nat)) (k : option string).

Lemma leads_live h m : leads_with_system (heap_get h m) → m < length h.
Proof.
  unfold heap_get. intros Hl.
  destruct (h !! m) as [v|] eqn:Hm; [by eapply lookup_lt_Some|done].
Qed.

Lemma leads_snoc l msg : leads_with_system l → leads_with_system (l ++ [msg]).
Proof. by destruct l. Qed.

Lemma leads_trim l : leads_with_system l → leads_with_system (trim_message_history l).
Proof.
  destruct l as [|msg l]; [done|]. simpl. intros Hs.
  rewrite trim_unfold, filter_cons_True by done. done.
Qed.

Lemma leads_default s : leads_with_system [default_system_message s].
Proof. reflexivity. Qed.

(** What [clear_current_chat] installs begins with a system message. *)
Lemma leads_cleared s l :
  leads_with_system
    match filter is_system l with
    | [] => [default_system_message s]
    | _ :: _ => filter is_system l
    end.
Proof.
  destruct (filter is_system l) as [|msg rest] eqn:Hf; [done|].
  simpl. assert (msg ∈ filter is_system l) as Hin by (rewrite Hf; left).
  by apply list_elem_of_filter in Hin as [? _].
Qed.

Lemma Forall_set {V} (Q : V → Prop) (dd : list (option string * V)) k v :
  Forall (λ kv, Q kv.2) dd → Q v → Forall (λ kv, Q kv.2) (PyDict.set dd k v).
Proof.
  intros Hd Hv. induction Hd as [|[k' v'] dd Hk' Hdd IH]; simpl.
  - by repeat constructor.
  - destruct (decide (k' = k)); by constructor.
Qed.

Lemma Forall_del {V} (P : option string * V → Prop) (dd dd' : list (option string * V)) k :
  PyDict.del dd k = Some dd' → Forall P dd → Forall P dd'.
Proof.
  revert dd'. induction dd as [|[k' v'] dd IH]; intros dd' Hdel Hd; [done|].
  apply Forall_cons in Hd as [Hk' Hd]. simpl in Hdel.
  destruct (decide (k' = k)); [by simplify_eq|].
  destruct (PyDict.del dd k) as [r|]; simplify_eq/=.
  constructor; [done|]. by apply IH.
Qed.

Lemma Forall_get {V} (Q : V → Prop) (dd : list (option string * V)) k v :
  Forall (λ kv, Q kv.2) dd → PyDict.get dd k = Some v → Q v.
Proof.
  induction 1 as [|[k' v'] dd Hk' _ IH]; simpl; [done|].
  destruct (decide (k' = k)); [by intros [= <-]|done].
Qed.

(** Appending to the session's list object keeps every conversation. *)
Lemma system_led_append h d m msg :
  system_led h d m → system_led (heap_append h m msg) d m.
Proof.
  intros [Hd Hm].
  assert (∀ i, leads_with_system (heap_get h i) →
                leads_with_system (heap_get (heap_append h m msg) i)) as Hkeep.
  { intros i Hi. destruct (decide (m = i)) as [<-|Hne].
    - rewrite heap_get_append_same by (by apply leads_live). by apply leads_snoc.
    - by rewrite heap_get_append_other. }
  split; [|by apply Hkeep].
  eapply Forall_impl; [exact Hd|]. intros kv. apply Hkeep.
Qed.

(** Storing a new list object under a key keeps every conversation. *)
Lemma system_led_alloc h d m k v :
  system_led h d m → leads_with_system v →
  system_led (heap_alloc h v).1 (PyDict.set d k (heap_alloc h v).2) m
  ∧ system_led (heap_alloc h v).1 (PyDict.set d k (heap_alloc h v).2) (heap_alloc h v).2.
Proof.
  intros [Hd Hm] Hv.
  assert (∀ i, leads_with_system (heap_get h i) →
                leads_with_system (heap_get (heap_alloc h v).1 i)) as Hkeep.
  { intros i Hi. rewrite heap_get_alloc_old; [done|by apply leads_live]. }
  assert (leads_with_system (heap_get (heap_alloc h v).1 (heap_alloc h v).2)) as Hnew
    by (by rewrite heap_get_alloc_new).
  assert (Forall (λ kv, leads_with_system (heap_get (heap_alloc h v).1 kv.2))
            (PyDict.set d k (heap_alloc h v).2)) as Hd'.
  { apply (Forall_set (λ i, leads_with_system (heap_get (heap_alloc h v).1 i)));
      [|done].
    eapply Forall_impl; [exact Hd|]. intros kv. apply Hkeep. }
  split; (split; [exact Hd'|]); [by apply Hkeep|exact Hnew].
Qed.

Lemma store_trimmed_system_led s :
  conversations_system_led s → conversations_system_led (store_trimmed s).
Proof.
  intros Hs. unfold conversations_system_led, store_trimmed. simpl.
  apply (system_led_alloc (heap s) (chats s) (messages s) (current_chat s)); [done|].
  apply leads_trim, Hs.
Qed.

Lemma append_message_system_led msg s :
  conversations_system_led s → conversations_system_led (append_message msg s).
Proof. apply system_led_append. Qed.

Lemma save_chats_system_led env s :
  conversations_system_led s → conversations_system_led (save_chats env s).
Proof. unfold save_chats. by destruct (write_error env). Qed.

Lemma get_model_response_system_led env msgs s :
  conversations_system_led s →
  conversations_system_led (get_model_response env msgs s).1.
Proof.
  unfold conversations_system_led.
  pose proof (get_model_response_frame env msgs s) as Hf. simpl in Hf.
  destruct Hf as (-> & -> & _ & -> & _). done.
Qed.

Lemma create_new_chat_system_led env chat_name s :
  conversations_system_led s →
  conversations_system_led (create_new_chat env chat_name s).1.
Proof.
  intros Hs. unfold create_new_chat.
  destruct (negb (PyDict.contains _ _)); [|done]. simpl.
  apply save_chats_system_led. unfold conversations_system_led. simpl.
  apply (system_led_alloc (heap s) (chats s) (messages s)); [done|reflexivity].
Qed.

Lemma switch_chat_system_led chat_name s :
  conversations_system_led s →
  conversations_system_led (switch_chat chat_name s).1.
Proof.
  intros [Hd Hm]. unfold switch_chat.
  destruct (PyDict.get (chats s) chat_name) as [l|] eqn:Hget; [|done].
  split; [done|]. simpl.
  by apply (Forall_get (λ i, leads_with_system (heap_get (heap s) i)) _ _ _ Hd Hget).
Qed.

Lemma delete_chat_system_led env chat_name s :
  conversations_system_led s →
  conversations_system_led (delete_chat env chat_name s).1.
Proof.
  intros [Hd Hm]. unfold delete_chat.
  destruct (_ && _); [|done].
  destruct (PyDict.del (chats s) chat_name) as [d'|] eqn:Hdel; [|done].
  pose proof (Forall_del _ _ _ _ Hdel Hd) as Hd'.
  destruct (bool_decide _); simpl; [|by apply save_chats_system_led].
  destruct (PyDict.get d' (Some "Default")) as [l|] eqn:Hget; simpl; [|done].
  apply save_chats_system_led. split; [done|]. simpl.
  by apply (Forall_get (λ i, leads_with_system (heap_get (heap s) i)) _ _ _ Hd' Hget).
Qed.

Lemma clear_current_chat_system_led env s :
  conversations_system_led s →
  conversations_system_led (clear_current_chat env s).1.
Proof.
  intros Hs. unfold clear_current_chat.
  destruct (session_messages s) as [|msg rest] eqn:Hsession; [done|].
  simpl. apply save_chats_system_led. unfold conversations_system_led. simpl.
  eapply (system_led_alloc (heap s) (chats s) (messages s)); [done|].
  apply (leads_cleared s (msg :: rest)).
Qed.

Lemma handle_user_input_system_led env text s :
  conversations_system_led s →
  conversations_system_led (handle_user_input env text s).1.
Proof.
  intros Hs. unfold handle_user_input.
  destruct (validate_message text); [|done]. simpl.
  assert (conversations_system_led (rate_limit_check env s).1) as Hs1.
  { unfold rate_limit_check.
    destruct (last_request_time s) as [t|]; [|done]. by destruct (Qltb _ _). }
  destruct (rate_limit_check env s) as [s1 allowed]. simpl in Hs1.
  destruct allowed; [|done]. simpl.
  match goal with
  | |- context [get_model_response env ?m ?s0] =>
      assert (conversations_system_led s0) as Hs4;
      [|pose proof (get_model_response_system_led env m s0 Hs4) as Hs5;
        destruct (get_model_response env m s0) as [s5 response]]
  end.
  { apply save_chats_system_led, store_trimmed_system_led.
    by apply (append_message_system_led _ s1). }
  simpl in Hs5.
  destruct (completion_text response) as [[assistant_response|]|e]; simpl; try done.
  destruct (PyStr.truthy assistant_response); simpl; [|done].
  apply (save_chats_system_led env), store_trimmed_system_led.
  by apply append_message_system_led.
Qed.

End SystemLed.

Section SystemLedClaims.

Implicit Types (env : Env) (s : State) (op : Op).

Lemma run_system_led env op s :
  is_import op = false →
  conversations_system_led s →
  ∃ s' ctl, run env op s = Some (s', ctl) ∧ conversations_system_led s'.
Proof.
  intros Hop Hs. destruct op as [name|name|name| |text|up]; [..|done]; simpl.
  - destruct (create_new_chat env name s) as [s' ctl] eqn:Hrun.
    exists s', ctl. split; [done|].
    change s' with (s', ctl).1. rewrite <- Hrun. by apply create_new_chat_system_led.
  - destruct (switch_chat name s) as [s' ctl] eqn:Hrun.
    exists s', ctl. split; [done|].
    change s' with (s', ctl).1. rewrite <- Hrun. by apply switch_chat_system_led.
  - destruct (delete_chat env name s) as [s' ctl] eqn:Hrun.
    exists s', ctl. split; [done|].
    change s' with (s', ctl).1. rewrite <- Hrun. by apply delete_chat_system_led.
  - destruct (clear_current_chat env s) as [s' ctl] eqn:Hrun.
    exists s', ctl. split; [done|].
    change s' with (s', ctl).1. rewrite <- Hrun. by apply clear_current_chat_system_led.
  - destruct (handle_user_input env text s) as [s' ctl] eqn:Hrun.
    exists s', ctl. split; [done|].
    change s' with (s', ctl).1. rewrite <- Hrun. by apply handle_user_input_system_led.
Qed.

Lemma system_led_has_system s :
  conversations_system_led s → no_conversation_without_system s.
Proof.
  intros [Hd _]. unfold no_conversation_without_system.
  eapply Forall_impl; [exact Hd|]. intros [k i]. simpl.
  destruct (heap_get (heap s) i) as [|msg rest]; [done|]. simpl. intros Hm.
  by rewrite filter_cons_True.
Qed.

(** Creating, switching, deleting, clearing and sending keep a system
    message in front: if every stored conversation and the session's
    message list begin with a system message, they still do after any
    sequence of these operations, so none of them yields a stored
    conversation without a system message. *)
Lemma system_led_without_import (steps : list (Env * Op)) s :
  Forall (λ step, is_import step.2 = false) steps →
  conversations_system_led s →
  ∃ s', run_all steps s = Some s'
        ∧ conversations_system_led s'
        ∧ no_conversation_without_system s'.
Proof.
  intros Hsteps. revert s.
  induction Hsteps as [|[env op] steps Hop _ IH]; intros s Hs.
  - exists s. split_and!; [done..|]. by apply system_led_has_system.
  - simpl in Hop. destruct (run_system_led env op s Hop Hs) as (s1 & ctl & Hrun & Hs1).
    destruct (IH s1 Hs1) as (s' & Hrest & Hs').
    exists s'. split; [|done]. simpl. by rewrite Hrun.
Qed.

Lemma init_session_state_missing : init_session_state Missing = Some initial_state.
Proof. reflexivity. Qed.

Lemma initial_state_system_led : conversations_system_led initial_state.
Proof. split; [by repeat constructor|reflexivity]. Qed.

Example system_led_session :
  let env := sample_env 0 (Response 200 "OK" sample_url (JsonBody (completion_body "hello"))) in
  let steps :=
    [(env, CreateChat (Some "My Chat!")); (env, SendMessage "hi");
     (env, ClearChat); (env, SwitchChat (Some "Default"));
     (env, DeleteChat (Some "My Chat"))] in
  ∃ s', run_all steps initial_state = Some s'
        ∧ conversations_system_led s'
        ∧ no_conversation_without_system s'.
Proof.
  intros env steps.
  apply (system_led_without_import steps initial_state).
  - unfold steps. by repeat constructor.
  - exact initial_state_system_led.
Qed.


End SystemLedClaims.

(** ** Creating a chat *)

Section Create.

Implicit Types (env : Env) (s : State) (name : string).

Lemma resolve_chat_name_given env s name :
  name ≠ "" →
  resolve_chat_name env s (Some name) =
    Some (if PyStr.truthy (sanitize name) then sanitize name
          else generate_chat_name env s).
Proof.
  intros Hne. unfold resolve_chat_name. fold (sanitize name).
  destruct name; [done|]. simpl PyStr.truthy at 1. cbv iota.
  by destruct (PyStr.truthy (sanitize _)).
Qed.

Lemma create_new_chat_existing env chat_name s :
  PyDict.contains (chats s) (resolve_chat_name env s chat_name) = true →
  create_new_chat env chat_name s = (s, Returned).
Proof. unfold create_new_chat. by intros ->. Qed.

Lemma create_new_chat_fresh env chat_name s :
  PyDict.contains (chats s) (resolve_chat_name env s chat_name) = false →
  let key := resolve_chat_name env s chat_name in
  let s' := (create_new_chat env chat_name s).1 in
  (create_new_chat env chat_name s).2 = Rerun
  ∧ current_chat s' = key
  ∧ chat_messages s' key = Some [default_system_message s]
  ∧ session_messages s' = [default_system_message s].
Proof.
  intros Hfresh key s'. unfold s', create_new_chat. cbv zeta.
  rewrite Hfresh. fold key. simpl.
  pose proof (save_chats_frame env
    (set_messages (length (heap s))
       (set_current_chat key
          (set_chats (PyDict.set (chats s) key (length (heap s)))
             (set_heap (heap s ++ [[default_system_message s]]) s))))) as Hf.
  simpl in Hf. destruct Hf as (Hheap & Hchats & Hcur & Hmsgs & _).
  unfold chat_messages, session_messages. rewrite Hheap, Hchats, Hcur, Hmsgs.
  rewrite get_set_same. simpl.
  pose proof (heap_get_alloc_new (heap s) [default_system_message s]) as Hnew.
  simpl in Hnew. by rewrite Hnew.
Qed.

(** The scenario of the specification: the given name is sanitized. *)
Example create_my_chat :
  let env := sample_env 0 no_reply in
  let s' := (create_new_chat env (Some "My Chat!") initial_state).1 in
  PyDict.keys (chats s') = [Some "Default"; Some "My Chat"]
  ∧ chat_messages s' (Some "My Chat")
    = Some [mkMessage "system" (AppConfig.DEFAULT_SYSTEM_MESSAGE en)]
  ∧ current_chat s' = Some "My Chat".
Proof. vm_compute. by split_and!. Qed.

(** A name with no character to keep is replaced by a generated one. *)
Example create_unusable_name :
  let env := sample_env 0 no_reply in
  current_chat (create_new_chat env (Some "!!!") initial_state).1
  = Some "Chat 2 (01.01.2025 10:00)".
Proof. vm_compute. reflexivity. Qed.

(** C4, at the input on which the code departs from the claim.  With the
    name omitted no name is generated: the chat is filed under the key
    [None], and a second call finds that key and does nothing. *)
Theorem create_new_chat_omitted_name env :
  let r := create_new_chat env None initial_state in
  (∀ s, resolve_chat_name env s None = None)
  ∧ r.2 = Rerun
  ∧ current_chat r.1 = None
  ∧ PyDict.keys (chats r.1) = [Some "Default"; None]
  ∧ current_chat r.1 ≠ Some (generate_chat_name env initial_state)
  ∧ create_new_chat env None r.1 = (r.1, Returned).
Proof.
  intros r. split_and!; try done.
  - unfold r, create_new_chat, save_chats. simpl.
    by destruct (write_error env).
  - unfold r, create_new_chat, save_chats. simpl.
    by destruct (write_error env).
  - unfold r, create_new_chat, save_chats. simpl.
    by destruct (write_error env).
  - apply create_new_chat_existing.
    unfold r, create_new_chat, save_chats. simpl.
    by destruct (write_error env).
Qed.

End Create.

(** ** The session's list and the stored conversation *)

Section Aliasing.

(** After a message is sent, the stored conversation of the current chat
    is a list object of its own: [messages] keeps the full history while
    the store holds the trimmed copy. *)
Remark send_detaches_stored_conversation :
  let env := sample_env 0 (Response 200 "OK" sample_url (JsonBody (completion_body "hello"))) in
  let s' := (handle_user_input env "hi" initial_state).1 in
  PyDict.get (chats initial_state) (Some "Default") = Some (messages initial_state)
  ∧ PyDict.get (chats s') (Some "Default") ≠ Some (messages s')
  ∧ chat_messages s' (Some "Default") = Some (trim_message_history (session_messages s')).
Proof. vm_compute. by split_and!. Qed.

End Aliasing.

(** * Further properties of the code *)

(** ** More on the history trimmer *)

Section TrimMore.

Implicit Types (m a b : list Message) (msg : Message).

Lemma last_n_app_last_n {A} (n : nat) (l1 l2 : list A) :
  last_n n (last_n n l1 ++ l2) = last_n n (l1 ++ l2).
Proof.
  unfold last_n. rewrite !drop_app, drop_drop, !length_app, !length_drop.
  f_equal; f_equal; lia.
Qed.

(** X1.  Trimming commutes with appending: trimming a list that was
    trimmed before more messages were added gives the same as trimming
    the whole history at once. *)
Theorem trim_app_trim a b :
  trim_message_history (trim_message_history a ++ b) = trim_message_history (a ++ b).
Proof.
  rewrite (trim_unfold (trim_message_history a ++ b)), (trim_unfold (a ++ b)).
  rewrite !(filter_app is_system), !(filter_app non_system).
  rewrite trim_system_part, trim_other_part.
  by rewrite last_n_app_last_n.
Qed.

Lemma filter_non_system_complement m :
  filter non_system m = filter (λ msg, ¬ is_system msg) m.
Proof. by apply list_filter_iff. Qed.

(** X2.  Trimming only drops messages: every message of the result
    occurs in the input, as often at most as it occurs there, so the
    result is never longer than the input. *)
Theorem trim_submseteq m :
  trim_message_history m ⊆+ m
  ∧ length (trim_message_history m) ≤ length m.
Proof.
  assert (trim_message_history m ⊆+ m) as Hsub.
  { rewrite trim_unfold.
    pose proof (filter_app_complement is_system m) as Hperm.
    rewrite <- filter_non_system_complement in Hperm.
    trans (filter is_system m ++ filter non_system m); [|by rewrite Hperm].
    apply submseteq_app; [done|].
    apply sublist_submseteq, sublist_drop. }
  split; [done|]. by apply submseteq_length.
Qed.

(** X3.  A list that already has its system messages first and at most
    [MAX_HISTORY_LENGTH] other messages after them is left as it is. *)
Theorem trim_fixed_point (system others : list Message) :
  Forall is_system system →
  Forall non_system others →
  length others ≤ AppConfig.MAX_HISTORY_LENGTH →
  trim_message_history (system ++ others) = system ++ others.
Proof.
  intros Hsys Hoth Hlen.
  rewrite trim_unfold, !(filter_app is_system), !(filter_app non_system).
  rewrite (filter_all is_system system Hsys), (filter_all non_system others Hoth).
  rewrite (filter_none is_system others), (filter_none non_system system).
  - rewrite app_nil_r. simpl. unfold last_n.
    by replace (length others - AppConfig.MAX_HISTORY_LENGTH) with 0 by lia.
  - eapply Forall_impl; [exact Hsys|]. intros msg Hs Hn. by apply Hn.
  - eapply Forall_impl; [exact Hoth|]. intros msg Hn Hs. by apply Hn.
Qed.

Lemma trim_fixed_point_witness :
  trim_message_history
    ([mkMessage "system" "S"] ++ [mkMessage "user" "a"; mkMessage "assistant" "b"])
  = [mkMessage "system" "S"] ++ [mkMessage "user" "a"; mkMessage "assistant" "b"].
Proof.
  apply trim_fixed_point.
  - by repeat constructor.
  - by repeat constructor.
  - simpl. unfold AppConfig.MAX_HISTORY_LENGTH. lia.
Defined.

(** A system message that comes late is moved to the front. *)
Example trim_moves_system_first :
  trim_message_history [mkMessage "user" "a"; mkMessage "system" "S"]
  = [mkMessage "system" "S"; mkMessage "user" "a"].
Proof. reflexivity. Qed.

End TrimMore.

(** ** Facts about dictionaries and the heap *)

Section DictFacts.

Context {K V : Type} `{EqDecision K}.
Implicit Types (d : list (K * V)) (k : K) (v : V).

Lemma get_set_other d k k' v :
  k ≠ k' → PyDict.get (PyDict.set d k v) k' = PyDict.get d k'.
Proof.
  intros Hne. induction d as [|[k0 v0] d IH]; simpl.
  - by rewrite decide_False.
  - destruct (decide (k0 = k)) as [->|Hk0]; simpl.
    + by rewrite !decide_False.
    + by rewrite IH.
Qed.

Lemma get_Some_elem d k v : PyDict.get d k = Some v → (k, v) ∈ d.
Proof.
  induction d as [|[k0 v0] d IH]; simpl; [done|].
  destruct (decide (k0 = k)) as [->|]; [intros [= ->]; left|right; auto].
Qed.

Lemma get_Some_key d k v : PyDict.get d k = Some v → k ∈ PyDict.keys d.
Proof.
  intros Hg%get_Some_elem. unfold PyDict.keys.
  apply list_elem_of_fmap. by exists (k, v).
Qed.

Lemma get_Some_value d k v : PyDict.get d k = Some v → v ∈ snd <$> d.
Proof.
  intros Hg%get_Some_elem. apply list_elem_of_fmap. by exists (k, v).
Qed.

Lemma key_get_Some d k : k ∈ PyDict.keys d → is_Some (PyDict.get d k).
Proof.
  unfold PyDict.keys. induction d as [|[k0 v0] d IH]; simpl.
  - by intros ?%elem_of_nil.
  - intros Hin. destruct (decide (k0 = k)); [by eexists|].
    apply elem_of_cons in Hin as [->|Hin]; [done|by apply IH].
Qed.

Lemma get_None_key d k : PyDict.get d k = None ↔ k ∉ PyDict.keys d.
Proof.
  split.
  - intros Hg Hin. apply key_get_Some in Hin as [v Hv]. congruence.
  - intros Hn. destruct (PyDict.get d k) as [v|] eqn:Hg; [|done].
    by apply get_Some_key in Hg.
Qed.

Lemma contains_key d k : PyDict.contains d k = true ↔ k ∈ PyDict.keys d.
Proof.
  unfold PyDict.contains. rewrite bool_decide_eq_true. split.
  - intros [v Hv]. by eapply get_Some_key.
  - apply key_get_Some.
Qed.

Lemma contains_false_key d k : PyDict.contains d k = false ↔ k ∉ PyDict.keys d.
Proof. rewrite <- contains_key. by destruct (PyDict.contains d k). Qed.

(** Assigning to a key that is there keeps the keys; a new key goes last. *)
Lemma keys_set d k v :
  PyDict.keys (PyDict.set d k v)
  = if PyDict.contains d k then PyDict.keys d else PyDict.keys d ++ [k].
Proof.
  unfold PyDict.keys, PyDict.contains. induction d as [|[k0 v0] d IH]; [done|].
  simpl. destruct (decide (k0 = k)) as [->|Hne]; simpl; [done|].
  change (k0 :: (PyDict.set d k v).*1 =
          if bool_decide (is_Some (PyDict.get d k)) then k0 :: d.*1
          else k0 :: d.*1 ++ [k]).
  rewrite IH. by destruct (bool_decide _).
Qed.

Lemma NoDup_keys_set d k v :
  NoDup (PyDict.keys d) → NoDup (PyDict.keys (PyDict.set d k v)).
Proof.
  intros Hnd. rewrite keys_set.
  destruct (PyDict.contains d k) eqn:Hc; [done|].
  apply contains_false_key in Hc.
  apply NoDup_app. split_and!; [done| |apply NoDup_singleton].
  intros x Hx ->%list_elem_of_singleton. done.
Qed.

Lemma key_set_old d k k' v :
  k' ∈ PyDict.keys d → k' ∈ PyDict.keys (PyDict.set d k v).
Proof.
  intros Hin. rewrite keys_set. destruct (PyDict.contains d k); [done|].
  apply elem_of_app. by left.
Qed.


Lemma length_set d k v :
  length (PyDict.set d k v) = if PyDict.contains d k then length d else S (length d).
Proof.
  rewrite <- !(length_fmap fst). fold (PyDict.keys (PyDict.set d k v)) (PyDict.keys d).
  rewrite keys_set. destruct (PyDict.contains d k); [done|].
  rewrite length_app. simpl. lia.
Qed.

(** The values after an assignment: the new one and some of the old. *)
Lemma values_set d k v x :
  x ∈ snd <$> PyDict.set d k v → x = v ∨ x ∈ snd <$> d.
Proof.
  induction d as [|[k0 v0] d IH]; simpl.
  - intros ->%list_elem_of_singleton. by left.
  - destruct (decide (k0 = k)); simpl.
    + intros [->|Hx]%elem_of_cons; [by left|right; by right].
    + intros [->|Hx]%elem_of_cons; [right; by left|].
      destruct (IH Hx) as [->|?]; [by left|right; by right].
Qed.

Lemma NoDup_values_set d k v :
  NoDup (snd <$> d) → v ∉ snd <$> d → NoDup (snd <$> PyDict.set d k v).
Proof.
  induction d as [|[k0 v0] d IH]; simpl; intros Hnd Hv.
  - apply NoDup_singleton.
  - apply NoDup_cons in Hnd as [Hv0 Hnd].
    apply not_elem_of_cons in Hv as [Hne Hv].
    destruct (decide (k0 = k)); simpl; apply NoDup_cons.
    + done.
    + split; [|by apply IH].
      intros [->|Hx]%values_set; done.
Qed.

(** The value of another key after an assignment of a new value. *)
Lemma value_set_other d k k' v v' :
  NoDup (PyDict.keys d) → NoDup (snd <$> d) → v ∉ snd <$> d →
  PyDict.get (PyDict.set d k v) k' = Some v' → v' = v → k' = k.
Proof.
  intros _ _ Hv Hget ->. destruct (decide (k = k')) as [->|Hne]; [done|].
  rewrite get_set_other in Hget by done. by apply get_Some_value in Hget.
Qed.


Lemma del_is_Some d k : k ∈ PyDict.keys d → is_Some (PyDict.del d k).
Proof.
  unfold PyDict.keys. induction d as [|[k0 v0] d IH]; simpl.
  - by intros ?%elem_of_nil.
  - intros Hin. destruct (decide (k0 = k)); [by eexists|].
    apply elem_of_cons in Hin as [->|Hin]; [done|].
    destruct (IH Hin) as [r ->]. by eexists.
Qed.

Lemma get_del_other d d' k k' :
  PyDict.del d k = Some d' → k ≠ k' → PyDict.get d' k' = PyDict.get d k'.
Proof.
  revert d'. induction d as [|[k0 v0] d IH]; simpl; intros d' Hdel Hne; [done|].
  destruct (decide (k0 = k)) as [->|Hk0].
  - simplify_eq. by rewrite decide_False.
  - destruct (PyDict.del d k) as [r|]; simplify_eq/=.
    destruct (decide (k0 = k')); [done|]. by apply IH.
Qed.

Lemma get_del_same d d' k :
  NoDup (PyDict.keys d) → PyDict.del d k = Some d' → PyDict.get d' k = None.
Proof.
  unfold PyDict.keys.
  revert d'. induction d as [|[k0 v0] d IH]; simpl; intros d' Hnd Hdel; [done|].
  apply NoDup_cons in Hnd as [Hk0 Hnd].
  destruct (decide (k0 = k)) as [->|Hne].
  - simplify_eq. by apply get_None_key.
  - destruct (PyDict.del d k) as [r|]; simplify_eq/=.
    rewrite decide_False by done. by apply IH.
Qed.

Lemma length_del d d' k : PyDict.del d k = Some d' → S (length d') = length d.
Proof.
  revert d'. induction d as [|[k0 v0] d IH]; simpl; intros d' Hdel; [done|].
  destruct (decide (k0 = k)); [by simplify_eq|].
  destruct (PyDict.del d k) as [r|]; simplify_eq/=. f_equal. by apply IH.
Qed.

End DictFacts.

(** ** The discipline of references *)

Section Discipline.

Implicit Types (env : Env) (s : State) (msg : Message) (k : option string)
  (d : list (option string * nat)) (h : list (list Message)).

Lemma session_wf_refs s :
  session_wf s → refs_wf (heap s) (chats s) (current_chat s) (messages s).
Proof.
  intros (H1 & H2 & H3 & H4 & H5 & l & Hl & Hsync).
  split_and!; try done. exists l. split; [done|].
  destruct Hsync as [?|[? _]]; auto.
Qed.

Lemma session_wf_frame s s' :
  heap s' = heap s → chats s' = chats s →
  current_chat s' = current_chat s → messages s' = messages s →
  session_wf s → session_wf s'.
Proof.
  intros Hh Hc Hcur Hm. unfold session_wf, session_messages.
  by rewrite Hh, Hc, Hcur, Hm.
Qed.

Lemma save_chats_wf env s : session_wf s → session_wf (save_chats env s).
Proof. unfold save_chats. by destruct (write_error env). Qed.

Lemma get_model_response_wf env msgs s :
  session_wf s → session_wf (get_model_response env msgs s).1.
Proof.
  pose proof (get_model_response_frame env msgs s) as Hf. cbv zeta in Hf.
  destruct Hf as (Hh & Hc & Hcur & Hm & _). by apply session_wf_frame.
Qed.

Lemma values_valid_fresh h d :
  Forall (λ kv, kv.2 < length h) d → ¬ (length h ∈ snd <$> d).
Proof.
  intros Hd [[k l] [Hl Hin]]%list_elem_of_fmap. simpl in Hl. subst l.
  rewrite Forall_forall in Hd. specialize (Hd _ Hin). simpl in Hd. lia.
Qed.

Lemma Forall_valid_set h d k v :
  Forall (λ kv, kv.2 < length h) d →
  Forall (λ kv, kv.2 < length (h ++ [v])) (PyDict.set d k (length h)).
Proof.
  intros Hd.
  apply (Forall_set (λ i, i < length (h ++ [v]))).
  - eapply Forall_impl; [exact Hd|]. intros kv. simpl. rewrite length_app. simpl. lia.
  - rewrite length_app. simpl. lia.
Qed.

(** A new list installed under a key and made the session's list. *)
Lemma install_wf s k v :
  session_wf s →
  session_wf
    (set_messages (length (heap s))
       (set_current_chat k
          (set_chats (PyDict.set (chats s) k (length (heap s)))
             (set_heap (heap s ++ [v]) s)))).
Proof.
  intros (H1 & H2 & H3 & H4 & H5 & _). unfold session_wf. simpl.
  split_and!.
  - by apply NoDup_keys_set.
  - apply NoDup_values_set; [done|]. by apply values_valid_fresh.
  - by apply Forall_valid_set.
  - rewrite length_app. simpl. lia.
  - by apply key_set_old.
  - exists (length (heap s)). split; [apply get_set_same|by left].
Qed.

(** After an assignment to a key, the value it had is referred to no
    more. *)
Lemma values_set_replaced d k v v0 x :
  NoDup (PyDict.keys d) → NoDup (snd <$> d) →
  PyDict.get d k = Some v0 →
  x ∈ snd <$> PyDict.set d k v → x = v ∨ (x ∈ snd <$> d ∧ x ≠ v0).
Proof.
  unfold PyDict.keys.
  induction d as [|[k0 w] d IH]; simpl; intros Hk Hv Hget; [done|].
  apply NoDup_cons in Hk as [Hk0 Hk]. apply NoDup_cons in Hv as [Hw Hv].
  destruct (decide (k0 = k)) as [->|Hne]; simpl.
  - simplify_eq. intros [->|Hx]%elem_of_cons; [by left|].
    right. split; [by right|]. by intros ->.
  - intros [->|Hx]%elem_of_cons.
    + right. split; [by left|]. intros ->. apply Hw. by eapply get_Some_value.
    + destruct (IH Hk Hv Hget Hx) as [->|[? ?]]; [by left|].
      right. split; [by right|done].
Qed.

(** The trimmed form of the session's list stored for the current chat. *)
Lemma store_trimmed_wf s :
  refs_wf (heap s) (chats s) (current_chat s) (messages s) →
  session_wf (store_trimmed s).
Proof.
  intros (H1 & H2 & H3 & H4 & H5 & l & Hl & Hsync).
  unfold session_wf, store_trimmed, session_messages. simpl.
  split_and!.
  - by apply NoDup_keys_set.
  - apply NoDup_values_set; [done|]. by apply values_valid_fresh.
  - by apply Forall_valid_set.
  - rewrite length_app. simpl. lia.
  - by apply key_set_old.
  - exists (length (heap s)). split; [apply get_set_same|]. right. split.
    + intros Hin.
      destruct (values_set_replaced _ _ _ _ _ H1 H2 Hl Hin) as [Heq|[Hin' Hne]];
        [lia|]. destruct Hsync as [->|Hnot]; done.
    + pose proof (heap_get_alloc_new (heap s)
        (trim_message_history (heap_get (heap s) (messages s)))) as Hnew.
      pose proof (heap_get_alloc_old (heap s)
        (trim_message_history (heap_get (heap s) (messages s))) (messages s) H4) as Hold.
      simpl in Hnew, Hold. by rewrite Hnew, Hold.
Qed.

Lemma append_message_refs msg s :
  refs_wf (heap s) (chats s) (current_chat s) (messages s) →
  refs_wf (heap (append_message msg s)) (chats (append_message msg s))
    (current_chat (append_message msg s)) (messages (append_message msg s)).
Proof.
  unfold refs_wf. simpl. by rewrite length_heap_append.
Qed.

Lemma send_step_wf env msg s :
  session_wf s →
  session_wf (save_chats env (store_trimmed (append_message msg s))).
Proof.
  intros Hwf. apply save_chats_wf.
  by apply store_trimmed_wf, append_message_refs, session_wf_refs.
Qed.

Lemma handle_user_input_wf env text s :
  session_wf s → session_wf (handle_user_input env text s).1.
Proof.
  intros Hwf. unfold handle_user_input.
  destruct (validate_message text); [|done]. simpl.
  assert (session_wf (rate_limit_check env s).1) as Hs1.
  { unfold rate_limit_check.
    destruct (last_request_time s) as [t|]; [|done]. by destruct (Qltb _ _). }
  destruct (rate_limit_check env s) as [s1 allowed]. simpl in Hs1.
  destruct allowed; [|done]. simpl.
  assert (session_wf (save_chats env (store_trimmed (set_disabled true
            (append_message (mkMessage "user" text) s1))))) as Hs4.
  { apply save_chats_wf, store_trimmed_wf.
    exact (append_message_refs _ s1 (session_wf_refs _ Hs1)). }
  match goal with
  | |- context [get_model_response env ?m ?s0] =>
      pose proof (get_model_response_wf env m s0 Hs4) as Hs5;
      destruct (get_model_response env m s0) as [s5 response]
  end.
  simpl in Hs5.
  destruct (completion_text response) as [[assistant_response|]|e]; simpl; try done.
  destruct (PyStr.truthy assistant_response); simpl; [|done].
  by apply (send_step_wf env (mkMessage "assistant" assistant_response) s5).
Qed.

Lemma create_new_chat_wf env chat_name s :
  session_wf s → session_wf (create_new_chat env chat_name s).1.
Proof.
  intros Hwf. unfold create_new_chat.
  destruct (negb (PyDict.contains _ _)); [|done]. simpl.
  apply save_chats_wf.
  by apply (install_wf s).
Qed.




(** What [delete_chat] does to a well-formed session when the chat
    exists and is not ["Default"]. *)
Lemma delete_chat_unfold env chat_name s :
  session_wf s →
  chat_name ∈ PyDict.keys (chats s) → chat_name ≠ Some "Default" →
  ∃ d' l,
    PyDict.del (chats s) chat_name = Some d'
    ∧ PyDict.get d' (Some "Default") = Some l
    ∧ delete_chat env chat_name s =
        (save_chats env
           (if bool_decide (current_chat s = chat_name)
            then set_messages l (set_current_chat (Some "Default") (set_chats d' s))
            else set_chats d' s),
         Rerun).
Proof.
  intros (H1 & H2 & H3 & H4 & H5 & _) Hin Hne.
  destruct (del_is_Some _ _ Hin) as [d' Hdel].
  destruct (key_get_Some _ _ H5) as [l Hl].
  assert (PyDict.get d' (Some "Default") = Some l) as Hl'
    by (by rewrite (get_del_other _ _ _ _ Hdel)).
  exists d', l. split_and!; [done..|].
  unfold delete_chat.
  rewrite (proj2 (contains_key _ _) Hin), bool_decide_eq_false_2 by done.
  simpl. rewrite Hdel. simpl.
  destruct (bool_decide (current_chat s = chat_name)); simpl; [|done].
  by rewrite Hl'.
Qed.



Lemma initial_state_wf : session_wf initial_state.
Proof.
  unfold session_wf, initial_state. simpl. split_and!.
  - apply NoDup_singleton.
  - apply NoDup_singleton.
  - repeat constructor.
  - lia.
  - by left.
  - exists 1. split; [reflexivity|by left].
Qed.



End Discipline.

(** ** Deleting and clearing *)

Section DeleteClear.

Implicit Types (env : Env) (s : State) (k : option string).

Lemma chat_messages_frame s s' k :
  heap s' = heap s → chats s' = chats s → chat_messages s' k = chat_messages s k.
Proof. unfold chat_messages. by intros -> ->. Qed.

Lemma chat_messages_save env s k :
  chat_messages (save_chats env s) k = chat_messages s k.
Proof. unfold save_chats. by destruct (write_error env). Qed.

Lemma session_messages_save env s :
  session_messages (save_chats env s) = session_messages s.
Proof. unfold save_chats. by destruct (write_error env). Qed.

(** X5.  In a well-formed session [delete_chat] does nothing for
    ["Default"] and for a name that is no chat; otherwise it never
    raises, removes exactly that chat and leaves every other
    conversation as it was, and when the removed chat was the current
    one the session moves to ["Default"] and shows its conversation. *)
Theorem delete_chat_spec env chat_name s :
  session_wf s →
  let s' := (delete_chat env chat_name s).1 in
  (chat_name = Some "Default" ∨ chat_name ∉ PyDict.keys (chats s) →
     delete_chat env chat_name s = (s, Returned))
  ∧ (chat_name ≠ Some "Default" → chat_name ∈ PyDict.keys (chats s) →
     (delete_chat env chat_name s).2 = Rerun
     ∧ chat_messages s' chat_name = None
     ∧ (∀ k, k ≠ chat_name → chat_messages s' k = chat_messages s k)
     ∧ S (length (chats s')) = length (chats s)
     ∧ current_chat s' =
         (if bool_decide (current_chat s = chat_name) then Some "Default"
          else current_chat s)
     ∧ (current_chat s = chat_name →
        PyDict.get (chats s') (Some "Default") = Some (messages s')
        ∧ Some (session_messages s') = chat_messages s (Some "Default"))
     ∧ (current_chat s ≠ chat_name → session_messages s' = session_messages s)).
Proof.
  intros Hwf s'. split.
  - intros Hno. unfold delete_chat.
    destruct (PyDict.contains (chats s) chat_name) eqn:Hc; simpl; [|done].
    apply contains_key in Hc.
    destruct Hno as [->|Hno]; [|done].
    by rewrite bool_decide_eq_true_2.
  - intros Hne Hin.
    destruct (delete_chat_unfold env chat_name s Hwf Hin Hne)
      as (d' & l & Hdel & Hl & Hrun).
    unfold s'. rewrite Hrun. simpl.
    destruct Hwf as (H1 & H2 & H3 & H4 & H5 & _).
    assert (PyDict.get (chats s) (Some "Default") = Some l) as Hl0
      by (by rewrite <- (get_del_other _ _ _ _ Hdel)).
    assert (∀ st, heap st = heap s → chats st = d' →
              chat_messages (save_chats env st) chat_name = None
              ∧ (∀ k, k ≠ chat_name →
                   chat_messages (save_chats env st) k = chat_messages s k)
              ∧ S (length (chats (save_chats env st))) = length (chats s)) as Hstore.
    { intros st Hh Hc. rewrite ?chat_messages_save. split_and!.
      - unfold chat_messages. rewrite Hc. by rewrite (get_del_same _ _ _ H1 Hdel).
      - intros k Hk. rewrite chat_messages_save. unfold chat_messages.
        rewrite Hh, Hc. by rewrite (get_del_other _ _ _ _ Hdel).
      - destruct (save_chats_frame env st) as (_ & -> & _). rewrite Hc.
        exact (length_del _ _ _ Hdel). }
    destruct (bool_decide (current_chat s = chat_name)) eqn:Hcur.
    + apply bool_decide_eq_true in Hcur.
      destruct (Hstore (set_messages l (set_current_chat (Some "Default")
                  (set_chats d' s))) eq_refl eq_refl) as (Hgone & Hkeep & Hlen).
      split_and!; try done.
      * by destruct (save_chats_frame env (set_messages l
          (set_current_chat (Some "Default") (set_chats d' s)))) as (_ & _ & -> & _).
      * intros _. rewrite session_messages_save.
        destruct (save_chats_frame env (set_messages l
          (set_current_chat (Some "Default") (set_chats d' s))))
          as (_ & -> & _ & -> & _).
        simpl. split; [done|].
        unfold session_messages, chat_messages. simpl. by rewrite Hl0.
    + apply bool_decide_eq_false in Hcur.
      destruct (Hstore (set_chats d' s) eq_refl eq_refl) as (Hgone & Hkeep & Hlen).
      split_and!; try done.
      * by destruct (save_chats_frame env (set_chats d' s)) as (_ & _ & -> & _).
      * intros _. by rewrite session_messages_save.
Qed.

Lemma busy_state_wf : session_wf busy_state.
Proof.
  unfold busy_state.
  apply handle_user_input_wf, create_new_chat_wf, initial_state_wf.
Qed.

Lemma delete_chat_spec_witness :
  let env := sample_env 0 no_reply in
  let s' := (delete_chat env (Some "Work") busy_state).1 in
  chat_messages s' (Some "Work") = None
  ∧ current_chat s' = Some "Default"
  ∧ Some (session_messages s') = chat_messages busy_state (Some "Default").
Proof.
  intros env s'.
  destruct (delete_chat_spec env (Some "Work") busy_state busy_state_wf)
    as [_ Hdel].
  destruct Hdel as (_ & Hgone & _ & _ & Hcur & Hshow & _);
    [done|vm_compute; by right; left|].
  split_and!; [exact Hgone|exact Hcur|].
  apply Hshow. reflexivity.
Defined.

(** The list [clear_current_chat] installs. *)
Lemma clear_current_chat_unfold env s :
  session_messages s ≠ [] →
  let kept := filter is_system (session_messages s) in
  let fresh := if decide (kept = []) then [default_system_message s] else kept in
  clear_current_chat env s =
    (save_chats env
       (set_chats (PyDict.set (chats s) (current_chat s) (length (heap s)))
          (set_messages (length (heap s)) (set_heap (heap s ++ [fresh]) s))),
     Rerun).
Proof.
  intros Hne kept fresh. unfold clear_current_chat.
  destruct (session_messages s) as [|msg rest] eqn:Hs; [done|].
  fold kept. unfold fresh.
  by destruct kept.
Qed.

(** X6.  [clear_current_chat] does nothing when the session's list is
    empty.  Otherwise it replaces the current conversation, in the
    session and in the store alike, by its system messages, or by the
    default system message when it has none: what remains is never
    empty and holds system messages only, the other conversations are
    untouched, and clearing again changes nothing more. *)
Theorem clear_current_chat_spec env s :
  session_wf s →
  let s' := (clear_current_chat env s).1 in
  let kept := filter is_system (session_messages s) in
  (session_messages s = [] → clear_current_chat env s = (s, Returned))
  ∧ (session_messages s ≠ [] →
     (clear_current_chat env s).2 = Rerun
     ∧ session_messages s' =
         (if decide (kept = []) then [default_system_message s] else kept)
     ∧ Forall is_system (session_messages s')
     ∧ session_messages s' ≠ []
     ∧ PyDict.get (chats s') (current_chat s) = Some (messages s')
     ∧ current_chat s' = current_chat s
     ∧ (∀ k, k ≠ current_chat s → chat_messages s' k = chat_messages s k)
     ∧ session_messages (clear_current_chat env s').1 = session_messages s').
Proof.
  intros Hwf s' kept. split.
  - intros Hempty. unfold clear_current_chat. by rewrite Hempty.
  - intros Hne.
    set (fresh := if decide (kept = []) then [default_system_message s] else kept).
    assert (Forall is_system fresh ∧ fresh ≠ []) as [Hsys Hfresh].
    { unfold fresh. destruct (decide (kept = [])); [by repeat constructor|].
      split; [apply Forall_filter_self|done]. }
    assert (∀ s0, session_messages s0 ≠ [] →
              session_messages (clear_current_chat env s0).1 =
                (if decide (filter is_system (session_messages s0) = [])
                 then [default_system_message s0]
                 else filter is_system (session_messages s0))) as Hshow.
    { intros s0 Hs0. rewrite (clear_current_chat_unfold env s0 Hs0). simpl.
      rewrite session_messages_save. unfold session_messages at 1. simpl.
      apply (heap_get_alloc_new (heap s0)). }
    assert (session_messages s' = fresh) as Hs' by (by apply Hshow).
    unfold s' in *. rewrite (clear_current_chat_unfold env s Hne) in *.
    fold kept fresh in Hs' |- *. simpl in *.
    destruct Hwf as (H1 & H2 & H3 & H4 & H5 & _).
    split_and!; try done.
    + by rewrite Hs'.
    + by rewrite Hs'.
    + destruct (save_chats_frame env (set_chats
        (PyDict.set (chats s) (current_chat s) (length (heap s)))
        (set_messages (length (heap s)) (set_heap (heap s ++ [fresh]) s))))
        as (_ & -> & _ & -> & _).
      simpl. apply get_set_same.
    + by destruct (save_chats_frame env (set_chats
        (PyDict.set (chats s) (current_chat s) (length (heap s)))
        (set_messages (length (heap s)) (set_heap (heap s ++ [fresh]) s))))
        as (_ & _ & -> & _).
    + intros k Hk. rewrite chat_messages_save. unfold chat_messages. simpl.
      rewrite get_set_other by done.
      destruct (PyDict.get (chats s) k) as [l|] eqn:Hl; [|done]. simpl. f_equal.
      apply (heap_get_alloc_old (heap s) fresh).
      apply (Forall_get (λ i, i < length (heap s)) _ _ _ H3 Hl).
    + rewrite Hshow by (by rewrite Hs'). rewrite Hs'.
      rewrite (filter_all is_system fresh Hsys).
      by destruct (decide (fresh = [])).
Qed.

Lemma clear_current_chat_spec_witness :
  let env := sample_env 0 no_reply in
  let s' := (clear_current_chat env busy_state).1 in
  session_messages s' = [mkMessage "system" (AppConfig.DEFAULT_SYSTEM_MESSAGE en)]
  ∧ session_messages (clear_current_chat env s').1 = session_messages s'.
Proof.
  intros env s'.
  destruct (clear_current_chat_spec env busy_state busy_state_wf) as [_ Hclear].
  destruct Hclear as (_ & Hshow & _ & _ & _ & _ & _ & Hagain); [by vm_compute|].
  split; [|exact Hagain].
  unfold s'. rewrite Hshow. reflexivity.
Defined.

End DeleteClear.

(** ** Sending a message *)

Section Send.

Implicit Types (env : Env) (s st : State) (msg : Message) (k : option string)
  (text : string).

Lemma get_values_inj (d : list (option string * nat)) k k' l :
  NoDup (snd <$> d) →
  PyDict.get d k = Some l → PyDict.get d k' = Some l → k = k'.
Proof.
  induction d as [|[k0 l0] d IH]; simpl; intros Hnd; [done|].
  apply NoDup_cons in Hnd as [Hl0 Hnd].
  destruct (decide (k0 = k)) as [Hk|Hk]; destruct (decide (k0 = k')) as [Hk'|Hk'].
  - congruence.
  - intros [= <-] Hget. destruct Hl0. by eapply get_Some_value.
  - intros Hget [= <-]. destruct Hl0. by eapply get_Some_value.
  - by apply IH.
Qed.

(** Only the current chat can refer to the session's list. *)
Lemma other_chat_not_session s k l :
  session_wf s → k ≠ current_chat s →
  PyDict.get (chats s) k = Some l → l ≠ messages s ∧ l < length (heap s).
Proof.
  intros (H1 & H2 & H3 & H4 & H5 & l0 & Hl0 & Hsync) Hk Hl. split.
  - intros ->. destruct Hsync as [->|[Hnot _]].
    + apply Hk. by eapply get_values_inj.
    + apply Hnot. by eapply get_Some_value.
  - apply (Forall_get (λ i, i < length (heap s)) _ _ _ H3 Hl).
Qed.

Lemma session_messages_set_disabled b s :
  session_messages (set_disabled b s) = session_messages s.
Proof. reflexivity. Qed.

Lemma chat_messages_set_disabled b s k :
  chat_messages (set_disabled b s) k = chat_messages s k.
Proof. reflexivity. Qed.

Lemma current_chat_set_disabled b s :
  current_chat (set_disabled b s) = current_chat s.
Proof. reflexivity. Qed.

Lemma messages_set_disabled b s : messages (set_disabled b s) = messages s.
Proof. reflexivity. Qed.

(** One append to the session's list followed by the storing of its
    trimmed form. *)
Lemma send_step_spec s st msg :
  session_wf s →
  heap st = heap_append (heap s) (messages s) msg →
  chats st = chats s → current_chat st = current_chat s → messages st = messages s →
  session_messages (store_trimmed st) = session_messages s ++ [msg]
  ∧ chat_messages (store_trimmed st) (current_chat s)
    = Some (trim_message_history (session_messages s ++ [msg]))
  ∧ (∀ k, k ≠ current_chat s →
       chat_messages (store_trimmed st) k = chat_messages s k)
  ∧ current_chat (store_trimmed st) = current_chat s
  ∧ messages (store_trimmed st) = messages s.
Proof.
  intros Hwf Hh Hc Hcur Hm.
  assert (messages s < length (heap s)) as Hlive by apply Hwf.
  assert (session_messages st = session_messages s ++ [msg]) as Hst.
  { unfold session_messages. rewrite Hh, Hm. by apply heap_get_append_same. }
  assert (messages st < length (heap st)) as Hlive'.
  { by rewrite Hh, Hm, length_heap_append. }
  unfold store_trimmed, session_messages, chat_messages. simpl.
  fold (session_messages st). rewrite Hst, Hc, Hcur, Hm.
  split_and!; try done.
  - pose proof (heap_get_alloc_old (heap st)
      (trim_message_history (session_messages s ++ [msg])) (messages st) Hlive') as Hold.
    simpl in Hold. rewrite Hm in Hold. rewrite Hold.
    pose proof Hst as Hst'. unfold session_messages in Hst'.
    rewrite Hm in Hst'. exact Hst'.
  - rewrite get_set_same. simpl. f_equal.
    apply (heap_get_alloc_new (heap st)).
  - intros k Hk. rewrite get_set_other by done.
    destruct (PyDict.get (chats s) k) as [l|] eqn:Hl; [|done]. simpl. f_equal.
    destruct (other_chat_not_session s k l Hwf Hk Hl) as [Hne Hlt].
    pose proof (heap_get_alloc_old (heap st)
      (trim_message_history (session_messages s ++ [msg])) l) as Hold.
    simpl in Hold. rewrite Hold by (by rewrite Hh, length_heap_append).
    rewrite Hh. by apply heap_get_append_other.
Qed.

(** The shape of every call that validation and the limiter let
    through. *)
Lemma accepted_shape env text s :
  session_wf s →
  validate_message text = true →
  (rate_limit_check env s).2 = true →
  let s' := (handle_user_input env text s).1 in
  let user := mkMessage "user" text in
  ∃ appended,
    (appended = [user] ∨ ∃ t, t ≠ "" ∧ appended = [user; mkMessage "assistant" t])
    ∧ session_messages s' = session_messages s ++ appended
    ∧ chat_messages s' (current_chat s)
      = Some (trim_message_history (session_messages s ++ appended))
    ∧ (∀ k, k ≠ current_chat s → chat_messages s' k = chat_messages s k)
    ∧ current_chat s' = current_chat s
    ∧ messages s' = messages s.
Proof.
  intros Hwf Hvalid Hallowed s' user. unfold s'.
  rewrite (handle_user_input_accepted env text s Hvalid Hallowed). cbv zeta.
  set (st := set_disabled true (append_message user (set_last_request_time (now env) s))).
  assert (user_phase env text s = save_chats env (store_trimmed st)) as Hphase
    by reflexivity.
  destruct (send_step_spec s st user Hwf eq_refl eq_refl eq_refl eq_refl)
    as (Hm4 & Hc4 & Ho4 & Hcur4 & Hloc4).
  assert (session_wf (user_phase env text s)) as Hwf4.
  { rewrite Hphase. apply save_chats_wf, store_trimmed_wf.
    exact (append_message_refs user s (session_wf_refs _ Hwf)). }
  set (s4 := user_phase env text s) in *.
  assert (session_messages s4 = session_messages s ++ [user]) as Hm4'
    by (by rewrite Hphase, session_messages_save).
  assert (∀ k, chat_messages s4 k = chat_messages (store_trimmed st) k) as Hc4'
    by (intros k; by rewrite Hphase, chat_messages_save).
  assert (current_chat s4 = current_chat s ∧ messages s4 = messages s) as [Hcur4' Hloc4'].
  { rewrite Hphase. by destruct (save_chats_frame env (store_trimmed st))
      as (_ & _ & -> & -> & _). }
  pose proof (get_model_response_frame env (session_messages s4) s4) as Hf.
  pose proof (get_model_response_wf env (session_messages s4) s4 Hwf4) as Hwf5.
  cbv zeta in Hf. destruct Hf as (Hh5 & Hch5 & Hcur5 & Hloc5 & _).
  destruct (get_model_response env (session_messages s4) s4) as [s5 response].
  simpl in Hh5, Hch5, Hcur5, Hloc5, Hwf5.
  assert (session_messages s5 = session_messages s ++ [user]) as Hm5.
  { unfold session_messages. rewrite Hh5, Hloc5. exact Hm4'. }
  assert (∀ k, chat_messages s5 k = chat_messages (store_trimmed st) k) as Hc5.
  { intros k. rewrite <- Hc4'. by apply chat_messages_frame. }
  assert (∃ appended, appended = [user]
            ∧ session_messages s5 = session_messages s ++ appended
            ∧ chat_messages s5 (current_chat s)
              = Some (trim_message_history (session_messages s ++ appended))
            ∧ (∀ k, k ≠ current_chat s → chat_messages s5 k = chat_messages s k)
            ∧ current_chat s5 = current_chat s ∧ messages s5 = messages s) as Hfirst.
  { exists [user]. split_and!; try done.
    - by rewrite Hc5.
    - intros k Hk. rewrite Hc5. by apply Ho4.
    - by rewrite Hcur5.
    - by rewrite Hloc5. }
  destruct Hfirst as (appended & -> & Hfirst).
  destruct (completion_text response) as [[t|]|e]; cbn [fst].
  - destruct (PyStr.truthy t) eqn:Ht; cbn [fst];
      [|exists [user]; split; [by left|done]].
    rewrite (session_messages_set_disabled false), (current_chat_set_disabled false),
      (messages_set_disabled false).
    setoid_rewrite (chat_messages_set_disabled false).
    set (st2 := append_message (mkMessage "assistant" t) s5).
    destruct (send_step_spec s5 st2 (mkMessage "assistant" t) Hwf5
                eq_refl eq_refl eq_refl eq_refl) as (Hm6 & Hc6 & Ho6 & Hcur6 & Hloc6).
    destruct Hfirst as (_ & _ & Ho5 & Hcur5' & Hloc5').
    exists [user; mkMessage "assistant" t]. split_and!.
    + right. exists t. split; [by destruct t|done].
    + rewrite session_messages_save, Hm6, Hm5. by rewrite <- app_assoc.
    + rewrite chat_messages_save, <- Hcur5', Hc6, Hm5. by rewrite <- app_assoc.
    + intros k Hk. rewrite chat_messages_save, Ho6 by (by rewrite Hcur5').
      by apply Ho5.
    + destruct (save_chats_frame env (store_trimmed st2)) as (_ & _ & -> & _).
      by rewrite Hcur6.
    + destruct (save_chats_frame env (store_trimmed st2)) as (_ & _ & _ & -> & _).
      by rewrite Hloc6.
  - exists [user]. split; [by left|done].
  - exists [user]. split; [by left|done].
Qed.

(** X7.  [handle_user_input] touches the current conversation only:
    whatever the text, the clock and the endpoint's answer, the current
    chat stays current, the session keeps its list object, and the
    stored conversation of every other chat is what it was. *)
Theorem handle_user_input_other_chats env text s :
  session_wf s →
  let s' := (handle_user_input env text s).1 in
  current_chat s' = current_chat s
  ∧ messages s' = messages s
  ∧ (∀ k, k ≠ current_chat s → chat_messages s' k = chat_messages s k).
Proof.
  intros Hwf s'. unfold s'.
  destruct (validate_message text) eqn:Hvalid;
    [|unfold handle_user_input; by rewrite Hvalid].
  destruct (rate_limit_check env s) as [s1 allowed] eqn:Hlimit.
  destruct allowed.
  - destruct (accepted_shape env text s Hwf Hvalid) as (appended & _ & _ & _ & Ho & Hc & Hm);
      [by rewrite Hlimit|done].
  - unfold handle_user_input. rewrite Hvalid, Hlimit. simpl.
    revert Hlimit. unfold rate_limit_check.
    destruct (last_request_time s) as [t|]; [|done].
    destruct (Qltb _ _); [|done]. by intros [= <-].
Qed.

Lemma handle_user_input_other_chats_witness :
  let env := sample_env 5 (Response 200 "OK" sample_url (JsonBody (completion_body "again"))) in
  chat_messages (handle_user_input env "more" busy_state).1 (Some "Default")
  = chat_messages busy_state (Some "Default").
Proof.
  intros env.
  destruct (handle_user_input_other_chats env "more" busy_state busy_state_wf)
    as (_ & _ & Hother).
  by apply Hother.
Defined.

(** What is stored for the current chat is the session's list or its
    trimmed form; either way it trims to the same list once more
    messages are added. *)
Lemma trim_stored_app (stored session appended : list Message) :
  stored = session ∨ stored = trim_message_history session →
  trim_message_history (stored ++ appended) = trim_message_history (session ++ appended).
Proof.
  intros [->| ->]; [done|].
  rewrite (trim_unfold (trim_message_history session ++ appended)),
    (trim_unfold (session ++ appended)).
  rewrite !(filter_app is_system), !(filter_app non_system).
  rewrite trim_system_part, trim_other_part.
  by rewrite last_n_app_last_n.
Qed.

Lemma stored_is_session_or_trimmed s stored :
  session_wf s → chat_messages s (current_chat s) = Some stored →
  stored = session_messages s ∨ stored = trim_message_history (session_messages s).
Proof.
  intros (_ & _ & _ & _ & _ & l & Hl & Hsync). unfold chat_messages.
  rewrite Hl. simpl. intros [= <-].
  destruct Hsync as [->|[_ Htrim]]; [by left|by right].
Qed.

(** X8.  A call that validation and the limiter let through appends the
    user message, and the assistant's answer when there is one, to the
    session's list, which is never trimmed; the stored conversation
    becomes the trimmed form of what was stored followed by the same
    messages, so it never holds more than [MAX_HISTORY_LENGTH]
    messages that are not system messages. *)
Theorem stored_history_evolves env text s stored :
  session_wf s →
  validate_message text = true →
  (rate_limit_check env s).2 = true →
  chat_messages s (current_chat s) = Some stored →
  let s' := (handle_user_input env text s).1 in
  let user := mkMessage "user" text in
  ∃ appended stored',
    (appended = [user] ∨ ∃ t, t ≠ "" ∧ appended = [user; mkMessage "assistant" t])
    ∧ session_messages s' = session_messages s ++ appended
    ∧ chat_messages s' (current_chat s') = Some stored'
    ∧ stored' = trim_message_history (stored ++ appended)
    ∧ stored' = trim_message_history (session_messages s')
    ∧ length (filter non_system stored') ≤ AppConfig.MAX_HISTORY_LENGTH.
Proof.
  intros Hwf Hvalid Hallowed Hstored s' user.
  destruct (accepted_shape env text s Hwf Hvalid Hallowed)
    as (appended & Hshape & Hm & Hc & _ & Hcur & _).
  fold s' user in Hshape, Hm, Hc, Hcur.
  exists appended, (trim_message_history (session_messages s ++ appended)).
  split_and!; try done.
  - by rewrite Hcur.
  - symmetry. apply trim_stored_app. by apply stored_is_session_or_trimmed.
  - by rewrite Hm.
  - rewrite trim_other_part, length_last_n. lia.
Qed.

Lemma stored_history_evolves_witness :
  let env := sample_env 5 (Response 200 "OK" sample_url (JsonBody (completion_body "again"))) in
  let s' := (handle_user_input env "more" busy_state).1 in
  ∃ stored stored',
    chat_messages busy_state (Some "Work") = Some stored
    ∧ chat_messages s' (Some "Work") = Some stored'
    ∧ stored' = trim_message_history
                  (stored ++ [mkMessage "user" "more"; mkMessage "assistant" "again"]).
Proof.
  intros env s'.
  destruct (chat_messages busy_state (Some "Work")) as [stored|] eqn:Hstored;
    [|by vm_compute in Hstored].
  destruct (stored_history_evolves env "more" busy_state stored busy_state_wf)
    as (appended & stored' & _ & Hm & Hc & Hs & _); [reflexivity..|exact Hstored|].
  exists stored, stored'. split; [done|]. split; [exact Hc|].
  rewrite Hs. f_equal. f_equal.
  apply (app_inv_head (session_messages busy_state)).
  rewrite <- Hm. by vm_compute.
Defined.

(** What the client posts and hands back. *)
Lemma get_model_response_sent env msgs s :
  sent (get_model_response env msgs s).1
  = sent s ++ (if opt_truthy (API_KEY env) then [request_for env s msgs] else []).
Proof.
  unfold get_model_response, request_for.
  destruct (opt_truthy (API_KEY env)); simpl; [|by rewrite app_nil_r].
  destruct (call_endpoint env) as [j|e]; [done|].
  destruct (is_requests_timeout e); [done|].
  by destruct (is_request_exception e).
Qed.

Lemma get_model_response_good env msgs s t :
  opt_truthy (API_KEY env) = true →
  good_completion (server env) t →
  ∃ j, get_model_response env msgs s = (add_sent (request_for env s msgs) s, Some j)
       ∧ completion_text (Some j) = Ok (Some t)
       ∧ PyStr.truthy t = true.
Proof.
  intros Hkey Hgood.
  inversion Hgood as [status reason url fields first rest text
                        Hst Hchoices Htext Hstrip Hs Ht].
  symmetry in Hs.
  unfold get_model_response. rewrite Hkey. simpl.
  rewrite (call_endpoint_answer env _ _ _ _ Hs Hst).
  exists (JObj fields). split_and!; [reflexivity| |by destruct (PyStr.strip text)].
  exact (completion_text_blank fields first rest text Hchoices Htext).
Qed.

Lemma user_phase_keeps env text s :
  sent (user_phase env text s) = sent s
  ∧ model_params (user_phase env text s) = model_params s
  ∧ is_chat_input_disabled (user_phase env text s) = true.
Proof. unfold user_phase, save_chats. by destruct (write_error env). Qed.

(** X9.  When the endpoint answers with a completion that is not blank
    and the API key is set, a call that validation and the limiter let
    through returns for a rerun with the input enabled again; the
    session's list gains the user message and the stripped completion
    as the assistant's message, the store holds the trimmed form of that
    list, and exactly one request was posted, whose prompt is built from
    the whole list, the new user message included. *)
Theorem successful_exchange env text s t :
  validate_message text = true →
  (rate_limit_check env s).2 = true →
  messages s < length (heap s) →
  opt_truthy (API_KEY env) = true →
  good_completion (server env) t →
  let user := mkMessage "user" text in
  let assistant := mkMessage "assistant" t in
  let s' := (handle_user_input env text s).1 in
  (handle_user_input env text s).2 = Rerun
  ∧ session_messages s' = session_messages s ++ [user; assistant]
  ∧ chat_messages s' (current_chat s)
    = Some (trim_message_history (session_messages s ++ [user; assistant]))
  ∧ last (trim_message_history (session_messages s ++ [user; assistant])) = Some assistant
  ∧ sent s' = sent s ++ [request_for env s (session_messages s ++ [user])]
  ∧ is_chat_input_disabled s' = false
  ∧ (write_error env = None → disk s' = Document (dump_chats (heap s') (chats s'))).
Proof.
  intros Hvalid Hallowed Hlive Hkey Hgood user assistant s'. unfold s'.
  rewrite (handle_user_input_accepted env text s Hvalid Hallowed). cbv zeta.
  destruct (user_phase_spec env text s Hlive) as (Hm4 & Hc4 & Hloc4 & Hcur4 & _).
  destruct (user_phase_keeps env text s) as (Hsent4 & Hparams4 & _).
  set (s4 := user_phase env text s) in *.
  destruct (get_model_response_good env (session_messages s4) s4 t Hkey Hgood)
    as (j & -> & -> & ->).
  set (s5 := add_sent (request_for env s4 (session_messages s4)) s4).
  assert (messages s5 < length (heap s5)) as Hlive5.
  { change (messages s4 < length (heap s4)). rewrite Hloc4.
    unfold s4, user_phase, save_chats.
    destruct (write_error env); simpl; rewrite length_app, length_heap_append; lia. }
  assert (session_messages s5 = session_messages s ++ [user]) as Hm5 by exact Hm4.
  set (st := append_message assistant s5).
  assert (session_messages st = session_messages s ++ [user; assistant]) as Hst.
  { unfold st, session_messages.
    change (heap_get (heap_append (heap s5) (messages s5) assistant) (messages s5)
            = heap_get (heap s) (messages s) ++ [user; assistant]).
    rewrite heap_get_append_same by done.
    fold (session_messages s5) (session_messages s). rewrite Hm5.
    by rewrite <- app_assoc. }
  assert (messages st < length (heap st)) as Hlivest.
  { unfold st. simpl. by rewrite length_heap_append. }
  cbn [fst snd].
  rewrite (session_messages_set_disabled false), session_messages_save.
  rewrite (chat_messages_set_disabled false), chat_messages_save.
  split_and!.
  - done.
  - unfold store_trimmed, session_messages. simpl.
    fold (session_messages st).
    pose proof (heap_get_alloc_old (heap st)
      (trim_message_history (session_messages st)) (messages st) Hlivest) as Hold.
    simpl in Hold. etrans; [exact Hold|exact Hst].
  - unfold store_trimmed, chat_messages. simpl. fold (session_messages st).
    rewrite Hcur4, get_set_same. simpl. f_equal. rewrite <- Hst.
    apply (heap_get_alloc_new (heap st)).
  - change [user; assistant] with ([user] ++ [assistant]).
    rewrite app_assoc. by apply last_trim_snoc.
  - destruct (save_chats_frame env (store_trimmed st)) as (_ & _ & _ & _ & _ & _ & Hs & _).
    change (sent (save_chats env (store_trimmed st)) = sent s ++
              [request_for env s (session_messages s ++ [user])]).
    rewrite Hs. change (sent s4 ++ [request_for env s4 (session_messages s4)] =
              sent s ++ [request_for env s (session_messages s ++ [user])]).
    rewrite Hsent4, Hm4. unfold request_for. by rewrite Hparams4.
  - done.
  - intros Hw. change (disk (save_chats env (store_trimmed st)) =
      Document (dump_chats (heap (save_chats env (store_trimmed st)))
                  (chats (save_chats env (store_trimmed st))))).
    rewrite save_chats_disk by done.
    by destruct (save_chats_frame env (store_trimmed st)) as (-> & -> & _).
Qed.

Lemma successful_exchange_witness :
  let env := sample_env 0 (Response 200 "OK" sample_url (JsonBody (completion_body "  hello  "))) in
  let s' := (handle_user_input env "hi" initial_state).1 in
  session_messages s' =
    session_messages initial_state
    ++ [mkMessage "user" "hi"; mkMessage "assistant" "hello"]
  ∧ sent s' =
    sent initial_state
    ++ [request_for env initial_state
          (session_messages initial_state ++ [mkMessage "user" "hi"])].
Proof.
  intros env s'.
  assert (good_completion (server env) (PyStr.strip "  hello  ")) as Hgood.
  { eapply (good_text 200 "OK" sample_url _ _ [] "  hello  ");
      [lia|reflexivity|reflexivity|by vm_compute]. }
  destruct (successful_exchange env "hi" initial_state _
              eq_refl eq_refl ltac:(simpl; lia) eq_refl Hgood)
    as (_ & Hm & _ & _ & Hsent & _).
  split; [exact Hm|exact Hsent].
Defined.

Lemma sent_after_response env s5 response :
  sent (match completion_text response with
        | Raise e => (s5, Raised e)
        | Ok None => (set_disabled false s5, Rerun)
        | Ok (Some assistant_response) =>
            if PyStr.truthy assistant_response then
              (set_disabled false
                 (save_chats env
                    (store_trimmed
                       (append_message (mkMessage "assistant" assistant_response) s5))),
               Rerun)
            else (set_disabled false s5, Rerun)
        end).1 = sent s5.
Proof.
  destruct (completion_text response) as [[t|]|e]; [|done..].
  destruct (PyStr.truthy t); [|done]. cbn [fst].
  change (sent (save_chats env (store_trimmed
            (append_message (mkMessage "assistant" t) s5))) = sent s5).
  by destruct (save_chats_frame env (store_trimmed
       (append_message (mkMessage "assistant" t) s5))) as (_ & _ & _ & _ & _ & _ & -> & _).
Qed.

(** X10.  In a session whose conversations hold records of messages,
    one call of [handle_user_input] posts one request or none: one
    exactly when the text is valid (at most 4096 characters, not blank),
    the limiter allows the call and the API key is set.  Its prompt is
    built from the session's whole list followed by the new user
    message, not from the trimmed history, and it carries the session's
    model parameters. *)
Theorem requests_posted env text s :
  messages s < length (heap s) →
  sent (handle_user_input env text s).1 =
    sent s ++
    (if validate_message text && (rate_limit_check env s).2 && opt_truthy (API_KEY env)
     then [request_for env s (session_messages s ++ [mkMessage "user" text])]
     else []).
Proof.
  intros Hlive.
  destruct (validate_message text) eqn:Hvalid; simpl;
    [|unfold handle_user_input; rewrite Hvalid; simpl; by rewrite app_nil_r].
  destruct (rate_limit_check env s) as [s1 allowed] eqn:Hlimit.
  destruct allowed; simpl.
  - rewrite (handle_user_input_accepted env text s Hvalid) by (by rewrite Hlimit).
    cbv zeta.
    destruct (user_phase_spec env text s Hlive) as (Hm4 & _).
    destruct (user_phase_keeps env text s) as (Hsent4 & Hparams4 & _).
    pose proof (get_model_response_sent env
      (session_messages (user_phase env text s)) (user_phase env text s)) as Hsent5.
    destruct (get_model_response env (session_messages (user_phase env text s))
                (user_phase env text s)) as [s5 response].
    rewrite sent_after_response. simpl in Hsent5.
    rewrite Hsent5, Hsent4, Hm4. unfold request_for. by rewrite Hparams4.
  - unfold handle_user_input. rewrite Hvalid, Hlimit. simpl. rewrite app_nil_r.
    revert Hlimit. unfold rate_limit_check.
    destruct (last_request_time s) as [t|]; [|done].
    destruct (Qltb _ _); [|done]. by intros [= <-].
Qed.

Lemma requests_posted_witness :
  sent (handle_user_input (keyless_env 0 no_reply) "hi" initial_state).1
  = sent initial_state.
Proof.
  rewrite (requests_posted (keyless_env 0 no_reply) "hi" initial_state)
    by (simpl; lia).
  reflexivity.
Defined.

(** X11.  Without the API key nothing is posted, whatever the endpoint
    would answer: the client returns no result and raises the notice,
    and the call still appends the user message, stores the trimmed
    conversation, enables the input again and asks for a rerun. *)
Theorem missing_api_key_keeps_user_message env text s :
  validate_message text = true →
  (rate_limit_check env s).2 = true →
  messages s < length (heap s) →
  opt_truthy (API_KEY env) = false →
  let user := mkMessage "user" text in
  let s' := (handle_user_input env text s).1 in
  (∀ msgs s0, get_model_response env msgs s0 = (st_error api_key_notice s0, None))
  ∧ (handle_user_input env text s).2 = Rerun
  ∧ session_messages s' = session_messages s ++ [user]
  ∧ chat_messages s' (current_chat s)
    = Some (trim_message_history (session_messages s ++ [user]))
  ∧ sent s' = sent s
  ∧ notices s' = notices (user_phase env text s) ++ [api_key_notice]
  ∧ is_chat_input_disabled s' = false.
Proof.
  intros Hvalid Hallowed Hlive Hkey user s'.
  assert (∀ msgs s0, get_model_response env msgs s0 = (st_error api_key_notice s0, None))
    as Hresp.
  { intros msgs s0. unfold get_model_response. by rewrite Hkey. }
  split; [exact Hresp|]. unfold s'.
  rewrite (handle_user_input_accepted env text s Hvalid Hallowed). cbv zeta.
  rewrite Hresp. simpl.
  destruct (user_phase_spec env text s Hlive) as (Hm4 & Hc4 & _).
  destruct (user_phase_keeps env text s) as (Hsent4 & _).
  split_and!; done.
Qed.

Lemma missing_api_key_keeps_user_message_witness :
  let env := keyless_env 0 (Response 200 "OK" sample_url (JsonBody (completion_body "hello"))) in
  let s' := (handle_user_input env "hi" initial_state).1 in
  session_messages s' = session_messages initial_state ++ [mkMessage "user" "hi"]
  ∧ sent s' = sent initial_state.
Proof.
  intros env s'.
  destruct (missing_api_key_keeps_user_message env "hi" initial_state
              eq_refl eq_refl ltac:(simpl; lia) eq_refl)
    as (_ & _ & Hm & _ & Hsent & _).
  split; [exact Hm|exact Hsent].
Defined.

End Send.

(** ** The limiter over many calls, and the chat input *)

Section LimiterRuns.

Implicit Types (env : Env) (s : State).

(** X12.  However often and whenever the limiter is asked, the clock
    readings at which it allows a call are at least one second apart,
    the first of them counted from the reading the session already
    holds. *)
Theorem allowed_readings_spaced (calls : list Env) s :
  spaced (last_request_time s) (allowed_readings calls s).
Proof.
  revert s. induction calls as [|env calls IH]; intros s; [done|].
  simpl. destruct (last_request_time s) as [t|] eqn:Hlast.
  - destruct (Qlt_le_dec (now env - t) 1) as [Hlt|Hge].
    + rewrite (rate_limit_check_refused env s t Hlast Hlt).
      specialize (IH s). by rewrite Hlast in IH.
    + rewrite (rate_limit_check_allowed env s t Hlast Hge).
      simpl. split; [done|].
      apply (IH (set_last_request_time (now env) s)).
  - rewrite (rate_limit_check_first env s Hlast). simpl.
    split; [done|]. apply (IH (set_last_request_time (now env) s)).
Qed.





End LimiterRuns.

(** ** The two clients *)

Section Clients.

Implicit Types (env : Env) (s : State).

Lemma call_endpoint_raises_iff env :
  (∃ e, call_endpoint env = Raise e) ↔ failed_call (server env).
Proof.
  split; [|apply call_endpoint_failed].
  unfold call_endpoint, http_post.
  destruct (server env) as [detail|detail|status reason url [err|j]];
    simpl; try by constructor.
  unfold raise_for_status. simpl.
  destruct (is_error_status status) eqn:Hst; simpl.
  - intros _. apply failed_status. by apply is_error_status_spec.
  - by intros [e ?].
Qed.

(** X14.  [ApiClient.get_response] posts one request with the same
    prompt as [get_model_response].  It hands back the parsed body
    exactly when [get_model_response] (with the API key set) hands back
    that body, and for every failed call, where [get_model_response]
    returns no result, it raises instead: [TimeoutError] when no answer
    came in time, [ConnectionError] otherwise. *)
Theorem api_client_raises_where_handler_returns_none env defaults api_key msgs s :
  opt_truthy (API_KEY env) = true →
  (∃ req, (ApiClient.get_response env defaults api_key msgs).1 = [req]
          ∧ req_prompt req = req_prompt (request_for env s msgs))
  ∧ match (ApiClient.get_response env defaults api_key msgs).2 with
    | inl j =>
        ¬ failed_call (server env)
        ∧ (get_model_response env msgs s).2 = Some j
    | inr err =>
        failed_call (server env)
        ∧ (get_model_response env msgs s).2 = None
        ∧ match server env with
          | NoReply _ => err = TimeoutError "Request timeout. Server not responding."
          | _ => ∃ detail, err = ConnectionError ("Network error: " +:+ detail)
          end
    end.
Proof.
  intros Hkey. unfold ApiClient.get_response, get_model_response.
  rewrite Hkey. simpl.
  pose proof (call_endpoint_raises_iff env) as Hiff.
  destruct (call_endpoint env) as [j|e] eqn:Hcall.
  - split; [by eexists|]. simpl. split; [|done].
    intros [e He]%Hiff. done.
  - assert (failed_call (server env)) as Hfail by (apply Hiff; by eexists).
    revert Hcall. unfold call_endpoint, http_post.
    destruct (server env) as [detail|detail|status reason url body]; simpl.
    + intros [= <-]. simpl. split; [by eexists|]. by split_and!.
    + intros [= <-]. simpl. split; [by eexists|]. split_and!; [done..|by eexists].
    + unfold raise_for_status. simpl.
      destruct (is_error_status status); simpl.
      * intros [= <-]. simpl. split; [by eexists|]. split_and!; [done..|by eexists].
      * destruct body as [err|j]; simpl; [|done].
        intros [= <-]. simpl. split; [by eexists|]. split_and!; [done..|by eexists].
Qed.

Lemma api_client_raises_where_handler_returns_none_witness :
  let env := sample_env 0 gateway_timeout in
  (ApiClient.get_response env default_params "secret" [mkMessage "user" "hi"]).2
  = inr (ConnectionError
           "Network error: 504 Server Error: Gateway Timeout for url: http://localhost:8000/v1/completions")
  ∧ (get_model_response env [mkMessage "user" "hi"] initial_state).2 = None.
Proof.
  intros env.
  destruct (api_client_raises_where_handler_returns_none env default_params "secret"
              [mkMessage "user" "hi"] initial_state eq_refl) as [_ Hres].
  split; [reflexivity|].
  change (ApiClient.get_response env default_params "secret" [mkMessage "user" "hi"]).2
    with (inr (ConnectionError
                 "Network error: 504 Server Error: Gateway Timeout for url: http://localhost:8000/v1/completions")
          : json + ClientError) in Hres.
  by destruct Hres as (_ & Hnone & _).
Defined.

End Clients.

(** ** Chat names and creation *)

Section Names.

Implicit Types (env : Env) (s : State) (name : string) (c : string)
  (cs : list string) (b : ascii).















Lemma drop_while_idem {A} (p : A → bool) (l : list A) :
  PyStr.drop_while p (PyStr.drop_while p l) = PyStr.drop_while p l.
Proof.
  induction l as [|x l IH]; simpl; [done|].
  destruct (p x) eqn:Hx; [done|]. simpl. by rewrite Hx.
Qed.














(** Cyrillic letters and digits are kept, the numero sign, the slash and
    the outer blanks are not. *)
Remark sanitize_cyrillic : sanitize "  Чат №1 / (2025)  " = "Чат 1  (2025)".
Proof. vm_compute. reflexivity. Qed.

Lemma heap_get_other_alloc (h : list (list Message)) (d : list (option string * nat))
    (v : list Message) k l :
  Forall (λ kv, kv.2 < length h) d → PyDict.get d k = Some l →
  heap_get (h ++ [v]) l = heap_get h l.
Proof.
  intros Hd Hl. apply (heap_get_alloc_old h v).
  apply (Forall_get (λ i, i < length h) _ _ _ Hd Hl).
Qed.

(** X16.  [create_new_chat] with a given, non-empty name files the chat
    under the sanitized name, or under a generated name when nothing of
    the given one is left.  If that name is taken, nothing happens.  If
    it is free, the chat is added as the last one, with the default
    system message as its only message, and becomes the current chat;
    the other conversations stay as they are, and no count of chats
    stands in the way. *)
Theorem create_new_chat_given_name env name s :
  session_wf s →
  name ≠ "" →
  let key := resolve_chat_name env s (Some name) in
  let s' := (create_new_chat env (Some name) s).1 in
  key = Some (if PyStr.truthy (sanitize name) then sanitize name
              else generate_chat_name env s)
  ∧ (key ∈ PyDict.keys (chats s) → create_new_chat env (Some name) s = (s, Returned))
  ∧ (key ∉ PyDict.keys (chats s) →
     (create_new_chat env (Some name) s).2 = Rerun
     ∧ PyDict.keys (chats s') = PyDict.keys (chats s) ++ [key]
     ∧ current_chat s' = key
     ∧ PyDict.get (chats s') key = Some (messages s')
     ∧ session_messages s' = [default_system_message s]
     ∧ (∀ k, k ≠ key → chat_messages s' k = chat_messages s k)).
Proof.
  intros Hwf Hname key s'.
  split; [by apply resolve_chat_name_given|]. split.
  - intros Hin. apply create_new_chat_existing. by apply contains_key.
  - intros Hfresh. apply contains_false_key in Hfresh.
    destruct (create_new_chat_fresh env (Some name) s Hfresh)
      as (Hctl & Hcur & _ & Hsession).
    fold key s' in Hctl, Hcur, Hsession.
    assert (chats s' = PyDict.set (chats s) key (length (heap s))
            ∧ heap s' = heap s ++ [[default_system_message s]]
            ∧ messages s' = length (heap s)) as (Hchats & Hheap & Hloc).
    { unfold s', create_new_chat. fold key. rewrite Hfresh. simpl.
      unfold save_chats. by destruct (write_error env). }
    split_and!; try done.
    + rewrite Hchats, keys_set. by rewrite Hfresh.
    + rewrite Hchats, Hloc. apply get_set_same.
    + intros k Hk. unfold chat_messages. rewrite Hchats, Hheap.
      rewrite get_set_other by done.
      destruct (PyDict.get (chats s) k) as [l|] eqn:Hl; [|done]. simpl. f_equal.
      eapply heap_get_other_alloc; [apply Hwf|exact Hl].
Qed.

Lemma create_new_chat_given_name_witness :
  let env := sample_env 0 no_reply in
  let s' := (create_new_chat env (Some "  Чат №1 / (2025)  ") initial_state).1 in
  PyDict.keys (chats s') = [Some "Default"; Some "Чат 1  (2025)"]
  ∧ current_chat s' = Some "Чат 1  (2025)".
Proof.
  intros env s'.
  destruct (create_new_chat_given_name env "  Чат №1 / (2025)  " initial_state
              initial_state_wf ltac:(done)) as (Hkey & _ & Hnew).
  destruct Hnew as (_ & Hkeys & Hcur & _).
  { rewrite Hkey. vm_compute. intros Hin.
    apply list_elem_of_singleton in Hin. discriminate Hin. }
  split; [exact Hkeys|exact Hcur].
Defined.

End Names.

(** ** Import and export *)

Section ImportExport.

Implicit Types (env : Env) (s : State) (k : option string) (items : list json).

Lemma as_message_of_message (msg : Message) : as_message (json_of_message msg) = Some msg.
Proof. by destruct msg. Qed.

Lemma exported_messages_validated (msgs : list Message) :
  all_have_role_and_content (json_of_message <$> msgs) = Ok true
  ∧ mapM as_message (json_of_message <$> msgs) = Some msgs.
Proof.
  split; [|apply mapM_fmap_Some, as_message_of_message].
  induction msgs as [|msg msgs IH]; [done|]. simpl. exact IH.
Qed.

(** What a validated upload does to the session. *)
Lemma import_chat_installs env uploaded_file s chat_name items msgs :
  session_wf s →
  import_chat_try uploaded_file = Ok (chat_name, items) →
  mapM as_message items = Some msgs →
  ∃ s', import_chat env uploaded_file s = Some (s', Returned)
        ∧ current_chat s' = Some chat_name
        ∧ session_messages s' = msgs
        ∧ PyDict.get (chats s') (Some chat_name) = Some (messages s')
        ∧ (∀ k, k ≠ Some chat_name → chat_messages s' k = chat_messages s k)
        ∧ (write_error env = None → disk s' = Document (dump_chats (heap s') (chats s'))).
Proof.
  intros Hwf Htry Hmsgs. unfold import_chat. rewrite Htry, Hmsgs. simpl.
  eexists. split; [reflexivity|].
  set (st := set_messages (length (heap s))
               (set_current_chat (Some chat_name)
                  (set_chats (PyDict.set (chats s) (Some chat_name) (length (heap s)))
                     (set_heap (heap s ++ [msgs]) s)))).
  destruct (save_chats_frame env st) as (Hh & Hc & Hcur & Hm & _).
  split_and!.
  - by rewrite Hcur.
  - rewrite session_messages_save. apply (heap_get_alloc_new (heap s) msgs).
  - rewrite Hc, Hm. apply get_set_same.
  - intros k Hk. rewrite chat_messages_save. unfold chat_messages. simpl.
    rewrite get_set_other by done.
    destruct (PyDict.get (chats s) k) as [l|] eqn:Hl; [|done]. simpl. f_equal.
    eapply heap_get_other_alloc; [apply Hwf|exact Hl].
  - intros Hw. rewrite save_chats_disk by done. by rewrite Hh, Hc.
Qed.










Lemma length_map_chars (f : ascii → ascii) (name : string) :
  String.length (PyStr.map_chars f name) = String.length name.
Proof. induction name as [|c r IH]; simpl; [done|]. by rewrite IH. Qed.

Lemma string_length_app (a b : string) :
  String.length (a +:+ b) = String.length a + String.length b.
Proof.
  induction a as [|c a IH]; [done|].
  change (S (String.length (a +:+ b)) = S (String.length a) + String.length b).
  by rewrite IH.
Qed.


Lemma export_chat_known name s msgs :
  name ≠ "" → chat_messages s (Some name) = Some msgs →
  export_chat None (Some name) s =
    (s, Some (mkExportFile (safe_name name +:+ "_export.json")
                (JArr (json_of_message <$> msgs)))).
Proof.
  intros Hname. unfold chat_messages, export_chat.
  destruct (PyDict.get (chats s) (Some name)) as [l|] eqn:Hl; [|done].
  simpl. intros [= <-].
  assert (PyDict.contains (chats s) (Some name) = true) as ->
    by (apply contains_key; by eapply get_Some_key).
  by destruct name.
Qed.


(** X19.  Export followed by import of the exported file is a round
    trip: the upload passes the validation, and the imported chat,
    named [Import: <export file name>] and made current, holds exactly
    the messages of the exported conversation, which itself stays in
    the store unchanged. *)
Theorem export_import_round_trip env name s msgs :
  session_wf s →
  name ≠ "" →
  chat_messages s (Some name) = Some msgs →
  ∃ f s',
    export_chat None (Some name) s = (s, Some f)
    ∧ import_chat env (upload_of_export f) s = Some (s', Returned)
    ∧ current_chat s' = Some ("Import: " +:+ safe_name name +:+ "_export.json")
    ∧ session_messages s' = msgs
    ∧ chat_messages s' (current_chat s') = Some msgs
    ∧ chat_messages s' (Some name) = Some msgs.
Proof.
  intros Hwf Hname Hmsgs.
  set (f := mkExportFile (safe_name name +:+ "_export.json")
              (JArr (json_of_message <$> msgs))).
  destruct (exported_messages_validated msgs) as [Hvalid Hback].
  assert (import_chat_try (upload_of_export f)
          = Ok ("Import: " +:+ safe_name name +:+ "_export.json",
                json_of_message <$> msgs)) as Htry.
  { unfold import_chat_try, upload_of_export. simpl. by rewrite Hvalid. }
  destruct (import_chat_installs env (upload_of_export f) s _ _ msgs Hwf Htry Hback)
    as (s' & Hrun & Hcur & Hsession & Hget & Hother & _).
  exists f, s'. split_and!; try done.
  - by apply export_chat_known.
  - rewrite Hcur. unfold chat_messages. rewrite Hget. simpl. f_equal.
    exact Hsession.
  - rewrite Hother; [done|]. intros [= Heq].
    apply (f_equal String.length) in Heq.
    rewrite !string_length_app in Heq. unfold safe_name, replace_char in Heq.
    rewrite !length_map_chars in Heq. simpl in Heq. lia.
Qed.

Lemma export_import_round_trip_witness :
  let env := sample_env 0 no_reply in
  ∃ f s',
    export_chat None (Some "Work") busy_state = (busy_state, Some f)
    ∧ import_chat env (upload_of_export f) busy_state = Some (s', Returned)
    ∧ current_chat s' = Some "Import: Work_export.json"
    ∧ Some (session_messages s') = chat_messages busy_state (Some "Work").
Proof.
  intros env.
  destruct (chat_messages busy_state (Some "Work")) as [msgs|] eqn:Hmsgs;
    [|by vm_compute in Hmsgs].
  destruct (export_import_round_trip env "Work" busy_state msgs busy_state_wf
              ltac:(done) Hmsgs) as (f & s' & Hexp & Himp & Hcur & Hsession & _).
  exists f, s'. split_and!; [exact Hexp|exact Himp|exact Hcur|by rewrite Hsession].
Defined.

End ImportExport.

(** ** Saving, loading and the first run *)

Section SaveLoad.

Implicit Types (env : Env) (s : State) (k : option string)
  (h : list (list Message)) (d : list (option string * nat)).

Lemma as_messages_dump (msgs : list Message) :
  as_messages (JArr (json_of_message <$> msgs)) = Some msgs.
Proof. simpl. apply mapM_fmap_Some, as_message_of_message. Qed.

Lemma dump_chats_keys h d :
  PyDict.keys (map (λ kv, (json_key kv.1, JArr (json_of_message <$> heap_get h kv.2))) d)
  = json_key <$> PyDict.keys d.
Proof.
  unfold PyDict.keys. induction d as [|[k l] d IH]; [done|].
  simpl. f_equal. exact IH.
Qed.

Lemma dump_chats_get h d k l :
  NoDup (json_key <$> PyDict.keys d) →
  PyDict.get d k = Some l →
  PyDict.get (map (λ kv, (json_key kv.1, JArr (json_of_message <$> heap_get h kv.2))) d)
    (json_key k)
  = Some (JArr (json_of_message <$> heap_get h l)).
Proof.
  unfold PyDict.keys. induction d as [|[k0 l0] d IH]; simpl; [done|].
  intros [Hk0 Hnd]%NoDup_cons.
  destruct (decide (k0 = k)) as [->|Hne].
  - intros [= ->]. by rewrite decide_True.
  - intros Hget. rewrite decide_False; [by apply IH|].
    intros Heq. apply Hk0. rewrite Heq.
    apply list_elem_of_fmap. exists k. split; [done|].
    by eapply get_Some_key.
Qed.

(** X20.  Saving and loading is a round trip as long as the store holds
    at most [MAX_CHATS] chats whose names stay distinct when written as
    JSON keys: the loaded mapping has the same names in the same order,
    every conversation reads back as the list of messages it was, and
    no notice is raised. *)
Theorem save_then_load env s :
  write_error env = None →
  length (chats s) ≤ AppConfig.MAX_CHATS →
  NoDup (json_key <$> PyDict.keys (chats s)) →
  let loaded := (load_saved_chats (disk (save_chats env s))).1 in
  (load_saved_chats (disk (save_chats env s))).2 = []
  ∧ PyDict.keys loaded = json_key <$> PyDict.keys (chats s)
  ∧ (∀ k msgs, chat_messages s k = Some msgs →
       PyDict.get loaded (json_key k) ≫= as_messages = Some msgs).
Proof.
  intros Hw Hlen Hnd loaded. unfold loaded.
  rewrite save_chats_disk by done. unfold dump_chats.
  unfold load_saved_chats, load_saved_chats_try.
  rewrite length_map.
  destruct (Nat.ltb_spec AppConfig.MAX_CHATS (length (chats s))) as [|_]; [lia|].
  simpl. split_and!; [done|apply dump_chats_keys|].
  intros k msgs. unfold chat_messages.
  destruct (PyDict.get (chats s) k) as [l|] eqn:Hl; [|done]. simpl. intros [= <-].
  rewrite (dump_chats_get _ _ _ _ Hnd Hl). apply as_messages_dump.
Qed.

Lemma save_then_load_witness :
  let env := sample_env 0 no_reply in
  let loaded := (load_saved_chats (disk (save_chats env busy_state))).1 in
  PyDict.keys loaded = ["Default"; "Work"]
  ∧ PyDict.get loaded "Work" ≫= as_messages = chat_messages busy_state (Some "Work").
Proof.
  intros env loaded.
  destruct (save_then_load env busy_state) as (_ & Hkeys & Hget).
  - reflexivity.
  - vm_compute. lia.
  - apply (bool_decide_unpack _). by vm_compute.
  - split; [exact Hkeys|].
    destruct (chat_messages busy_state (Some "Work")) as [msgs|] eqn:Hmsgs;
      [|by vm_compute in Hmsgs].
    exact (Hget (Some "Work") msgs Hmsgs).
Defined.




End SaveLoad.

(** ** How a call ends, and selecting the chat again *)

Section Outcomes.

Implicit Types (env : Env) (s : State) (text : string).

(** X22.  In a session whose conversations hold records of messages,
    the way [handle_user_input] hands control back tells what it did.
    It returns plainly exactly when validation or the limiter turned
    the text away, and then the state is untouched; it asks for a rerun,
    with the input enabled, after every exchange it carried through;
    and an exception escapes, with the input left disabled, only when
    the client did return a body, on which the lookup of the completion
    text raised. *)
Theorem handle_user_input_outcomes env text s :
  let accepted := validate_message text && (rate_limit_check env s).2 in
  match (handle_user_input env text s).2 with
  | Returned => accepted = false ∧ (handle_user_input env text s).1 = s
  | Rerun =>
      accepted = true
      ∧ is_chat_input_disabled (handle_user_input env text s).1 = false
  | Raised e =>
      accepted = true
      ∧ is_chat_input_disabled (handle_user_input env text s).1 = true
      ∧ ∃ j, (get_model_response env
                (session_messages (user_phase env text s)) (user_phase env text s)).2
             = Some j
             ∧ completion_text (Some j) = Raise e
  end.
Proof.
  intros accepted. unfold accepted.
  destruct (validate_message text) eqn:Hvalid;
    [|unfold handle_user_input; by rewrite Hvalid].
  destruct (rate_limit_check env s) as [s1 allowed] eqn:Hlimit.
  destruct allowed.
  - rewrite (handle_user_input_accepted env text s Hvalid) by (by rewrite Hlimit).
    cbv zeta.
    pose proof (get_model_response_frame env
      (session_messages (user_phase env text s)) (user_phase env text s)) as Hf.
    cbv zeta in Hf. destruct Hf as (_ & _ & _ & _ & Hflag & _).
    destruct (user_phase_keeps env text s) as (_ & _ & Hflag4).
    destruct (get_model_response env (session_messages (user_phase env text s))
                (user_phase env text s)) as [s5 response].
    simpl in Hflag. simpl.
    destruct (completion_text response) as [[t|]|e] eqn:Htext; simpl.
    + by destruct (PyStr.truthy t).
    + done.
    + split_and!; [done|by rewrite Hflag|].
      destruct response as [j|]; [|done]. by exists j.
  - unfold handle_user_input. rewrite Hvalid, Hlimit. simpl. split; [done|].
    revert Hlimit. unfold rate_limit_check.
    destruct (last_request_time s) as [t|]; [|done].
    destruct (Qltb _ _); [|done]. by intros [= <-].
Qed.

(** X23.  The full history lives in the session's list only while the
    chat stays selected: selecting the current chat again after a call
    that was let through makes the stored, trimmed conversation the
    session's list, with at most [MAX_HISTORY_LENGTH] messages that are
    not system messages. *)
Theorem reselect_after_send env text s :
  session_wf s →
  validate_message text = true →
  (rate_limit_check env s).2 = true →
  let s1 := (handle_user_input env text s).1 in
  let s2 := (switch_chat (current_chat s1) s1).1 in
  (switch_chat (current_chat s1) s1).2 = Rerun
  ∧ session_messages s2 = trim_message_history (session_messages s1)
  ∧ PyDict.get (chats s2) (current_chat s2) = Some (messages s2)
  ∧ length (filter non_system (session_messages s2)) ≤ AppConfig.MAX_HISTORY_LENGTH.
Proof.
  intros Hwf Hvalid Hallowed s1 s2.
  destruct (accepted_shape env text s Hwf Hvalid Hallowed)
    as (appended & _ & Hm & Hc & _ & Hcur & _).
  fold s1 in Hm, Hc, Hcur.
  assert (chat_messages s1 (current_chat s1)
          = Some (trim_message_history (session_messages s1))) as Hstored
    by (by rewrite Hcur, Hm).
  unfold s2, switch_chat. unfold chat_messages in Hstored.
  destruct (PyDict.get (chats s1) (current_chat s1)) as [l|] eqn:Hl; [|done].
  simpl in Hstored. injection Hstored as Hstored. simpl.
  assert (session_messages (set_messages l (set_current_chat (current_chat s1) s1))
          = trim_message_history (session_messages s1)) as Hs2 by exact Hstored.
  rewrite Hs2. split_and!; [done..|].
  rewrite trim_other_part, length_last_n. lia.
Qed.

Lemma reselect_after_send_witness :
  let env := sample_env 0 (Response 200 "OK" sample_url (JsonBody (completion_body "hello"))) in
  let s1 := (handle_user_input env "hi" initial_state).1 in
  session_messages (switch_chat (current_chat s1) s1).1
  = trim_message_history (session_messages s1).
Proof.
  intros env s1.
  by destruct (reselect_after_send env "hi" initial_state initial_state_wf
                 eq_refl eq_refl) as (_ & Hsession & _).
Defined.

End Outcomes.

(** ** Every conversation keeps its own system messages *)

Section OwnSystemMessages.

Implicit Types (env : Env) (s : State) (msg : Message) (l c : list Message)
  (k : option string) (E : option string → Prop).




















End OwnSystemMessages.
